(** * Sandboxed task runner: the agent scripts of [run_agent.py] and the examples

    A shallow embedding of the Python entry points that start an E2B sandbox,
    write a generated agent program into it, run it and tear the sandbox
    down:

    - [src/run_agent.py]            (module [RunAgent])
    - [src/examples/api_server.py]  (module [ApiServer])
    - [src/examples/run_agent.py]   (module [ExampleRunAgent])
    - [src/examples/basic_sync.py]  (module [BasicSync])

    Python [str] values are sequences of code points; the calls into the
    sandbox client and the console output are recorded in a trace, and the
    answers of the remote service are read from an explicit [world]. The
    command-line front end of [run_agent.py] (its [main]) only parses
    arguments and prints, and is left out. *)

From Stdlib Require Import NArith ZArith Ascii String List Bool Lia.
From stdpp Require Import base option list strings gmap.

Import ListNotations.
Local Open Scope N_scope.

(** ** Python strings *)

(** A Python [str] is a sequence of code points ([ord] of each character). *)
Abbreviation pystr := (list N).

(** The invariant of the type [str]: every code point is at most U+10FFFF. *)
Definition wf_str (s : pystr) : Prop := Forall (fun c => c < 0x110000) s.

(** An ASCII literal of the source, as a [str]. *)
Definition lit (s : string) : pystr :=
  map (fun a => N_of_ascii a) (list_ascii_of_string s).

Definition DQUOTE : N := 34.     (* the double quote *)
Definition BACKSLASH_CHAR : N := 92.
Definition NEWLINE : N := 10.

(** [str.isspace] on one character: the code points Python 3 treats as
    whitespace (bidirectional type WS, B or S, or category Zs). *)
Definition isspace (c : N) : bool :=
  ((9 <=? c) && (c <=? 13)) || ((28 <=? c) && (c <=? 32))
  || (c =? 0x85) || (c =? 0xa0) || (c =? 0x1680)
  || ((0x2000 <=? c) && (c <=? 0x200a))
  || (c =? 0x2028) || (c =? 0x2029) || (c =? 0x202f) || (c =? 0x205f)
  || (c =? 0x3000).

Fixpoint lstrip (s : pystr) : pystr :=
  match s with
  | c :: s' => if isspace c then lstrip s' else s
  | [] => []
  end.

Definition rstrip (s : pystr) : pystr := rev (lstrip (rev s)).

(** [s.strip()] with no argument. *)
Definition strip (s : pystr) : pystr := rstrip (lstrip s).

(** Truth value of an optional string, as in [if not x] on the result of
    [os.getenv]: [None] and the empty string are false. *)
Definition truthy (v : option pystr) : bool :=
  match v with
  | Some (_ :: _) => true
  | _ => false
  end.

(** ** [json.dumps] and [json.loads] on strings

    The standard library's encoder with its default [ensure_ascii=True]
    ([py_encode_basestring_ascii]) and its string scanner
    ([py_scanstring], strict mode). *)
Module Json.

(** One lower-case hexadecimal digit. *)
Definition hexdigit (d : N) : N := if d <? 10 then 48 + d else 87 + d.

(** ['{0:04x}'.format(n)] for [n < 0x10000]. *)
Definition hex4 (n : N) : pystr :=
  [hexdigit (n / 4096 mod 16); hexdigit (n / 256 mod 16);
   hexdigit (n / 16 mod 16); hexdigit (n mod 16)].

(** ['\\u{0:04x}'.format(n)] *)
Definition uescape (n : N) : pystr := BACKSLASH_CHAR :: 117 :: hex4 n.

(** The replacement of one character: [ESCAPE_DCT] first, then the
    [\uXXXX] forms; characters in [' '..'~'] other than the quote and the
    backslash do not match [ESCAPE_ASCII] and are kept. *)
Definition replace (c : N) : pystr :=
  if c =? 92 then [92; 92]
  else if c =? 34 then [92; 34]
  else if (32 <=? c) && (c <=? 126) then [c]
  else if c =? 8 then [92; 98]
  else if c =? 12 then [92; 102]
  else if c =? 10 then [92; 110]
  else if c =? 13 then [92; 114]
  else if c =? 9 then [92; 116]
  else if c <? 0x10000 then uescape c
  else
    let n := c - 0x10000 in
    let s1 := N.lor 0xd800 (N.land (N.shiftr n 10) 0x3ff) in
    let s2 := N.lor 0xdc00 (N.land n 0x3ff) in
    uescape s1 ++ uescape s2.

Definition encode_basestring_ascii (s : pystr) : pystr :=
  DQUOTE :: flat_map replace s ++ [DQUOTE].

(** [json.dumps(s)] for a [str] argument. *)
Definition dumps (s : pystr) : pystr := encode_basestring_ascii s.

(** [json.dumps(l)] for a list of strings, with the default separators. *)
Fixpoint dumps_items (l : list pystr) : pystr :=
  match l with
  | [] => []
  | [x] => dumps x
  | x :: l' => dumps x ++ lit ", " ++ dumps_items l'
  end.

Definition dumps_list (l : list pystr) : pystr :=
  lit "[" ++ dumps_items l ++ lit "]".

(** The value of one hexadecimal digit, either case. *)
Definition hexval (c : N) : option N :=
  if (48 <=? c) && (c <=? 57) then Some (c - 48)
  else if (97 <=? c) && (c <=? 102) then Some (c - 87)
  else if (65 <=? c) && (c <=? 70) then Some (c - 55)
  else None.

(** [_decode_uXXXX]: four hexadecimal digits, or an error. *)
Definition decode_uXXXX (h1 h2 h3 h4 : N) : option N :=
  match hexval h1, hexval h2, hexval h3, hexval h4 with
  | Some a, Some b, Some c, Some d => Some (((a * 16 + b) * 16 + c) * 16 + d)
  | _, _, _, _ => None
  end.

(** The table [BACKSLASH] of the decoder. *)
Definition backslash (esc : N) : option N :=
  if esc =? 34 then Some 34
  else if esc =? 92 then Some 92
  else if esc =? 47 then Some 47
  else if esc =? 98 then Some 8
  else if esc =? 102 then Some 12
  else if esc =? 110 then Some 10
  else if esc =? 114 then Some 13
  else if esc =? 116 then Some 9
  else None.

Definition is_high (u : N) : bool := (0xd800 <=? u) && (u <=? 0xdbff).
Definition is_low (u : N) : bool := (0xdc00 <=? u) && (u <=? 0xdfff).

Definition join_surrogates (uni uni2 : N) : N :=
  0x10000 + N.lor (N.shiftl (uni - 0xd800) 10) (uni2 - 0xdc00).

(** [_append(char)] followed by the rest of the loop. *)
Definition append (c : N) (r : option (pystr * pystr)) : option (pystr * pystr) :=
  match r with
  | Some (chunks, rest) => Some (c :: chunks, rest)
  | None => None
  end.

(** [py_scanstring(s, end)] from just after the opening quote: the decoded
    string and what follows the closing quote, or [None] for a
    [JSONDecodeError]. *)
Fixpoint scanstring (s : pystr) : option (pystr * pystr) :=
  match s with
  | [] => None                                (* unterminated string *)
  | c :: s1 =>
    if c =? 34 then Some ([], s1)
    else if c =? 92 then
      match s1 with
      | [] => None
      | esc :: s2 =>
        if esc =? 117 then
          match s2 with
          | h1 :: h2 :: h3 :: h4 :: s3 =>
            match decode_uXXXX h1 h2 h3 h4 with
            | None => None
            | Some uni =>
              match s3 with
              | b :: u :: g1 :: g2 :: g3 :: g4 :: s4 =>
                if is_high uni && (b =? 92) && (u =? 117) then
                  match decode_uXXXX g1 g2 g3 g4 with
                  | None => None
                  | Some uni2 =>
                    if is_low uni2
                    then append (join_surrogates uni uni2) (scanstring s4)
                    else append uni (scanstring s3)
                  end
                else append uni (scanstring s3)
              | _ => append uni (scanstring s3)
              end
            end
          | _ => None                         (* invalid \uXXXX escape *)
          end
        else
          match backslash esc with
          | None => None                      (* invalid \escape *)
          | Some char => append char (scanstring s2)
          end
      end
    else if c <? 32 then None                 (* control character, strict *)
    else append c (scanstring s1)
  end.

(** [WHITESPACE.match(s, idx).end()] *)
Fixpoint skip_ws (s : pystr) : pystr :=
  match s with
  | c :: s' =>
    if (c =? 32) || (c =? 9) || (c =? 10) || (c =? 13) then skip_ws s' else s
  | [] => []
  end.

(** [json.loads(s)] on a document that is one string: [None] stands for a
    [JSONDecodeError] and for every document that is not a string, which
    the programs below never pass. *)
Definition loads (s : pystr) : option pystr :=
  match skip_ws s with
  | c :: s1 =>
    if c =? 34 then
      match scanstring s1 with
      | Some (v, rest) =>
        match skip_ws rest with
        | [] => Some v
        | _ => None                           (* extra data *)
        end
      | None => None
      end
    else None
  | [] => None
  end.

End Json.

(** ** Python string literals

    The part of the lexer that reads a short string literal in double
    quotes, without prefix. *)
Module PyLex.

(** The escapes of one character after the backslash; the numeric and
    named escapes ([\x], [\u], [\N], octal) are outside this fragment. *)
Definition simple_escape (c : N) : option pystr :=
  if c =? 92 then Some [92]
  else if c =? 34 then Some [34]
  else if c =? 39 then Some [39]
  else if c =? 10 then Some []                (* backslash-newline *)
  else if c =? 97 then Some [7]
  else if c =? 98 then Some [8]
  else if c =? 102 then Some [12]
  else if c =? 110 then Some [10]
  else if c =? 114 then Some [13]
  else if c =? 116 then Some [9]
  else if c =? 118 then Some [11]
  else None.

Definition prepend (v : pystr) (r : option (pystr * pystr)) : option (pystr * pystr) :=
  match r with
  | Some (value, rest) => Some (v ++ value, rest)
  | None => None
  end.

(** The body of the literal up to the closing quote: the value denoted and
    the source text that follows the literal. A line end or a null
    character inside the literal is a syntax error. *)
Fixpoint string_body (s : pystr) : option (pystr * pystr) :=
  match s with
  | [] => None
  | c :: s1 =>
    if c =? 34 then Some ([], s1)
    else if c =? 92 then
      match s1 with
      | [] => None
      | e :: s2 =>
        match simple_escape e with
        | Some v => prepend v (string_body s2)
        | None => None
        end
      end
    else if (c =? 10) || (c =? 13) || (c =? 0) then None
    else prepend [c] (string_body s1)
  end.

(** A string literal at the head of [s]. Three quotes in a row open a long
    string, which is not what the generated programs rely on. *)
Definition string_literal (s : pystr) : option (pystr * pystr) :=
  match s with
  | q :: s1 =>
    if q =? 34 then
      match s1 with
      | q2 :: q3 :: _ =>
        if (q2 =? 34) && (q3 =? 34) then None else string_body s1
      | _ => string_body s1
      end
    else None
  | [] => None
  end.

End PyLex.

(** ** The sandbox client

    The calls into the [e2b] client and the console output are recorded in a
    trace, in program order. What the remote service answers is read from a
    [world]. *)

(** [sandbox.sandbox_id] identifies the sandbox object. *)
Abbreviation handle := (list N).

(** The value of [commands.run]. *)
Record CommandResult := {
  exit_code : Z;
  stdout : pystr;
  stderr : pystr
}.

Inductive exn :=
| ValueError (msg : pystr)
| RuntimeError (msg : pystr)
| HTTPException (status_code : Z) (detail : pystr)
| SandboxException (msg : pystr)    (* an error of the client, a subclass of Exception *)
| TimeoutException (msg : pystr)    (* the client's timeout, a subclass of Exception *)
| CancelledError.                   (* a BaseException that is not an Exception *)

(** [isinstance(e, Exception)] *)
Definition is_Exception (e : exn) : bool :=
  match e with
  | CancelledError => false
  | _ => true
  end.

(** The decimal digits of [n] in front of [acc]; one unit of fuel per
    digit. *)
Fixpoint digits (fuel : nat) (n : N) (acc : pystr) : pystr :=
  match fuel with
  | O => acc
  | S fuel' =>
    let acc' := (48 + n mod 10) :: acc in
    if n / 10 =? 0 then acc' else digits fuel' (n / 10) acc'
  end.

(** [str(n)] for an integer. A number has at most as many decimal digits
    as binary ones. *)
Definition str_int (n : Z) : pystr :=
  match n with
  | Z0 => lit "0"
  | Zpos p => digits (S (N.to_nat (N.log2 (Npos p)))) (Npos p) []
  | Zneg p => 45 :: digits (S (N.to_nat (N.log2 (Npos p)))) (Npos p) []
  end.

(** [str(e)]; for the [HTTPException] of the web framework it is the status
    code, a colon and the detail. *)
Definition str_exn (e : exn) : pystr :=
  match e with
  | ValueError msg | RuntimeError msg | SandboxException msg
  | TimeoutException msg => msg
  | HTTPException status_code detail => str_int status_code ++ lit ": " ++ detail
  | CancelledError => []
  end.

Inductive outcome (A : Type) :=
| Return (a : A)
| Raise (e : exn).
Arguments Return {A} a.
Arguments Raise {A} e.

Inductive event :=
| Create (template : option pystr) (timeout : Z) (envs : gmap string (option pystr))
| FilesWrite (sandbox : handle) (path data : pystr)
| CommandsRun (sandbox : handle) (cmd : pystr) (timeout : Z)
| Kill (sandbox : handle)
| Printed (text : pystr).

Abbreviation trace := (list event).

Record world := {
  w_create : option pystr -> Z -> gmap string (option pystr) -> outcome handle;
  w_write : handle -> pystr -> pystr -> outcome unit;
  w_run : handle -> pystr -> Z -> outcome CommandResult;
  w_kill : handle -> outcome unit
}.

(** ** Statements, exceptions and local variables

    A computation reads and updates the local variables [S], extends the
    trace, and returns or raises. *)
Definition M (S A : Type) : Type := S -> trace * S * outcome A.

Definition ret {S A} (a : A) : M S A := fun s => ([], s, Return a).

Definition raise {S A} (e : exn) : M S A := fun s => ([], s, Raise e).

Definition bind {S A B} (m : M S A) (k : A -> M S B) : M S B :=
  fun s =>
    match m s with
    | (t, s1, Return a) =>
      match k a s1 with
      | (t', s2, r) => (t ++ t', s2, r)
      end
    | (t, s1, Raise e) => (t, s1, Raise e)
    end.

Declare Scope py_scope.
Delimit Scope py_scope with py.
Notation "x <- m ;; k" := (bind m (fun x => k))
  (at level 100, m at next level, right associativity) : py_scope.
Notation "m ;; k" := (bind m (fun _ => k))
  (at level 100, right associativity) : py_scope.

Definition get {S} : M S S := fun s => ([], s, Return s).
Definition put {S} (s : S) : M S unit := fun _ => ([], s, Return tt).

(** One call, with the answer of the world. *)
Definition call {S A} (ev : event) (answer : outcome A) : M S A :=
  fun s => ([ev], s, answer).

Definition when {S} (b : bool) (m : M S unit) : M S unit :=
  if b then m else ret tt.

(** [try: body finally: final]. The final block always runs; when it raises,
    its exception is the one that propagates (Python keeps the exception or
    return value it replaces only as the [__context__] of the new one). *)
Definition try_finally {S A} (body : M S A) (final : M S unit) : M S A :=
  fun s =>
    match body s with
    | (t, s1, r) =>
      match final s1 with
      | (t', s2, Return _) => (t ++ t', s2, r)
      | (t', s2, Raise e) => (t ++ t', s2, Raise e)
      end
    end.

(** [try: body except Exception as e: handler(e)] *)
Definition try_except {S A} (body : M S A) (handler : exn -> M S A) : M S A :=
  fun s =>
    match body s with
    | (t, s1, Raise e) =>
      if is_Exception e then
        match handler e s1 with
        | (t', s2, r) => (t ++ t', s2, r)
        end
      else (t, s1, Raise e)
    | ok => ok
    end.

Section Client.
Context {S : Type} (w : world).

(** [Sandbox.create(template=..., timeout=..., envs=...)] *)
Definition create (template : option pystr) (timeout : Z)
    (envs : gmap string (option pystr)) : M S handle :=
  call (Create template timeout envs) (w_create w template timeout envs).

(** [sandbox.files.write(path, data)] *)
Definition files_write (sandbox : handle) (path data : pystr) : M S unit :=
  call (FilesWrite sandbox path data) (w_write w sandbox path data).

(** [sandbox.commands.run(cmd, timeout=...)] *)
Definition commands_run (sandbox : handle) (cmd : pystr) (timeout : Z)
    : M S CommandResult :=
  call (CommandsRun sandbox cmd timeout) (w_run w sandbox cmd timeout).

(** [sandbox.kill()] *)
Definition kill (sandbox : handle) : M S unit :=
  call (Kill sandbox) (w_kill w sandbox).

Definition print (text : pystr) : M S unit :=
  call (Printed text) (Return tt).
End Client.

(** The trace and the result of a whole run. *)
Definition run_trace {S A} (m : M S A) (s : S) : trace := fst (fst (m s)).
Definition run_result {S A} (m : M S A) (s : S) : outcome A := snd (m s).

(** [os.getenv(name)] on the process environment. *)
Definition os_getenv (env : gmap string pystr) (name : string) : option pystr :=
  env !! name.

(** How an f-string shows an optional string. *)
Definition format (v : option pystr) : pystr :=
  match v with
  | Some s => s
  | None => lit "None"
  end.

(** Lines joined with a line end after each, as in a triple-quoted block. *)
Definition lines (l : list pystr) : pystr :=
  flat_map (fun x => x ++ [NEWLINE]) l.

(** A double-quoted word of program text. *)
Definition quoted (s : string) : pystr := DQUOTE :: lit s ++ [DQUOTE].

Definition TEMPLATE_VAR : string := "E2B_TEMPLATE_ID".
Definition TOKEN_VAR : string := "CLAUDE_CODE_OAUTH_TOKEN".
Definition API_KEY_VAR : string := "E2B_API_KEY".

Definition AGENT_PATH : pystr := lit "/home/user/agent.py".
Definition AGENT_CMD : pystr := lit "python3 /home/user/agent.py".

(** [s.startswith(p)], returning what follows the prefix. *)
Fixpoint strip_prefix (p s : pystr) : option pystr :=
  match p, s with
  | [], _ => Some s
  | a :: p', b :: s' => if a =? b then strip_prefix p' s' else None
  | _ :: _, [] => None
  end.

Local Open Scope py_scope.

(** ** [src/run_agent.py] *)
Module RunAgent.

(** The text of the f-string before the interpolated expression. *)
Definition code_head : pystr :=
  lines [ [];
          lit "import asyncio";
          lit "import json";
          lit "from claude_agent_sdk import query";
          [];
          lit "async def main():";
          lit "    result = None" ]
  ++ lit "    prompt = json.loads(".

(** The text of the f-string after the interpolated expression. *)
Definition code_tail : pystr :=
  lines [ lit ")";
          lit "    async for msg in query(prompt=prompt):";
          lit "        if hasattr(msg, " ++ quoted "result" ++ lit "):";
          lit "            result = msg.result";
          lit "    if result:";
          lit "        print(result)";
          [];
          lit "asyncio.run(main())" ].

(** [agent_code]: the program written into the sandbox. *)
Definition agent_code (prompt : pystr) : pystr :=
  code_head ++ Json.dumps (Json.dumps prompt) ++ code_tail.

(** What the generated program binds to [prompt] when it runs
    [prompt = json.loads(<literal>)]: after the fixed head the text must be
    one string literal followed by exactly the fixed tail, so that the
    program keeps the shape of the template; the value of the literal is
    handed to [json.loads]. [None] when the text does not have this shape
    or the decoder raises. *)
Definition embedded_prompt (code : pystr) : option pystr :=
  match strip_prefix code_head code with
  | Some text =>
    match PyLex.string_literal text with
    | Some (value, rest) =>
      if bool_decide (rest = code_tail) then Json.loads value else None
    | None => None
    end
  | None => None
  end.

Definition run_agent (env : gmap string pystr) (w : world)
    (prompt : pystr) (timeout : Z) (verbose : bool) : M unit pystr :=
  let template_id := os_getenv env TEMPLATE_VAR in
  let oauth_token := os_getenv env TOKEN_VAR in
  if negb (truthy template_id) then
    raise (ValueError (lit "E2B_TEMPLATE_ID not set. Run: ./setup.sh"))
  else if negb (truthy oauth_token) then
    raise (ValueError (lit "CLAUDE_CODE_OAUTH_TOKEN not set. Run: ./setup.sh"))
  else
    let agent_code := agent_code prompt in
    when verbose
      (print (lit "Starting sandbox (template: " ++ format template_id ++ lit ")...")) ;;
    sandbox <- create w template_id timeout {[ TOKEN_VAR := oauth_token ]} ;;
    try_finally
      (when verbose (print (lit "Sandbox started. Running agent...")) ;;
       files_write w sandbox AGENT_PATH agent_code ;;
       result <- commands_run w sandbox AGENT_CMD timeout ;;
       if negb (exit_code result =? 0)%Z then
         raise (RuntimeError (lit "Agent failed: " ++ stderr result))
       else
         ret (strip (stdout result)))
      (kill w sandbox ;;
       when verbose (print (lit "Sandbox terminated."))).

End RunAgent.

(** ** [src/examples/api_server.py] *)
Module ApiServer.

Record AgentRequest := {
  prompt : pystr;
  model : pystr;
  timeout : Z;
  allowed_tools : list pystr
}.

Record AgentResponse := {
  success : bool;
  result : option pystr;
  error : option pystr;
  sandbox_id : option pystr
}.

(** The module-level constants, read from the environment at import. *)
Definition TEMPLATE_ID (env : gmap string pystr) := os_getenv env TEMPLATE_VAR.
Definition OAUTH_TOKEN (env : gmap string pystr) := os_getenv env TOKEN_VAR.
Definition E2B_API_KEY (env : gmap string pystr) := os_getenv env API_KEY_VAR.

Definition agent_code (request : AgentRequest) : pystr :=
  lines [ [];
          lit "import asyncio";
          lit "import json";
          lit "from claude_agent_sdk import query, ClaudeAgentOptions";
          [];
          lit "async def main():";
          lit "    result = None";
          lit "    prompt = json.loads("
            ++ Json.dumps (Json.dumps (prompt request)) ++ lit ")";
          lit "    allowed_tools = json.loads("
            ++ Json.dumps (Json.dumps_list (allowed_tools request)) ++ lit ")";
          [];
          lit "    async for msg in query(";
          lit "        prompt=prompt,";
          lit "        options=ClaudeAgentOptions(";
          lit "            model=" ++ [DQUOTE] ++ model request ++ [DQUOTE] ++ lit ",";
          lit "            allowed_tools=allowed_tools,";
          lit "            max_turns=20";
          lit "        )";
          lit "    ):";
          lit "        if hasattr(msg, " ++ quoted "result" ++ lit "):";
          lit "            result = msg.result";
          [];
          lit "    if result:";
          lit "        print(result)";
          [];
          lit "asyncio.run(main())" ].

(** [x or "Agent failed"] *)
Definition or_default (x d : pystr) : pystr :=
  match x with
  | [] => d
  | _ => x
  end.

(** The handler of [POST /agent/run]. The local variable [sandbox] is the
    state: it is [None] until [create] has returned. *)
Definition run_agent (env : gmap string pystr) (w : world)
    (request : AgentRequest) : M (option handle) AgentResponse :=
  if negb (forallb truthy [TEMPLATE_ID env; OAUTH_TOKEN env; E2B_API_KEY env]) then
    raise (HTTPException 500 (lit "Server not configured. Run onboarding.py"))
  else
    let agent_code := agent_code request in
    put None ;;
    try_finally
      (try_except
         (sandbox <- create w (TEMPLATE_ID env) (timeout request)
                       {[ TOKEN_VAR := OAUTH_TOKEN env ]} ;;
          put (Some sandbox) ;;
          files_write w sandbox AGENT_PATH agent_code ;;
          result <- commands_run w sandbox AGENT_CMD (timeout request) ;;
          if negb (exit_code result =? 0)%Z then
            ret {| success := false;
                   result := None;
                   error := Some (or_default (stderr result) (lit "Agent failed"));
                   sandbox_id := Some sandbox |}
          else
            ret {| success := true;
                   result := Some (strip (stdout result));
                   error := None;
                   sandbox_id := Some sandbox |})
         (fun e =>
            sandbox <- get ;;
            ret {| success := false;
                   result := None;
                   error := Some (str_exn e);
                   sandbox_id := sandbox |}))
      (sandbox <- get ;;
       match sandbox with
       | Some sandbox => kill w sandbox
       | None => ret tt
       end).

End ApiServer.

(** ** [src/examples/run_agent.py] *)
Module ExampleRunAgent.

Definition prompt : pystr := lit "What is 2 + 2? Reply in exactly 5 words.".

(** The f-string of this example puts the prompt between quotes as it is. *)
Definition agent_code (prompt : pystr) : pystr :=
  lines [ [];
          lit "import asyncio";
          lit "from claude_agent_sdk import query";
          [];
          lit "async def run():";
          lit "    async for msg in query(prompt=" ++ [DQUOTE] ++ prompt ++ [DQUOTE] ++ lit "):";
          lit "        if hasattr(msg, " ++ quoted "result" ++ lit "):";
          lit "            print(msg.result)";
          [];
          lit "asyncio.run(run())" ].

Definition main (env : gmap string pystr) (w : world) : M unit unit :=
  let template_id := os_getenv env TEMPLATE_VAR in
  let oauth_token := os_getenv env TOKEN_VAR in
  let agent_code := agent_code prompt in
  print (lit "Starting sandbox...") ;;
  sandbox <- create w template_id 60 {[ TOKEN_VAR := oauth_token ]} ;;
  try_finally
    (print (lit "Running agent...") ;;
     files_write w sandbox AGENT_PATH agent_code ;;
     result <- commands_run w sandbox AGENT_CMD 60 ;;
     print (NEWLINE :: lit "--- Result ---") ;;
     print (stdout result) ;;
     match stderr result with
     | [] => ret tt
     | _ => print (lit "--- Errors ---") ;; print (stderr result)
     end)
    (kill w sandbox ;;
     print (lit "Done.")).

End ExampleRunAgent.

(** ** [src/examples/basic_sync.py] *)
Module BasicSync.

Definition TEMPLATE_ID (env : gmap string pystr) := os_getenv env TEMPLATE_VAR.
Definition OAUTH_TOKEN (env : gmap string pystr) := os_getenv env TOKEN_VAR.

Definition agent_code : pystr :=
  lines [ [];
          lit "import asyncio";
          lit "from claude_agent_sdk import query";
          [];
          lit "async def main():";
          lit "    print(" ++ quoted "Agent starting..." ++ lit ")";
          lit "    async for msg in query(prompt="
            ++ quoted "What is 2 + 2? Reply in exactly 5 words." ++ lit "):";
          lit "        if hasattr(msg, " ++ quoted "content" ++ lit "):";
          lit "            for block in msg.content:";
          lit "                if hasattr(block, " ++ quoted "text" ++ lit "):";
          lit "                    print(f" ++ quoted "Agent response: {block.text}" ++ lit ")";
          lit "        elif hasattr(msg, " ++ quoted "result" ++ lit "):";
          lit "            print(f" ++ quoted "Final result: {msg.result}" ++ lit ")";
          [];
          lit "asyncio.run(main())" ].

Definition ROCKET : N := 0x1F680.
Definition CHECK_MARK : N := 0x2705.
Definition ROBOT : N := 0x1F916.

Definition run_agent_in_sandbox (env : gmap string pystr) (w : world) : M unit unit :=
  print (ROCKET :: lit " Starting sandbox...") ;;
  sandbox <- create w (TEMPLATE_ID env) 120 {[ TOKEN_VAR := OAUTH_TOKEN env ]} ;;
  try_finally
    (print (CHECK_MARK :: lit " Sandbox started") ;;
     print (ROBOT :: lit " Running Claude Agent SDK inside sandbox..." ++ [NEWLINE]) ;;
     files_write w sandbox AGENT_PATH agent_code ;;
     result <- commands_run w sandbox AGENT_CMD 60 ;;
     print (lit "--- Sandbox Output ---") ;;
     print (stdout result) ;;
     match stderr result with
     | [] => ret tt
     | _ => print (lit "--- Stderr ---") ;; print (stderr result)
     end)
    (kill w sandbox ;;
     print (NEWLINE :: CHECK_MARK :: lit " Sandbox terminated")).

End BasicSync.

(** ** Runs and what can be observed of them *)

(** The two implementations of the task runner: [run_agent] of
    [run_agent.py] and the handler of [api_server.py]. *)
Inductive task :=
| RunAgentTask (prompt : pystr) (timeout : Z) (verbose : bool)
| ApiServerTask (request : ApiServer.AgentRequest).

(** All four scripts that drive a sandbox through create, write, run, kill. *)
Inductive script :=
| TaskScript (t : task)
| ExampleScript
| BasicSyncScript.

Inductive task_result :=
| Text (s : pystr)                            (* the [str] of [run_agent.py] *)
| Response (r : ApiServer.AgentResponse).     (* the reply of the server *)

Definition map_outcome {A B} (f : A -> B) (r : outcome A) : outcome B :=
  match r with
  | Return a => Return (f a)
  | Raise e => Raise e
  end.

(** One run of a task: its trace and how it ends. *)
Definition runTask (env : gmap string pystr) (w : world) (t : task)
    : trace * outcome task_result :=
  match t with
  | RunAgentTask prompt timeout verbose =>
    let m := RunAgent.run_agent env w prompt timeout verbose in
    (run_trace m tt, map_outcome Text (run_result m tt))
  | ApiServerTask request =>
    let m := ApiServer.run_agent env w request in
    (run_trace m None, map_outcome Response (run_result m None))
  end.

Definition script_trace (env : gmap string pystr) (w : world) (s : script) : trace :=
  match s with
  | TaskScript t => fst (runTask env w t)
  | ExampleScript => run_trace (ExampleRunAgent.main env w) tt
  | BasicSyncScript => run_trace (BasicSync.run_agent_in_sandbox env w) tt
  end.

(** The program text a task generates; the environment is not an argument. *)
Definition generated_program (t : task) : pystr :=
  match t with
  | RunAgentTask prompt _ _ => RunAgent.agent_code prompt
  | ApiServerTask request => ApiServer.agent_code request
  end.

(** The variables each implementation checks before it does anything, as
    its code has them: [run_agent.py] tests [template_id] and [oauth_token]
    (lines 41 and 43), the server tests all three (line 80). *)
Definition checked_vars (t : task) : list string :=
  match t with
  | RunAgentTask _ _ _ => [TEMPLATE_VAR; TOKEN_VAR]
  | ApiServerTask _ => [TEMPLATE_VAR; TOKEN_VAR; API_KEY_VAR]
  end.

(** The errors that report a missing setting: [ValueError] in
    [run_agent.py], [HTTPException] with status 500 in the server. *)
Definition is_configuration_error (e : exn) : bool :=
  match e with
  | ValueError _ => true
  | HTTPException code _ => (code =? 500)%Z
  | _ => false
  end.

(** The text a successful run hands back, and whether the result reports
    success. *)
Definition primary_result (r : task_result) : option pystr :=
  match r with
  | Text s => Some s
  | Response resp => ApiServer.result resp
  end.

Definition reports_success (r : task_result) : bool :=
  match r with
  | Text _ => true
  | Response resp => ApiServer.success resp
  end.

(** The caller is told of the error [e]: it propagates, or the server's
    reply carries its text and reports failure. *)
Definition surfaces (r : outcome task_result) (e : exn) : Prop :=
  match r with
  | Raise e' => e' = e
  | Return (Response resp) =>
    ApiServer.success resp = false /\ ApiServer.error resp = Some (str_exn e)
  | Return (Text _) => False
  end.

Section Observations.
Variable w : world.

(** The sandboxes the provisioning calls of a trace returned. *)
Definition created (tr : trace) : list handle :=
  flat_map (fun ev =>
    match ev with
    | Create template timeout envs =>
      match w_create w template timeout envs with
      | Return h => [h]
      | Raise _ => []
      end
    | _ => []
    end) tr.

(** The results of the commands of a trace that ran to their end. *)
Definition exits (tr : trace) : list CommandResult :=
  flat_map (fun ev =>
    match ev with
    | CommandsRun h cmd timeout =>
      match w_run w h cmd timeout with
      | Return r => [r]
      | Raise _ => []
      end
    | _ => []
    end) tr.

(** The errors raised by the upload and the execution calls of a trace. *)
Definition step_failures (tr : trace) : list exn :=
  flat_map (fun ev =>
    match ev with
    | FilesWrite h path data =>
      match w_write w h path data with
      | Raise e => [e]
      | Return _ => []
      end
    | CommandsRun h cmd timeout =>
      match w_run w h cmd timeout with
      | Raise e => [e]
      | Return _ => []
      end
    | _ => []
    end) tr.

(** The errors raised by the release calls of a trace. *)
Definition release_failures (tr : trace) : list exn :=
  flat_map (fun ev =>
    match ev with
    | Kill h =>
      match w_kill w h with
      | Raise e => [e]
      | Return _ => []
      end
    | _ => []
    end) tr.
End Observations.

(** The provisioning calls, the released sandboxes, the uploaded programs
    and the timeouts of a trace. *)
Definition creates (tr : trace) : list (option pystr * Z * gmap string (option pystr)) :=
  flat_map (fun ev =>
    match ev with
    | Create template timeout envs => [(template, timeout, envs)]
    | _ => []
    end) tr.

Definition kills (tr : trace) : list handle :=
  flat_map (fun ev => match ev with Kill h => [h] | _ => [] end) tr.

Definition programs (tr : trace) : list pystr :=
  flat_map (fun ev => match ev with FilesWrite _ _ data => [data] | _ => [] end) tr.

Definition create_timeouts (tr : trace) : list Z :=
  flat_map (fun ev => match ev with Create _ timeout _ => [timeout] | _ => [] end) tr.

Definition run_timeouts (tr : trace) : list Z :=
  flat_map (fun ev => match ev with CommandsRun _ _ timeout => [timeout] | _ => [] end) tr.

(** A world in which every call answers the same way whatever its
    arguments. *)
Definition const_world (c : outcome handle) (wr : outcome unit)
    (r : outcome CommandResult) (k : outcome unit) : world :=
  {| w_create := fun _ _ _ => c;
     w_write := fun _ _ _ => wr;
     w_run := fun _ _ _ => r;
     w_kill := fun _ => k |}.

(** ** Predicates on strings used in the statements *)

(** No high surrogate is directly followed by a low surrogate. Text that is
    well-formed Unicode has no surrogate code points at all. *)
Fixpoint no_surrogate_pair (s : pystr) : bool :=
  match s with
  | c :: s' =>
    match s' with
    | c' :: _ => negb (Json.is_high c && Json.is_low c') && no_surrogate_pair s'
    | [] => true
    end
  | [] => true
  end.

(** Printable ASCII, the characters [' '..'~']. *)
Definition printable (c : N) : bool := (32 <=? c) && (c <=? 126).

(** The text [t] after a [\uXXXX] escape does not start with the escape of
    a low surrogate. *)
Definition benign (t : pystr) : bool :=
  match t with
  | b :: u :: g1 :: g2 :: g3 :: g4 :: _ =>
    if (b =? 92) && (u =? 117) then
      match Json.decode_uXXXX g1 g2 g3 g4 with
      | Some uni2 => negb (Json.is_low uni2)
      | None => false
      end
    else true
  | _ => true
  end.

(** The two halves the encoder writes for a supplementary code point. *)
Definition high_half (c : N) : N :=
  N.lor 0xd800 (N.land (N.shiftr (c - 0x10000) 10) 0x3ff).
Definition low_half (c : N) : N :=
  N.lor 0xdc00 (N.land (c - 0x10000) 0x3ff).

(** [sub in s] *)
Definition contains (sub s : pystr) : Prop :=
  exists a b, s = a ++ sub ++ b.

(** Example settings and answers used to instantiate the statements. *)
Definition example_env : gmap string pystr :=
  {[ TEMPLATE_VAR := lit "tpl"; TOKEN_VAR := lit "sk-ant-oat-1"; API_KEY_VAR := lit "e2b_1" ]}.

Definition example_request : ApiServer.AgentRequest :=
  {| ApiServer.prompt := lit "What is 2 + 2?";
     ApiServer.model := lit "claude-sonnet-4-5";
     ApiServer.timeout := 120;
     ApiServer.allowed_tools := [lit "Read"; lit "Write"] |}.

Definition exit_with (code : Z) (out err : string) : outcome CommandResult :=
  Return {| exit_code := code; stdout := lit out; stderr := lit err |}.

(** The errors raised between provisioning and release: those of the upload
    and of the execution call and, in [run_agent.py], the [RuntimeError]
    raised for an exit status other than zero. *)
Definition primary_errors (w : world) (t : task) (tr : trace) : list exn :=
  step_failures w tr ++
  match t with
  | RunAgentTask _ _ _ =>
    flat_map (fun res =>
      if (exit_code res =? 0)%Z then []
      else [RuntimeError (lit "Agent failed: " ++ stderr res)]) (exits w tr)
  | ApiServerTask _ => []
  end.

(** A provisioning call with its injected variables blanked. *)
Definition redact (ev : event) : event :=
  match ev with
  | Create template timeout _ => Create template timeout ∅
  | _ => ev
  end.

(** A service on which every call succeeds and the command answers [r]. *)
Definition calm_world (r : outcome CommandResult) : world :=
  const_world (Return (lit "sbx-1")) (Return tt) r (Return tt).

(** The same service, except that the release call fails. *)
Definition stormy_world (r : outcome CommandResult) : world :=
  const_world (Return (lit "sbx-1")) (Return tt) r
    (Raise (SandboxException (lit "kill failed"))).

(** A service on which both the upload and the release call fail. *)
Definition broken_world : world :=
  const_world (Return (lit "sbx-1")) (Raise (SandboxException (lit "boom")))
    (exit_with 0 "4" "") (Raise (SandboxException (lit "kill failed"))).

Definition boom : CommandResult :=
  {| exit_code := 1; stdout := []; stderr := lit "boom" |}.

Definition four : CommandResult :=
  {| exit_code := 0; stdout := [32; 52; 10]; stderr := [] |}.

Definition silent : CommandResult :=
  {| exit_code := 0; stdout := []; stderr := [] |}.

(** * The rest of the scripts *)

(** [a or b] and [a and b] on optional strings. *)
Definition py_or (a b : option pystr) : option pystr := if truthy a then a else b.
Definition py_and (a b : option pystr) : option pystr := if truthy a then b else a.

(** [sep.join(l)] *)
Fixpoint join (sep : pystr) (l : list pystr) : pystr :=
  match l with
  | [] => []
  | [x] => x
  | x :: l' => x ++ sep ++ join sep l'
  end.

Definition CHECK_MARK : N := 0x2705.
Definition CROSS_MARK : N := 0x274c.
Definition WARNING_SIGN : pystr := [0x26a0; 0xfe0f].
Definition PACKAGE : N := 0x1f4e6.
Definition PARTY : N := 0x1f389.

(** The calls of a trace that go to the sandbox client: everything but the
    console output. *)
Definition sandbox_calls (tr : trace) : trace :=
  flat_map (fun ev => match ev with Printed _ => [] | _ => [ev] end) tr.

(** The lines a trace prints on standard output. *)
Definition printed (tr : trace) : list pystr :=
  flat_map (fun ev => match ev with Printed text => [text] | _ => [] end) tr.

(** The errors raised by the provisioning calls of a trace. *)
Definition provisioning_failures (w : world) (tr : trace) : list exn :=
  flat_map (fun ev =>
    match ev with
    | Create template timeout envs =>
      match w_create w template timeout envs with
      | Raise e => [e]
      | Return _ => []
      end
    | _ => []
    end) tr.

(** The timeout a task passes on. *)
Definition task_timeout (t : task) : Z :=
  match t with
  | RunAgentTask _ timeout _ => timeout
  | ApiServerTask request => ApiServer.timeout request
  end.

(** ** [src/run_agent.py]: the command line *)
Module RunAgentMain.

(** The parsed arguments, as [parser.parse_args()] leaves them. *)
Record Namespace := {
  prompt : option pystr;
  prompt_flag : option pystr;
  timeout : Z;
  verbose : bool
}.

Inductive output :=
| Call (ev : event)             (* a sandbox call, or a line on standard output *)
| PrintHelp                     (* [parser.print_help()] *)
| Stderr (text : pystr).        (* [print(..., file=sys.stderr)] *)

Inductive ending :=
| Returned                      (* [main] returns: exit status 0 *)
| SystemExit (code : Z)         (* [sys.exit(code)] *)
| Propagated (e : exn).         (* an error that [except Exception] lets through *)

(** [main], from the parsed arguments on. *)
Definition main (env : gmap string pystr) (w : world) (args : Namespace)
    : list output * ending :=
  let prompt := py_or (prompt args) (prompt_flag args) in
  if negb (truthy prompt) then
    ([PrintHelp], SystemExit 1)
  else
    let m := RunAgent.run_agent env w (default [] prompt) (timeout args) (verbose args) in
    match run_result m tt with
    | Return result =>
      (map Call (run_trace m tt) ++ [Call (Printed result)], Returned)
    | Raise e =>
      if is_Exception e then
        (map Call (run_trace m tt) ++ [Stderr (lit "Error: " ++ str_exn e)],
         SystemExit 1)
      else (map Call (run_trace m tt), Propagated e)
    end.

(** What [parser.parse_args()] (line 122) does with the command line: it
    returns the arguments, or argparse ends the script itself, with status
    2 after a usage error (an unknown flag, a [--timeout] that is not an
    integer) and with status 0 after [-h]. argparse is not repository
    code: its answer is taken as given. *)
Inductive parse_result :=
| Parsed (args : Namespace)
| ParserExit (code : Z).

(** [main] as a whole (lines 96-140). What argparse prints before it ends
    the script is not recorded. *)
Definition whole_main (env : gmap string pystr) (w : world)
    (parse_args : parse_result) : list output * ending :=
  match parse_args with
  | Parsed args => main env w args
  | ParserExit code => ([], SystemExit code)
  end.

(** The sandbox calls and standard output among the outputs of [main]. *)
Definition calls (out : list output) : trace :=
  flat_map (fun o => match o with Call ev => [ev] | _ => [] end) out.

Definition stderr_lines (out : list output) : list pystr :=
  flat_map (fun o => match o with Stderr text => [text] | _ => [] end) out.

End RunAgentMain.

(** ** [src/examples/api_server.py]: start-up and health *)
Module ApiServerApp.

(** [lifespan], up to its [yield]. *)
Definition lifespan (env : gmap string pystr) : M unit unit :=
  let missing :=
    (if negb (truthy (ApiServer.TEMPLATE_ID env)) then [lit "E2B_TEMPLATE_ID"] else [])
    ++ (if negb (truthy (ApiServer.OAUTH_TOKEN env)) then [lit "CLAUDE_CODE_OAUTH_TOKEN"] else [])
    ++ (if negb (truthy (ApiServer.E2B_API_KEY env)) then [lit "E2B_API_KEY"] else []) in
  match missing with
  | _ :: _ =>
    print (WARNING_SIGN ++ lit "  Missing env vars: " ++ join (lit ", ") missing) ;;
    print (lit "Run: python onboarding.py")
  | [] =>
    print (CHECK_MARK :: lit " All credentials configured") ;;
    print (PACKAGE :: lit " Template ID: " ++ format (ApiServer.TEMPLATE_ID env))
  end.

(** The reply of [GET /health]. *)
Record Health := {
  status : pystr;
  template_id : option pystr;
  credentials_configured : bool
}.

Definition health (env : gmap string pystr) : Health :=
  {| status := lit "ok";
     template_id := ApiServer.TEMPLATE_ID env;
     credentials_configured :=
       truthy (py_and (ApiServer.OAUTH_TOKEN env) (ApiServer.E2B_API_KEY env)) |}.

End ApiServerApp.

(** ** [json.loads] on a list of strings *)
Module JsonArray.

(** The loop of [JSONArray] from the first value on: the values and what
    follows the closing bracket. Every value must be a string; [None] stands
    for a [JSONDecodeError] and for every other kind of value. One unit of
    fuel is spent per value. *)
Fixpoint items (fuel : nat) (s : pystr) : option (list pystr * pystr) :=
  match fuel with
  | O => None
  | S fuel' =>
    match s with
    | c :: s1 =>
      if c =? 34 then
        match Json.scanstring s1 with
        | Some (value, rest) =>
          match Json.skip_ws rest with
          | d :: rest' =>
            if d =? 93 then Some ([value], rest')
            else if d =? 44 then
              match items fuel' (Json.skip_ws rest') with
              | Some (values, rest'') => Some (value :: values, rest'')
              | None => None
              end
            else None                           (* expecting a comma *)
          | [] => None
          end
        | None => None
        end
      else None
    | [] => None                                (* expecting a value *)
    end
  end.

(** [JSONArray] from just after the opening bracket. *)
Definition array (s : pystr) : option (list pystr * pystr) :=
  match Json.skip_ws s with
  | c :: s1 =>
    if c =? 93 then Some ([], s1)
    else items (length s) (Json.skip_ws s)
  | [] => None
  end.

(** [json.loads(s)] on a document that is one list of strings. *)
Definition loads (s : pystr) : option (list pystr) :=
  match Json.skip_ws s with
  | c :: s1 =>
    if c =? 91 then
      match array s1 with
      | Some (values, rest) =>
        match Json.skip_ws rest with
        | [] => Some values
        | _ => None                             (* extra data *)
        end
      | None => None
      end
    else None
  | [] => None
  end.

End JsonArray.

(** ** [src/examples/api_server.py]: the generated program as text *)
Module ApiProgram.

(** The four fixed pieces of the f-string, around the three interpolated
    expressions. *)
Definition code_head : pystr :=
  lines [ [];
          lit "import asyncio";
          lit "import json";
          lit "from claude_agent_sdk import query, ClaudeAgentOptions";
          [];
          lit "async def main():";
          lit "    result = None" ]
  ++ lit "    prompt = json.loads(".

Definition code_mid1 : pystr :=
  lines [ lit ")" ] ++ lit "    allowed_tools = json.loads(".

Definition code_mid2 : pystr :=
  lines [ lit ")";
          [];
          lit "    async for msg in query(";
          lit "        prompt=prompt,";
          lit "        options=ClaudeAgentOptions(" ]
  ++ lit "            model=".

Definition code_tail : pystr :=
  lines [ lit ",";
          lit "            allowed_tools=allowed_tools,";
          lit "            max_turns=20";
          lit "        )";
          lit "    ):";
          lit "        if hasattr(msg, " ++ quoted "result" ++ lit "):";
          lit "            result = msg.result";
          [];
          lit "    if result:";
          lit "        print(result)";
          [];
          lit "asyncio.run(main())" ].


(** What the generated program hands to [query]: the prompt and the tools
    it decodes and the model it names. [None] when the text does not have
    the shape of the template, with one string literal at each of the three
    places, or when a decoder raises. *)
Definition embedded (code : pystr) : option (pystr * list pystr * pystr) :=
  text ← strip_prefix code_head code;
  '(doc1, rest) ← PyLex.string_literal text;
  text ← strip_prefix code_mid1 rest;
  '(doc2, rest) ← PyLex.string_literal text;
  text ← strip_prefix code_mid2 rest;
  '(model, rest) ← PyLex.string_literal text;
  if bool_decide (rest = code_tail) then
    prompt ← Json.loads doc1;
    tools ← JsonArray.loads doc2;
    Some (prompt, tools, model)
  else None.

End ApiProgram.

(** A character that a double-quoted literal takes as it is: not the quote,
    the backslash, a line end or the null character. *)
Definition plain (c : N) : bool :=
  negb ((c =? 34) || (c =? 92) || (c =? 10) || (c =? 13) || (c =? 0)).

(** A string without whitespace at either end. *)
Definition trimmed (s : pystr) : bool :=
  match s with
  | [] => true
  | c :: _ => negb (isspace c) && negb (isspace (List.last s c))
  end.

(** The number of lines of a text that ends each line with a line end. *)
Definition line_count (s : pystr) : nat :=
  length (List.filter (fun c => c =? NEWLINE) s).

(** [for x in l: body(x)] *)
Fixpoint for_each {S A} (l : list A) (body : A -> M S unit) : M S unit :=
  match l with
  | [] => ret tt
  | x :: l' => body x ;; for_each l' body
  end.

(** A call of a function that has local variables of its own. *)
Definition lift {S A} (m : M unit A) : M S A :=
  fun s =>
    match m tt with
    | (t, _, r) => (t, s, r)
    end.

(** [s.startswith(p)] *)
Definition startswith (s p : pystr) : bool :=
  match strip_prefix p s with
  | Some _ => true
  | None => false
  end.

(** [c * n] for a one-character string [c]. *)
Definition repeat_char (c : N) (n : nat) : pystr := repeat c n.

(** [s.split()]: the words between runs of white space. *)
Fixpoint split_words (word s : pystr) : list pystr :=
  match s with
  | [] => match word with [] => [] | _ => [word] end
  | c :: s' =>
    if isspace c then
      match word with
      | [] => split_words [] s'
      | _ => word :: split_words [] s'
      end
    else split_words (word ++ [c]) s'
  end.

Definition str_split (s : pystr) : list pystr := split_words [] s.

(** ** [src/scripts/validate_setup.py] *)
Module ValidateSetup.

(** The dictionary [required_vars], in the order of its entries. *)
Definition required_vars : list (string * string) :=
  [ (API_KEY_VAR, "E2B API key");
    (TEMPLATE_VAR, "E2B template ID");
    (TOKEN_VAR, "Claude OAuth token") ]%string.

(** [value[:10] + "..." if len(value) > 10 else value] *)
Definition preview (value : pystr) : pystr :=
  if (10 <? length value)%nat then take 10 value ++ lit "..." else value.

(** [check_environment]; the local variable [missing] is the state. *)
Definition check_environment (env : gmap string pystr) : M (list pystr) bool :=
  print (lit "Checking environment variables...") ;;
  put [] ;;
  for_each required_vars (fun '(var, description) =>
    let value := os_getenv env var in
    if negb (truthy value) then
      print (CROSS_MARK :: lit " " ++ lit var ++ lit " not set ("
             ++ lit description ++ lit ")") ;;
      missing <- get ;;
      put (missing ++ [lit var])
    else
      print (CHECK_MARK :: lit " " ++ lit var ++ lit ": "
             ++ preview (default [] value))) ;;
  missing <- get ;;
  match missing with
  | _ :: _ =>
    print (NEWLINE :: CROSS_MARK :: lit " Missing "
           ++ str_int (Z.of_nat (length missing))
           ++ lit " required environment variable(s)") ;;
    print (lit "Run: python onboarding.py") ;;
    ret false
  | [] => ret true
  end.

(** The commands [validate_sandbox] runs in the sandbox. *)
Definition CLAUDE_VERSION : pystr := lit "claude --version".
Definition RG_VERSION : pystr := lit "rg --version".
Definition SDK_VERSION : pystr :=
  lit "python3 -c 'import claude_agent_sdk; print(claude_agent_sdk.__version__)'".
Definition ECHO : pystr := lit "echo 'Hello from E2B!'".

(** [f"{version_parts[0]} {version_parts[1]}" if len(version_parts) > 1
    else result.stdout.strip()] with [version_parts = result.stdout.split()] *)
Definition ripgrep_version (out : pystr) : pystr :=
  match str_split out with
  | name :: number :: _ => name ++ lit " " ++ number
  | _ => strip out
  end.

Section Sandbox.
Context {S : Type}.
(** [validate_sandbox] calls [sandbox.commands.run(cmd)] without a timeout
    and [Sandbox.create] without [envs]: the timeout the client then uses
    is [run_timeout], whatever it is, and the variables are none. *)
Variable run_timeout : Z.
Variable env : gmap string pystr.
Variable w : world.

Definition validate_sandbox : M S bool :=
  let template_id := os_getenv env TEMPLATE_VAR in
  if negb (truthy template_id) then
    print (CROSS_MARK :: lit " E2B_TEMPLATE_ID not found in environment") ;;
    ret false
  else
    print (NEWLINE :: lit "Creating sandbox from template: " ++ format template_id) ;;
    made <- try_except
      (sandbox <- create w template_id 60 ∅ ;; ret (Some sandbox))
      (fun e =>
         print (CROSS_MARK :: lit " Failed to create sandbox: " ++ str_exn e) ;;
         print (NEWLINE :: lit "Possible solutions:") ;;
         print (lit "- Check your E2B_API_KEY is valid") ;;
         print (lit "- Rebuild the template: npm run build:template") ;;
         print (lit "- Check E2B status: https://status.e2b.dev/") ;;
         ret None) ;;
    match made with
    | None => ret false
    | Some sandbox =>
      try_finally
        (print (CHECK_MARK :: lit " Sandbox created successfully") ;;
         print (lit "   Sandbox ID: " ++ sandbox) ;;
         result <- commands_run w sandbox CLAUDE_VERSION run_timeout ;;
         if (exit_code result =? 0)%Z then
           print (CHECK_MARK :: lit " Claude Code: " ++ strip (stdout result)) ;;
           result <- commands_run w sandbox RG_VERSION run_timeout ;;
           (if (exit_code result =? 0)%Z then
              print (CHECK_MARK :: lit " ripgrep: " ++ ripgrep_version (stdout result))
            else
              print (WARNING_SIGN ++ lit "  ripgrep not found (optional)")) ;;
           result <- commands_run w sandbox SDK_VERSION run_timeout ;;
           if (exit_code result =? 0)%Z then
             print (CHECK_MARK :: lit " claude-agent-sdk: " ++ strip (stdout result)) ;;
             result <- commands_run w sandbox ECHO run_timeout ;;
             if (exit_code result =? 0)%Z then
               print (CHECK_MARK :: lit " Command execution: " ++ strip (stdout result)) ;;
               print (NEWLINE :: CHECK_MARK :: lit " Sandbox validation successful!") ;;
               ret true
             else
               print (CROSS_MARK :: lit " Command execution failed") ;;
               ret false
           else
             print (CROSS_MARK :: lit " claude-agent-sdk not found: " ++ stderr result) ;;
             ret false
         else
           print (CROSS_MARK :: lit " Claude Code not found: " ++ stderr result) ;;
           ret false)
        (kill w sandbox ;;
         print (CHECK_MARK :: lit " Sandbox cleaned up"))
    end.
End Sandbox.

(** [main]: what it prints and calls, and how it ends. [sys.exit(1)] ends
    the script with status 1. *)
Definition main (run_timeout : Z) (env : gmap string pystr) (w : world)
    : trace * RunAgentMain.ending :=
  let banner := [Printed (repeat_char 61 50);
                 Printed (lit "Claude Agent SDK - Setup Validation");
                 Printed (repeat_char 61 50);
                 Printed []] in
  match check_environment env [] with
  | (t1, _, Raise e) => (banner ++ t1, RunAgentMain.Propagated e)
  | (t1, _, Return false) => (banner ++ t1, RunAgentMain.SystemExit 1)
  | (t1, _, Return true) =>
    match validate_sandbox run_timeout env w tt with
    | (t2, _, Raise e) => (banner ++ t1 ++ t2, RunAgentMain.Propagated e)
    | (t2, _, Return false) => (banner ++ t1 ++ t2, RunAgentMain.SystemExit 1)
    | (t2, _, Return true) =>
      (banner ++ t1 ++ t2
       ++ [Printed [];
           Printed (repeat_char 61 50);
           Printed (PARTY :: lit " All validation checks passed!");
           Printed (repeat_char 61 50);
           Printed [];
           Printed (lit "You're ready to run agents:");
           Printed (lit "  python run_agent.py " ++ quoted "Your prompt here");
           Printed []],
       RunAgentMain.Returned)
    end
  end.

End ValidateSetup.

(** ** [src/onboarding.py] *)
Module Onboarding.

Definition PIN : N := 0x1f4cd.
Definition CLIPBOARD : N := 0x1f4cb.
Definition ROCKET : N := 0x1f680.

(** [sys.version_info] *)
Record version_info := {
  major : Z;
  minor : Z;
  micro : Z
}.

Definition check_python (version : version_info) : M unit bool :=
  print (PIN :: lit " Checking Python version...") ;;
  if (3 <=? major version)%Z && (12 <=? minor version)%Z then
    print (lit "   " ++ CHECK_MARK :: lit " Python " ++ str_int (major version)
           ++ lit "." ++ str_int (minor version) ++ lit "."
           ++ str_int (micro version)) ;;
    ret true
  else
    print (lit "   " ++ CROSS_MARK :: lit " Python 3.12+ required, found "
           ++ str_int (major version) ++ lit "." ++ str_int (minor version)) ;;
    ret false.

(** The three checks below read the environment after [load_dotenv()] has
    filled it in from the [.env] file; [env] is the environment as it is
    then. *)
Definition check_oauth_token (env : gmap string pystr) : M unit bool :=
  print (PIN :: lit " Checking OAuth token...") ;;
  let token := os_getenv env TOKEN_VAR in
  if truthy token && startswith (default [] token) (lit "sk-ant-oat") then
    print (lit "   " ++ CHECK_MARK :: lit " OAuth token configured") ;;
    ret true
  else
    print (lit "   " ++ CROSS_MARK :: lit " OAuth token not set") ;;
    print (NEWLINE :: lit "   To fix, run in your terminal:") ;;
    print (lit "   $ claude setup-token") ;;
    print (lit "   Then add the token to .env as CLAUDE_CODE_OAUTH_TOKEN=<token>") ;;
    ret false.

Definition check_e2b_auth (env : gmap string pystr) : M unit bool :=
  print (PIN :: lit " Checking E2B authentication...") ;;
  let api_key := os_getenv env API_KEY_VAR in
  if truthy api_key && startswith (default [] api_key) (lit "e2b_") then
    print (lit "   " ++ CHECK_MARK :: lit " E2B API key configured") ;;
    ret true
  else
    print (lit "   " ++ CROSS_MARK :: lit " E2B API key not set") ;;
    print (NEWLINE :: lit "   To fix:") ;;
    print (lit "   1. Run: e2b auth login") ;;
    print (lit "   2. Get API key from https://e2b.dev/dashboard") ;;
    print (lit "   3. Add to .env as E2B_API_KEY=<key>") ;;
    ret false.

Definition check_template (env : gmap string pystr) : M unit bool :=
  print (PIN :: lit " Checking E2B template...") ;;
  let template_id := os_getenv env TEMPLATE_VAR in
  if truthy template_id then
    print (lit "   " ++ CHECK_MARK :: lit " Template ID: " ++ default [] template_id) ;;
    ret true
  else
    print (lit "   " ++ CROSS_MARK :: lit " Template ID not set") ;;
    print (NEWLINE :: lit "   To fix, build the template:") ;;
    print (lit "   $ cd agents/base") ;;
    print (lit "   $ python build_dev.py") ;;
    print (lit "   Then add the template ID to .env") ;;
    ret false.

(** [results[name] = passed] on a dictionary kept in insertion order. *)
Fixpoint dict_set (results : list (pystr * bool)) (name : pystr) (passed : bool)
    : list (pystr * bool) :=
  match results with
  | [] => [(name, passed)]
  | (k, v) :: rest =>
    if bool_decide (k = name) then (k, passed) :: rest
    else (k, v) :: dict_set rest name passed
  end.

(** [main], over the list [checks] of named checks and the final SDK test.
    The checks that touch the file system or start a process are arguments
    here, as computations that print and return or raise. The dictionary
    [results] is the state. *)
Definition main_with (checks : list (pystr * M unit bool)) (test_sdk : M unit bool)
    : M (list (pystr * bool)) Z :=
  print (repeat_char 61 50) ;;
  print (ROCKET :: lit " Claude Agent SDK + E2B Onboarding") ;;
  print (repeat_char 61 50 ++ [NEWLINE]) ;;
  put [] ;;
  for_each checks (fun '(name, check_fn) =>
    try_except
      (passed <- lift check_fn ;;
       results <- get ;;
       put (dict_set results name passed))
      (fun e =>
         print (lit "   " ++ CROSS_MARK :: lit " Error: " ++ str_exn e) ;;
         results <- get ;;
         put (dict_set results name false)) ;;
    print []) ;;
  print (repeat_char 61 50) ;;
  print (CLIPBOARD :: lit " Summary") ;;
  print (repeat_char 61 50) ;;
  results <- get ;;
  for_each results (fun '((name, passed) : pystr * bool) =>
    print (lit "   " ++ (if passed then CHECK_MARK else CROSS_MARK) :: lit " " ++ name)) ;;
  let all_passed := forallb snd results in
  print [] ;;
  (if all_passed then
     print (PARTY :: lit " All checks passed!") ;;
     print (NEWLINE :: lit "Run SDK test? (tests authentication)") ;;
     ok <- lift test_sdk ;;
     when ok
       (print (NEWLINE :: CHECK_MARK :: lit " Ready to go!") ;;
        print (NEWLINE :: lit "Run an agent with:") ;;
        print (lit "   $ source .venv/bin/activate") ;;
        print (lit "   $ python run_agent.py " ++ quoted "Your prompt here") ;;
        print (NEWLINE :: lit "Or run the test:") ;;
        print (lit "   $ python scripts/test_sandbox.py"))
   else
     print (WARNING_SIGN ++ lit "  Some checks failed. Fix the issues above and run again.") ;;
     print (NEWLINE :: lit "   $ python onboarding.py")) ;;
  ret (if all_passed then 0 else 1)%Z.

(** [main] with its list of checks. The three checks that look at the file
    system or install packages, and the SDK test, are arguments. *)
Definition main (version : version_info) (env : gmap string pystr)
    (check_venv check_dependencies check_env_file test_sdk : M unit bool)
    : M (list (pystr * bool)) Z :=
  main_with
    [ (lit "Python 3.12+", check_python version);
      (lit "Virtual Environment", check_venv);
      (lit "Dependencies", check_dependencies);
      (lit ".env File", check_env_file);
      (lit "OAuth Token", check_oauth_token env);
      (lit "E2B Auth", check_e2b_auth env);
      (lit "E2B Template", check_template env) ]
    test_sdk.

End Onboarding.

(** Two settings that are the same, or that are both longer than ten
    characters and agree on their first ten. *)
Definition same_first_ten (a b : option pystr) : Prop :=
  a = b
  \/ exists p s1 s2,
       length p = 10%nat /\ s1 <> [] /\ s2 <> []
       /\ a = Some (p ++ s1) /\ b = Some (p ++ s2).

(** How a check counts in [main]: its verdict when it returns, failed when
    it raises an [Exception]; an error that is not an [Exception] is not
    caught. *)
Definition verdict (check_fn : M unit bool) : option bool :=
  match run_result check_fn tt with
  | Return passed => Some passed
  | Raise e => if is_Exception e then Some false else None
  end.

Definition passes (check_fn : M unit bool) : bool :=
  bool_decide (verdict check_fn = Some true).

(** One turn of the loop of [main] over the checks, and the dictionary the
    loop leaves behind. *)
Definition turn (c : pystr * M unit bool) : M (list (pystr * bool)) unit :=
  let '(name, check_fn) := c in
  try_except
    (passed <- lift check_fn ;;
     results <- get ;;
     put (Onboarding.dict_set results name passed))
    (fun e =>
       print (lit "   " ++ CROSS_MARK :: lit " Error: " ++ str_exn e) ;;
       results <- get ;;
       put (Onboarding.dict_set results name false)) ;;
  print [].

Definition tally (results : list (pystr * bool)) (checks : list (pystr * M unit bool))
    : list (pystr * bool) :=
  fold_left (fun results c => Onboarding.dict_set results (fst c) (passes (snd c)))
            checks results.


Definition no_quota : world :=
  const_world (Raise (SandboxException (lit "no quota"))) (Return tt)
    (Return four) (Return tt).

(** A sandbox that has everything but ripgrep. *)
Definition no_ripgrep : world :=
  {| w_create := fun _ _ _ => Return (lit "sbx-1");
     w_write := fun _ _ _ => Return tt;
     w_run := fun _ cmd _ =>
       if bool_decide (cmd = ValidateSetup.RG_VERSION) then Return boom
       else Return four;
     w_kill := fun _ => Return tt |}.

Definition example_args : RunAgentMain.Namespace :=
  {| RunAgentMain.prompt := Some (lit "What is 2 + 2?");
     RunAgentMain.prompt_flag := None;
     RunAgentMain.timeout := 120;
     RunAgentMain.verbose := false |}.

Definition other_env : gmap string pystr :=
  {[ TEMPLATE_VAR := lit "tpl"; TOKEN_VAR := lit "sk-ant-oat-2-other";
     API_KEY_VAR := lit "e2b_1" ]}.

Definition python_3_12 : Onboarding.version_info :=
  {| Onboarding.major := 3; Onboarding.minor := 12; Onboarding.micro := 1 |}.

Definition two_checks : list (pystr * M unit bool) :=
  [ (lit "first", raise (SandboxException (lit "boom")));
    (lit "second", print (lit "second runs") ;; ret true) ].

(** * Proofs *)

Arguments lit : simpl never.
Arguments strip : simpl never.
Arguments format : simpl never.
Arguments RunAgent.agent_code : simpl never.
Arguments ApiServer.agent_code : simpl never.
Arguments ExampleRunAgent.agent_code : simpl never.
Arguments BasicSync.agent_code : simpl never.
Arguments truthy : simpl never.
Arguments os_getenv : simpl never.

(** Boolean tests on code points, turned into propositions. *)
Ltac bool_to_prop :=
  repeat match goal with
  | H : (_ && _) = true |- _ => apply andb_true_iff in H; destruct H
  | H : (_ && _) = false |- _ => apply andb_false_iff in H
  | H : (_ || _) = false |- _ => apply orb_false_iff in H; destruct H
  | H : (_ =? _) = true |- _ => apply N.eqb_eq in H
  | H : (_ =? _) = false |- _ => apply N.eqb_neq in H
  | H : (_ <=? _) = true |- _ => apply N.leb_le in H
  | H : (_ <=? _) = false |- _ => apply N.leb_gt in H
  | H : (_ <? _) = true |- _ => apply N.ltb_lt in H
  | H : (_ <? _) = false |- _ => apply N.ltb_ge in H
  end.

(** ** The JSON encoder and the scanner *)
Module JsonFacts.
Import Json.

Lemma hexval_hexdigit d : d < 16 -> hexval (hexdigit d) = Some d.
Proof.
  intros Hd. unfold hexval, hexdigit.
  destruct (d <? 10) eqn:E; bool_to_prop.
  - replace ((48 <=? 48 + d) && (48 + d <=? 57)) with true
      by (symmetry; apply andb_true_iff; split; apply N.leb_le; lia).
    f_equal. lia.
  - replace ((48 <=? 87 + d) && (87 + d <=? 57)) with false
      by (symmetry; apply andb_false_iff; right; apply N.leb_gt; lia).
    replace ((97 <=? 87 + d) && (87 + d <=? 102)) with true
      by (symmetry; apply andb_true_iff; split; apply N.leb_le; lia).
    f_equal. lia.
Qed.

(** Four digits written by the encoder are read back as the number. *)
Lemma decode_hex4 n :
  n < 0x10000 ->
  decode_uXXXX (hexdigit (n / 4096 mod 16)) (hexdigit (n / 256 mod 16))
               (hexdigit (n / 16 mod 16)) (hexdigit (n mod 16)) = Some n.
Proof.
  intros Hn. unfold decode_uXXXX.
  rewrite !hexval_hexdigit by (apply N.mod_upper_bound; lia).
  f_equal.
  pose proof (N.div_mod n 16 ltac:(lia)).
  pose proof (N.div_mod (n / 16) 16 ltac:(lia)).
  pose proof (N.div_mod (n / 16 / 16) 16 ltac:(lia)).
  rewrite !N.Div0.div_div in *.
  change (16 * 16) with 256 in *. change (256 * 16) with 4096 in *.
  assert (n / 4096 < 16) by (apply N.Div0.div_lt_upper_bound; lia).
  rewrite (N.mod_small (n / 4096) 16) in * by assumption.
  lia.
Qed.

(** Or-ing into the low bits of a shifted number is an addition. *)
Lemma lor_shifted a b k : b < 2 ^ k -> N.lor (a * 2 ^ k) b = a * 2 ^ k + b.
Proof.
  intros Hb.
  assert (Hland : N.land (a * 2 ^ k) b = 0).
  { apply N.bits_inj_0. intros i. rewrite N.land_spec.
    destruct (N.lt_ge_cases i k) as [Hi | Hi].
    - rewrite N.mul_pow2_bits_low by assumption. reflexivity.
    - rewrite <- (N.mod_small b (2 ^ k)) by assumption.
      rewrite N.mod_pow2_bits_high by assumption. apply andb_false_r. }
  rewrite (N.add_nocarry_lxor _ _ Hland). symmetry. apply N.lxor_lor, Hland.
Qed.

Lemma quotient_small c : c < 0x110000 -> (c - 0x10000) / 1024 < 1024.
Proof. intros Hc. apply N.Div0.div_lt_upper_bound. lia. Qed.

Lemma high_half_eq c :
  0x10000 <= c < 0x110000 -> high_half c = 0xd800 + (c - 0x10000) / 1024.
Proof.
  intros Hc. unfold high_half.
  change 0x3ff with (N.ones 10). rewrite N.land_ones, N.shiftr_div_pow2.
  change (2 ^ 10) with 1024.
  rewrite N.mod_small by (apply quotient_small; lia).
  change 0xd800 with (54 * 2 ^ 10). apply lor_shifted.
  apply quotient_small. lia.
Qed.

Lemma low_half_eq c : low_half c = 0xdc00 + (c - 0x10000) mod 1024.
Proof.
  unfold low_half.
  change 0x3ff with (N.ones 10). rewrite N.land_ones. change (2 ^ 10) with 1024.
  change 0xdc00 with (55 * 2 ^ 10). apply lor_shifted.
  apply N.mod_upper_bound. lia.
Qed.

(** The decoder's join undoes the encoder's split. *)
Lemma join_halves c :
  0x10000 <= c < 0x110000 -> join_surrogates (high_half c) (low_half c) = c.
Proof.
  intros Hc. unfold join_surrogates.
  rewrite high_half_eq, low_half_eq by assumption.
  rewrite N.shiftl_mul_pow2.
  rewrite (N.add_comm 0xd800), (N.add_comm 0xdc00), !N.add_sub.
  rewrite lor_shifted by (apply N.mod_upper_bound; lia).
  change (2 ^ 10) with 1024.
  pose proof (N.div_mod (c - 0x10000) 1024 ltac:(lia)). lia.
Qed.

Lemma high_half_is_high c : 0x10000 <= c < 0x110000 -> is_high (high_half c) = true.
Proof.
  intros Hc. rewrite high_half_eq by assumption.
  pose proof (quotient_small c ltac:(lia)).
  set (q := (c - 0x10000) / 1024) in *.
  unfold is_high. apply andb_true_iff; split; apply N.leb_le; lia.
Qed.

Lemma high_half_bound c : 0x10000 <= c < 0x110000 -> high_half c < 0x10000.
Proof.
  intros Hc. rewrite high_half_eq by assumption.
  pose proof (quotient_small c ltac:(lia)).
  set (q := (c - 0x10000) / 1024) in *. lia.
Qed.

Lemma low_half_is_low c : is_low (low_half c) = true.
Proof.
  rewrite low_half_eq.
  assert ((c - 0x10000) mod 1024 < 1024) by (apply N.mod_upper_bound; lia).
  set (r := (c - 0x10000) mod 1024) in *.
  unfold is_low. apply andb_true_iff; split; apply N.leb_le; lia.
Qed.

Lemma low_half_bound c : low_half c < 0x10000.
Proof.
  rewrite low_half_eq.
  assert ((c - 0x10000) mod 1024 < 1024) by (apply N.mod_upper_bound; lia).
  set (r := (c - 0x10000) mod 1024) in *. lia.
Qed.

Lemma high_not_low u : is_high u = true -> is_low u = false.
Proof.
  unfold is_high, is_low. intros H. bool_to_prop.
  apply andb_false_iff. left. apply N.leb_gt. lia.
Qed.

(** The scanner on a [\uXXXX] escape, one turn of its loop. *)
Lemma scanstring_u h1 h2 h3 h4 s3 :
  scanstring (92 :: 117 :: h1 :: h2 :: h3 :: h4 :: s3) =
  match decode_uXXXX h1 h2 h3 h4 with
  | None => None
  | Some uni =>
    match s3 with
    | b :: u :: g1 :: g2 :: g3 :: g4 :: s4 =>
      if is_high uni && (b =? 92) && (u =? 117) then
        match decode_uXXXX g1 g2 g3 g4 with
        | None => None
        | Some uni2 =>
          if is_low uni2
          then append (join_surrogates uni uni2) (scanstring s4)
          else append uni (scanstring s3)
        end
      else append uni (scanstring s3)
    | _ => append uni (scanstring s3)
    end
  end.
Proof. reflexivity. Qed.

(** A [\uXXXX] escape that is not joined with what follows it. *)
Lemma scanstring_u_single h1 h2 h3 h4 uni t :
  decode_uXXXX h1 h2 h3 h4 = Some uni ->
  (is_high uni = true -> benign t = true) ->
  scanstring (92 :: 117 :: h1 :: h2 :: h3 :: h4 :: t) = append uni (scanstring t).
Proof.
  intros Hdec Hben. rewrite scanstring_u, Hdec.
  destruct t as [|b [|u [|g1 [|g2 [|g3 [|g4 s4]]]]]]; try reflexivity.
  destruct (is_high uni) eqn:Hhi; [|reflexivity].
  specialize (Hben eq_refl). unfold benign in Hben.
  cbn [andb].
  destruct ((b =? 92) && (u =? 117)); [|reflexivity].
  destruct (decode_uXXXX g1 g2 g3 g4) as [uni2|]; [|discriminate].
  apply negb_true_iff in Hben. rewrite Hben. reflexivity.
Qed.

Ltac short_escape :=
  bool_to_prop; subst;
  match goal with
  | |- benign (_ ++ ?t) = true => destruct t as [|? [|? [|? [|? ?]]]]
  | _ => idtac
  end; reflexivity.

(** What the encoder writes for a character that is not a low surrogate
    never reads, to the scanner, as the second half of a pair. *)
Lemma benign_replace c t :
  c < 0x110000 -> is_low c = false -> benign (replace c ++ t) = true.
Proof.
  intros Hc Hlow. unfold replace.
  destruct (c =? 92) eqn:E1; [short_escape|].
  destruct (c =? 34) eqn:E2; [short_escape|].
  destruct ((32 <=? c) && (c <=? 126)) eqn:E3.
  { cbn [app]. unfold benign. rewrite E1. cbn [andb].
    destruct t as [|? [|? [|? [|? [|? ?]]]]]; reflexivity. }
  destruct (c =? 8) eqn:E4; [short_escape|].
  destruct (c =? 12) eqn:E5; [short_escape|].
  destruct (c =? 10) eqn:E6; [short_escape|].
  destruct (c =? 13) eqn:E7; [short_escape|].
  destruct (c =? 9) eqn:E8; [short_escape|].
  destruct (c <? 0x10000) eqn:E9.
  - bool_to_prop. unfold uescape, hex4, benign. cbn [app].
    change (BACKSLASH_CHAR =? 92) with true.
    change (117 =? 117) with true. cbn [andb]. cbv iota.
    rewrite decode_hex4 by assumption. rewrite Hlow. reflexivity.
  - bool_to_prop. fold (high_half c). fold (low_half c).
    assert (Hr : 0x10000 <= c < 0x110000) by lia.
    unfold uescape at 1. unfold hex4 at 1. unfold benign. cbn [app].
    change (BACKSLASH_CHAR =? 92) with true.
    change (117 =? 117) with true. cbn [andb]. cbv iota.
    rewrite decode_hex4 by (apply high_half_bound; assumption).
    rewrite (high_not_low _ (high_half_is_high c Hr)). reflexivity.
Qed.

(** One character through the encoder and back through the scanner. *)
Lemma scanstring_replace c t :
  c < 0x110000 ->
  (is_high c = true -> benign t = true) ->
  scanstring (replace c ++ t) = append c (scanstring t).
Proof.
  intros Hc Hben. unfold replace.
  destruct (c =? 92) eqn:E1; [short_escape|].
  destruct (c =? 34) eqn:E2; [short_escape|].
  destruct ((32 <=? c) && (c <=? 126)) eqn:E3.
  { cbn [app scanstring]. rewrite E1, E2. bool_to_prop.
    replace (c <? 32) with false by (symmetry; apply N.ltb_ge; assumption).
    reflexivity. }
  destruct (c =? 8) eqn:E4; [short_escape|].
  destruct (c =? 12) eqn:E5; [short_escape|].
  destruct (c =? 10) eqn:E6; [short_escape|].
  destruct (c =? 13) eqn:E7; [short_escape|].
  destruct (c =? 9) eqn:E8; [short_escape|].
  destruct (c <? 0x10000) eqn:E9.
  - bool_to_prop. unfold uescape, hex4. cbn [app].
    apply scanstring_u_single; [apply decode_hex4; assumption | assumption].
  - bool_to_prop. fold (high_half c). fold (low_half c).
    assert (Hr : 0x10000 <= c < 0x110000) by lia.
    unfold uescape, hex4. cbn [app]. unfold BACKSLASH_CHAR.
    rewrite scanstring_u.
    rewrite decode_hex4 by (apply high_half_bound; assumption).
    rewrite (high_half_is_high c Hr).
    change (92 =? 92) with true. change (117 =? 117) with true.
    cbn [andb]. rewrite decode_hex4 by apply low_half_bound.
    rewrite low_half_is_low, join_halves by assumption. reflexivity.
Qed.

(** The body of an encoded string, read back by the scanner. *)
Lemma scanstring_flat_map p rest :
  wf_str p -> no_surrogate_pair p = true ->
  scanstring (flat_map replace p ++ 34 :: rest) = Some (p, rest).
Proof.
  induction p as [|c p IH]; intros Hwf Hnp.
  - reflexivity.
  - apply Forall_cons_1 in Hwf as [Hc Hwf].
    cbn [flat_map]. rewrite <- app_assoc.
    rewrite scanstring_replace.
    + rewrite IH; [reflexivity | assumption |].
      destruct p; [reflexivity|]. cbn [no_surrogate_pair] in Hnp.
      apply andb_true_iff in Hnp. tauto.
    + assumption.
    + intros Hhi. destruct p as [|c' p].
      * destruct rest as [|? [|? [|? [|? [|? ?]]]]]; reflexivity.
      * cbn [no_surrogate_pair] in Hnp. rewrite Hhi in Hnp.
        apply andb_true_iff in Hnp as [Hnp _]. cbn [andb] in Hnp.
        apply negb_true_iff in Hnp.
        apply Forall_cons_1 in Hwf as [Hc' _].
        cbn [flat_map]. rewrite <- app_assoc. apply benign_replace; assumption.
Qed.

(** Decoding what [json.dumps] wrote gives the string back, provided no
    high surrogate is directly followed by a low one. *)
Lemma loads_dumps p :
  wf_str p -> no_surrogate_pair p = true -> loads (dumps p) = Some p.
Proof.
  intros Hwf Hnp. unfold loads, dumps, encode_basestring_ascii, DQUOTE.
  cbn [skip_ws]. change ((34 =? 32) || (34 =? 9) || (34 =? 10) || (34 =? 13)) with false.
  cbv iota. change (34 =? 34) with true. cbv iota.
  rewrite scanstring_flat_map by assumption. reflexivity.
Qed.

(** The decoder joins a pair that the original string had as two
    characters. *)
Example loads_dumps_pair : loads (dumps [0xd83d; 0xde00]) = Some [0x1f600].
Proof. reflexivity. Qed.

End JsonFacts.

(** ** The generated text as Python source *)
Module PyLexFacts.
Import Json PyLex JsonFacts.

Lemma hexdigit_printable d : d < 16 -> printable (hexdigit d) = true.
Proof.
  intros Hd. unfold printable, hexdigit.
  destruct (d <? 10) eqn:E; bool_to_prop;
    apply andb_true_iff; split; apply N.leb_le; lia.
Qed.

Lemma uescape_printable n : Forall (fun x => printable x = true) (uescape n).
Proof.
  unfold uescape, hex4.
  repeat apply Forall_cons_2; try reflexivity;
    try (apply hexdigit_printable, N.mod_upper_bound; lia).
  apply Forall_nil_2.
Qed.

(** The encoder writes printable ASCII only. *)
Lemma replace_printable c : Forall (fun x => printable x = true) (replace c).
Proof.
  unfold replace.
  repeat match goal with
  | |- context [if ?b then _ else _] => destruct b eqn:?
  end;
  try (repeat apply Forall_cons_2; try reflexivity; apply Forall_nil_2).
  - apply Forall_cons_2; [assumption | apply Forall_nil_2].
  - apply uescape_printable.
  - apply Forall_app; split; apply uescape_printable.
Qed.

Lemma dumps_printable p : Forall (fun x => printable x = true) (dumps p).
Proof.
  unfold dumps, encode_basestring_ascii.
  apply Forall_cons_2; [reflexivity|].
  apply Forall_app; split.
  - induction p as [|c p IH]; [apply Forall_nil_2|].
    cbn [flat_map]. apply Forall_app; split; [apply replace_printable | exact IH].
  - apply Forall_cons_2; [reflexivity | apply Forall_nil_2].
Qed.

(** One printable character through the encoder and back through the
    Python lexer. *)
Lemma string_body_replace c t :
  printable c = true ->
  string_body (replace c ++ t) = prepend [c] (string_body t).
Proof.
  intros Hp. unfold replace.
  destruct (c =? 92) eqn:E1; [bool_to_prop; subst; reflexivity|].
  destruct (c =? 34) eqn:E2; [bool_to_prop; subst; reflexivity|].
  unfold printable in Hp. rewrite Hp.
  cbn [app string_body]. rewrite E1, E2. bool_to_prop.
  replace ((c =? 10) || (c =? 13) || (c =? 0)) with false; [reflexivity|].
  symmetry. rewrite !orb_false_iff. repeat split; apply N.eqb_neq; lia.
Qed.

Lemma string_body_flat_map s rest :
  Forall (fun x => printable x = true) s ->
  string_body (flat_map replace s ++ 34 :: rest) = Some (s, rest).
Proof.
  induction 1 as [|c s Hc Hs IH].
  - reflexivity.
  - cbn [flat_map]. rewrite <- app_assoc.
    rewrite string_body_replace by assumption. rewrite IH. reflexivity.
Qed.

(** The interpolated text [json.dumps(json.dumps(prompt))] is one string
    literal, whatever the prompt and whatever follows it, and it denotes the
    inner JSON document. *)
Lemma string_literal_dumps p rest :
  string_literal (dumps (dumps p) ++ rest) = Some (dumps p, rest).
Proof.
  pose proof (dumps_printable p) as Hp.
  unfold dumps at 1. unfold encode_basestring_ascii at 1. unfold DQUOTE.
  cbn [app]. rewrite <- app_assoc. cbn [app].
  unfold string_literal. change (34 =? 34) with true. cbv iota.
  rewrite string_body_flat_map by assumption.
  unfold dumps, encode_basestring_ascii, DQUOTE.
  cbn [flat_map replace app]. reflexivity.
Qed.

Lemma strip_prefix_app p s : strip_prefix p (p ++ s) = Some s.
Proof.
  induction p as [|a p IH]; [reflexivity|].
  cbn [app strip_prefix]. rewrite N.eqb_refl. exact IH.
Qed.

(** In [examples/run_agent.py] the prompt is a constant without quote or
    backslash, and the literal around it denotes it. *)
Example example_prompt_literal rest :
  string_literal (DQUOTE :: ExampleRunAgent.prompt ++ DQUOTE :: rest)
  = Some (ExampleRunAgent.prompt, rest).
Proof. reflexivity. Qed.

End PyLexFacts.

(** The generated program of [run_agent.py] has the shape of its template
    for every prompt: one string literal between the fixed head and tail,
    whose value is the JSON document of the prompt. *)
Lemma embedded_prompt_of_literal (prompt : pystr) :
  RunAgent.embedded_prompt (RunAgent.agent_code prompt)
  = Json.loads (Json.dumps prompt).
Proof.
  unfold RunAgent.embedded_prompt, RunAgent.agent_code.
  rewrite PyLexFacts.strip_prefix_app, PyLexFacts.string_literal_dumps.
  rewrite bool_decide_eq_true_2 by reflexivity. reflexivity.
Qed.

(** C1, as amended. For every prompt string in which no high surrogate is
    directly followed by a low surrogate (every prompt that is well-formed
    Unicode text is one), the program text generated by [run_agent] keeps
    the shape of its template, with the interpolated text read by Python as
    one string literal, and decoding that literal inside the program with
    [json.loads] gives exactly the prompt. *)
Theorem prompt_round_trip (prompt : pystr) :
  wf_str prompt ->
  no_surrogate_pair prompt = true ->
  RunAgent.embedded_prompt (RunAgent.agent_code prompt) = Some prompt.
Proof.
  intros Hwf Hnp. rewrite embedded_prompt_of_literal.
  apply JsonFacts.loads_dumps; assumption.
Qed.

Lemma prompt_round_trip_witness :
  wf_str (DQUOTE :: lit "; rm -rf /")
  /\ no_surrogate_pair (DQUOTE :: lit "; rm -rf /") = true
  /\ RunAgent.embedded_prompt (RunAgent.agent_code (DQUOTE :: lit "; rm -rf /"))
     = Some (DQUOTE :: lit "; rm -rf /").
Proof.
  assert (Hwf : wf_str (DQUOTE :: lit "; rm -rf /")).
  { unfold wf_str. repeat constructor. }
  split; [exact Hwf|]. split; [reflexivity|].
  apply (prompt_round_trip (DQUOTE :: lit "; rm -rf /") Hwf). reflexivity.
Defined.

(** C1 as stated fails: the prompt made of the two characters U+D83D and
    U+DE00 comes back from the generated program as the single character
    U+1F600. *)
Lemma surrogate_pair_is_joined :
  ~ (forall prompt : pystr,
       wf_str prompt ->
       RunAgent.embedded_prompt (RunAgent.agent_code prompt) = Some prompt).
Proof.
  intros H. specialize (H [0xd83d; 0xde00]).
  assert (Hwf : wf_str [0xd83d; 0xde00]) by (repeat constructor).
  specialize (H Hwf). vm_compute in H. discriminate H.
Qed.

(** ** Runs of the scripts *)

Ltac unfold_run :=
  unfold script_trace, runTask, run_trace, run_result,
    RunAgent.run_agent, ApiServer.run_agent, ExampleRunAgent.main,
    BasicSync.run_agent_in_sandbox, ApiServer.TEMPLATE_ID,
    ApiServer.OAUTH_TOKEN, ApiServer.E2B_API_KEY, BasicSync.TEMPLATE_ID,
    BasicSync.OAUTH_TOKEN, bind, try_finally, try_except, create,
    files_write, commands_run, kill, print, call, when, ret, raise, get, put.

(** One branch point of a run: a setting, an answer of the service, the
    exit status, or the verbosity flag. *)
Ltac step :=
  match goal with
  | |- context [truthy ?x] => destruct (truthy x) eqn:?
  | |- context [w_create ?w ?a ?b ?c] => destruct (w_create w a b c) eqn:?
  | |- context [w_write ?w ?a ?b ?c] => destruct (w_write w a b c) eqn:?
  | |- context [w_run ?w ?a ?b ?c] => destruct (w_run w a b c) eqn:?
  | |- context [w_kill ?w ?a] => destruct (w_kill w a) eqn:?
  | |- context [is_Exception ?e] => destruct (is_Exception e) eqn:?
  | |- context [(exit_code ?r =? 0)%Z] => destruct (exit_code r =? 0)%Z eqn:?
  | |- context [match stderr ?r with _ => _ end] => destruct (stderr r) eqn:?
  | |- context [if ?b then _ else _] => is_var b; destruct b
  end; cbn.

Ltac run_cases := unfold_run; cbn; repeat step.

Ltac use_answers :=
  repeat match goal with
  | H : w_create ?w ?a ?b ?c = _ |- context [w_create ?w ?a ?b ?c] => rewrite H
  | H : w_write ?w ?a ?b ?c = _ |- context [w_write ?w ?a ?b ?c] => rewrite H
  | H : w_run ?w ?a ?b ?c = _ |- context [w_run ?w ?a ?b ?c] => rewrite H
  | H : w_kill ?w ?a = _ |- context [w_kill ?w ?a] => rewrite H
  end.

Ltac tidy :=
  repeat match goal with
  | H : Return _ = Return _ |- _ => injection H as H; try subst
  | H : Return _ = Raise _ |- _ => discriminate H
  | H : Raise _ = Return _ |- _ => discriminate H
  | H : Raise _ = Raise _ |- _ => injection H as H; try subst
  | H : _ \/ False |- _ => destruct H as [H | []]; try subst
  | H : In _ [] |- _ => destruct H
  | H : In _ [_] |- _ => destruct H as [H | []]; try subst
  | H : False |- _ => destruct H
  end.

(** C2. In every run in which the provisioning call returns a sandbox, that
    call is the only provisioning call of the run, and the release call is
    made exactly once, on that sandbox: whether the upload, the execution
    or the handling of the result succeeds or raises. It holds for
    [run_agent.py], for the server and for the two example scripts. *)
Theorem one_sandbox_released_once env w s h :
  In h (created w (script_trace env w s)) ->
  length (creates (script_trace env w s)) = 1%nat
  /\ created w (script_trace env w s) = [h]
  /\ kills (script_trace env w s) = [h].
Proof.
  destruct s as [[prompt timeout verbose | request] | |];
    run_cases; unfold created, creates, kills; cbn;
    repeat match goal with H : w_create _ _ _ _ = _ |- _ => rewrite H end;
    cbn; intuition (subst; auto); congruence.
Qed.

Lemma one_sandbox_released_once_witness :
  In (lit "sbx-1")
     (created broken_world
        (script_trace example_env broken_world
           (TaskScript (ApiServerTask example_request))))
  /\ length (creates (script_trace example_env broken_world
                        (TaskScript (ApiServerTask example_request)))) = 1%nat
  /\ created broken_world
       (script_trace example_env broken_world
          (TaskScript (ApiServerTask example_request))) = [lit "sbx-1"]
  /\ kills (script_trace example_env broken_world
              (TaskScript (ApiServerTask example_request))) = [lit "sbx-1"].
Proof.
  assert (Hin : In (lit "sbx-1")
                   (created broken_world
                      (script_trace example_env broken_world
                         (TaskScript (ApiServerTask example_request))))).
  { vm_compute. left. reflexivity. }
  split; [exact Hin|].
  exact (one_sandbox_released_once example_env broken_world
           (TaskScript (ApiServerTask example_request)) (lit "sbx-1") Hin).
Defined.

(** The part of C3 that holds. When one of the settings a task runner
    checks (the template identifier and the agent token; for the server
    also the key of the sandbox service) is unset or empty, the run fails
    with the configuration error before any call: the trace is empty, so
    no provisioning call is made and no sandbox is created. *)
Lemma missing_configuration_fails_first env w t v :
  In v (checked_vars t) ->
  truthy (os_getenv env v) = false ->
  fst (runTask env w t) = []
  /\ exists e, snd (runTask env w t) = Raise e /\ is_configuration_error e = true.
Proof.
  destruct t as [prompt timeout verbose | request]; cbn [checked_vars In];
    intros Hv Hmiss;
    repeat match type of Hv with
           | _ \/ _ => destruct Hv as [Hv | Hv]
           | False => destruct Hv
           end; subst v;
    unfold_run; cbn; rewrite ?Hmiss; cbn;
    repeat match goal with
           | |- context [truthy ?x] => destruct (truthy x) eqn:?; cbn
           end;
    try discriminate; split; try reflexivity; eexists; split; reflexivity.
Qed.

Lemma missing_configuration_fails_first_witness :
  In TOKEN_VAR (checked_vars (RunAgentTask (lit "What is 2 + 2?") 120 true))
  /\ truthy (os_getenv (delete TOKEN_VAR example_env) TOKEN_VAR) = false
  /\ fst (runTask (delete TOKEN_VAR example_env) (calm_world (Return four))
            (RunAgentTask (lit "What is 2 + 2?") 120 true)) = []
  /\ exists e,
       snd (runTask (delete TOKEN_VAR example_env) (calm_world (Return four))
              (RunAgentTask (lit "What is 2 + 2?") 120 true)) = Raise e
       /\ is_configuration_error e = true.
Proof.
  assert (Hv : In TOKEN_VAR
                 (checked_vars (RunAgentTask (lit "What is 2 + 2?") 120 true))).
  { right. left. reflexivity. }
  assert (Hmiss : truthy (os_getenv (delete TOKEN_VAR example_env) TOKEN_VAR) = false).
  { vm_compute. reflexivity. }
  split; [exact Hv|]. split; [exact Hmiss|].
  exact (missing_configuration_fails_first (delete TOKEN_VAR example_env)
           (calm_world (Return four))
           (RunAgentTask (lit "What is 2 + 2?") 120 true) TOKEN_VAR Hv Hmiss).
Defined.

(** A variable that is not set at all is one of the cases above. *)
Lemma unset_is_not_truthy (env : gmap string pystr) v :
  env !! v = None -> truthy (os_getenv env v) = false.
Proof. unfold os_getenv. intros ->. reflexivity. Qed.

Lemma contains_suffix (a s : pystr) : contains s (a ++ s).
Proof. exists a, []. rewrite app_nil_r. reflexivity. Qed.

(** C4, as amended. In every run of [run_agent] in which the injected
    program exits with a status other than zero, the release call is made
    exactly once; and when that release call returns normally, the run
    fails with the [RuntimeError] whose message is ["Agent failed: "]
    followed by the captured standard error. *)
Theorem nonzero_exit_raises env w prompt timeout verbose res :
  In res (exits w (run_trace (RunAgent.run_agent env w prompt timeout verbose) tt)) ->
  exit_code res <> 0%Z ->
  length (kills (run_trace (RunAgent.run_agent env w prompt timeout verbose) tt)) = 1%nat
  /\ (release_failures w
        (run_trace (RunAgent.run_agent env w prompt timeout verbose) tt) = [] ->
      run_result (RunAgent.run_agent env w prompt timeout verbose) tt
      = Raise (RuntimeError (lit "Agent failed: " ++ stderr res))
      /\ contains (stderr res) (lit "Agent failed: " ++ stderr res)).
Proof.
  run_cases;
    unfold exits, kills, release_failures; cbn; use_answers; cbn;
    intros Hin Hcode; tidy;
    try contradiction;
    try match goal with
        | H : (exit_code _ =? 0)%Z = true |- _ => apply Z.eqb_eq in H; contradiction
        end;
    (split; [reflexivity | intros Hrel]);
    first [discriminate Hrel | split; [reflexivity | apply contains_suffix]].
Qed.

Lemma nonzero_exit_raises_witness :
  In boom (exits (calm_world (Return boom))
             (run_trace (RunAgent.run_agent example_env (calm_world (Return boom))
                           (lit "What is 2 + 2?") 120 false) tt))
  /\ exit_code boom <> 0%Z
  /\ length (kills (run_trace (RunAgent.run_agent example_env (calm_world (Return boom))
                                 (lit "What is 2 + 2?") 120 false) tt)) = 1%nat
  /\ (release_failures (calm_world (Return boom))
        (run_trace (RunAgent.run_agent example_env (calm_world (Return boom))
                      (lit "What is 2 + 2?") 120 false) tt) = [] ->
      run_result (RunAgent.run_agent example_env (calm_world (Return boom))
                    (lit "What is 2 + 2?") 120 false) tt
      = Raise (RuntimeError (lit "Agent failed: " ++ stderr boom))
      /\ contains (stderr boom) (lit "Agent failed: " ++ stderr boom)).
Proof.
  assert (Hin : In boom
                  (exits (calm_world (Return boom))
                     (run_trace (RunAgent.run_agent example_env
                                   (calm_world (Return boom))
                                   (lit "What is 2 + 2?") 120 false) tt))).
  { vm_compute. left. reflexivity. }
  assert (Hcode : exit_code boom <> 0%Z) by discriminate.
  split; [exact Hin|]. split; [exact Hcode|].
  exact (nonzero_exit_raises example_env (calm_world (Return boom))
           (lit "What is 2 + 2?") 120%Z false boom Hin Hcode).
Defined.

(** C4 as stated fails: with exit status 1, standard error ["boom"] and a
    release call that raises, the caller gets the error of the release call
    and not the [RuntimeError]. *)
Lemma release_failure_hides_execution_error :
  ~ (forall env w prompt timeout verbose res,
       In res (exits w (run_trace (RunAgent.run_agent env w prompt timeout verbose) tt)) ->
       exit_code res <> 0%Z ->
       exists msg,
         run_result (RunAgent.run_agent env w prompt timeout verbose) tt
         = Raise (RuntimeError msg)
         /\ contains (stderr res) msg).
Proof.
  intros H.
  destruct (H example_env (stormy_world (Return boom)) (lit "What is 2 + 2?")
              120%Z false boom)
    as (msg & Hres & _).
  - vm_compute. left. reflexivity.
  - discriminate.
  - vm_compute in Hres. discriminate Hres.
Qed.

Lemma lstrip_spaces (a s : pystr) :
  forallb isspace a = true -> lstrip (a ++ s) = lstrip s.
Proof.
  induction a as [|c a IH]; [reflexivity|].
  cbn [forallb app lstrip]. intros H. apply andb_true_iff in H as [Hc Ha].
  rewrite Hc. apply IH, Ha.
Qed.

(** [strip] gives ["4"] for every output that is ["4"] between whitespace. *)
Lemma strip_four (a b : pystr) :
  forallb isspace a = true -> forallb isspace b = true ->
  strip (a ++ lit "4" ++ b) = lit "4".
Proof.
  intros Ha Hb. unfold strip, rstrip.
  rewrite lstrip_spaces by assumption.
  change (lit "4" ++ b) with (52 :: b). cbn [lstrip].
  change (isspace 52) with false. cbv iota.
  change (52 :: b) with ([52] ++ b). rewrite rev_app_distr.
  rewrite lstrip_spaces.
  - reflexivity.
  - rewrite forallb_forall in *. intros x Hx. apply Hb, in_rev, Hx.
Qed.

(** What a run hands back after exit status 0 and a release call that
    returns. *)
Lemma zero_exit_result env w t res :
  In res (exits w (fst (runTask env w t))) ->
  exit_code res = 0%Z ->
  release_failures w (fst (runTask env w t)) = [] ->
  exists r,
    snd (runTask env w t) = Return r
    /\ reports_success r = true
    /\ primary_result r = Some (strip (stdout res)).
Proof.
  destruct t as [prompt timeout verbose | request];
    run_cases; unfold exits, release_failures; cbn; use_answers; cbn;
    intros Hin Hcode Hrel; tidy; try discriminate;
    try match goal with
        | H : (exit_code ?r =? 0)%Z = false, H' : exit_code ?r = 0%Z |- _ =>
          rewrite H' in H; discriminate H
        end;
    (eexists; split; [reflexivity|]; split; reflexivity).
Qed.

(** C5, as amended. In every run in which the injected program exits with
    status 0 and the release call returns normally, the task runner returns
    a successful result whose text is the program's standard output with
    the surrounding whitespace removed; an output that is ["4"] between
    whitespace gives ["4"]. *)
Theorem zero_exit_returns_stripped_stdout env w t res :
  In res (exits w (fst (runTask env w t))) ->
  exit_code res = 0%Z ->
  release_failures w (fst (runTask env w t)) = [] ->
  exists r,
    snd (runTask env w t) = Return r
    /\ reports_success r = true
    /\ primary_result r = Some (strip (stdout res))
    /\ (forall a b, forallb isspace a = true -> forallb isspace b = true ->
                    stdout res = a ++ lit "4" ++ b ->
                    primary_result r = Some (lit "4")).
Proof.
  intros Hin Hcode Hrel.
  destruct (zero_exit_result env w t res Hin Hcode Hrel) as (r & Hr & Hok & Hprim).
  exists r. repeat split; try assumption.
  intros a b Ha Hb Hout. rewrite Hprim, Hout. f_equal.
  apply strip_four; assumption.
Qed.

Lemma zero_exit_returns_stripped_stdout_witness :
  In four (exits (calm_world (Return four))
             (fst (runTask example_env (calm_world (Return four))
                     (ApiServerTask example_request))))
  /\ exists r,
       snd (runTask example_env (calm_world (Return four))
              (ApiServerTask example_request)) = Return r
       /\ reports_success r = true
       /\ primary_result r = Some (strip (stdout four))
       /\ (forall a b, forallb isspace a = true -> forallb isspace b = true ->
                       stdout four = a ++ lit "4" ++ b ->
                       primary_result r = Some (lit "4")).
Proof.
  assert (Hin : In four
                  (exits (calm_world (Return four))
                     (fst (runTask example_env (calm_world (Return four))
                             (ApiServerTask example_request))))).
  { vm_compute. left. reflexivity. }
  split; [exact Hin|].
  exact (zero_exit_returns_stripped_stdout example_env (calm_world (Return four))
           (ApiServerTask example_request) four Hin eq_refl eq_refl).
Defined.

(** The output [" 4\n"] of the example above is ["4"] once stripped. *)
Example strip_four_example : strip (stdout four) = lit "4".
Proof. reflexivity. Qed.

(** C5 as stated fails: with exit status 0, standard output ["4"] and a
    release call that raises, the run raises instead of returning. *)
Lemma release_failure_hides_result :
  ~ (forall env w t res,
       In res (exits w (fst (runTask env w t))) ->
       exit_code res = 0%Z ->
       exists r, snd (runTask env w t) = Return r
                 /\ primary_result r = Some (strip (stdout res))).
Proof.
  intros H.
  destruct (H example_env (stormy_world (Return four))
              (RunAgentTask (lit "What is 2 + 2?") 120%Z false) four)
    as (r & Hres & _).
  - vm_compute. left. reflexivity.
  - reflexivity.
  - vm_compute in Hres. discriminate Hres.
Qed.

(** C9, as amended. In every run in which the injected program exits with
    status 0 having printed nothing, and the release call returns normally,
    the task runner returns the empty string as a successful result; it
    does not fail. *)
Theorem silent_program_returns_empty env w t res :
  In res (exits w (fst (runTask env w t))) ->
  exit_code res = 0%Z ->
  stdout res = [] ->
  release_failures w (fst (runTask env w t)) = [] ->
  exists r,
    snd (runTask env w t) = Return r
    /\ reports_success r = true
    /\ primary_result r = Some [].
Proof.
  intros Hin Hcode Hout Hrel.
  destruct (zero_exit_result env w t res Hin Hcode Hrel) as (r & Hr & Hok & Hprim).
  exists r. rewrite Hout in Hprim. auto.
Qed.

Lemma silent_program_returns_empty_witness :
  In silent (exits (calm_world (Return silent))
               (fst (runTask example_env (calm_world (Return silent))
                       (RunAgentTask (lit "Say nothing.") 120 true))))
  /\ exists r,
       snd (runTask example_env (calm_world (Return silent))
              (RunAgentTask (lit "Say nothing.") 120 true)) = Return r
       /\ reports_success r = true
       /\ primary_result r = Some [].
Proof.
  assert (Hin : In silent
                  (exits (calm_world (Return silent))
                     (fst (runTask example_env (calm_world (Return silent))
                             (RunAgentTask (lit "Say nothing.") 120 true))))).
  { vm_compute. left. reflexivity. }
  split; [exact Hin|].
  exact (silent_program_returns_empty example_env (calm_world (Return silent))
           (RunAgentTask (lit "Say nothing.") 120%Z true) silent
           Hin eq_refl eq_refl eq_refl).
Defined.

(** C9 as stated fails: the server's handler, with exit status 0, empty
    output and a release call that raises, raises the error of the release
    call instead of returning the empty result. *)
Lemma release_failure_hides_empty_result :
  ~ (forall env w t res,
       In res (exits w (fst (runTask env w t))) ->
       exit_code res = 0%Z ->
       stdout res = [] ->
       exists r, snd (runTask env w t) = Return r /\ primary_result r = Some []).
Proof.
  intros H.
  destruct (H example_env (stormy_world (Return silent))
              (ApiServerTask example_request) silent)
    as (r & Hres & _).
  - vm_compute. left. reflexivity.
  - reflexivity.
  - reflexivity.
  - vm_compute in Hres. discriminate Hres.
Qed.

(** C6, as amended. In every run in which a step between provisioning and
    release raises a primary error: when the release call returns normally
    the caller is told of the primary error, and when the release call
    itself raises, the error of the release call is what the run raises, in
    place of the primary error. *)
Theorem release_failure_replaces_primary_error env w t e :
  In e (primary_errors w t (fst (runTask env w t))) ->
  (release_failures w (fst (runTask env w t)) = [] ->
   surfaces (snd (runTask env w t)) e)
  /\ (forall ek, In ek (release_failures w (fst (runTask env w t))) ->
                 snd (runTask env w t) = Raise ek).
Proof.
  destruct t as [prompt timeout verbose | request];
    run_cases; unfold primary_errors, step_failures, exits, release_failures;
    cbn; use_answers; cbn;
    repeat match goal with
           | H : (exit_code ?r =? 0)%Z = _ |- context [(exit_code ?r =? 0)%Z] =>
             rewrite H; cbn
           end;
    intros Hin; tidy; try discriminate; try congruence;
    (split; [intros Hrel; try discriminate Hrel; cbn; auto
            | intros ek Hek; tidy; try reflexivity]).
Qed.

Lemma release_failure_replaces_primary_error_witness :
  In (SandboxException (lit "boom"))
     (primary_errors broken_world (RunAgentTask (lit "What is 2 + 2?") 120 false)
        (fst (runTask example_env broken_world
                (RunAgentTask (lit "What is 2 + 2?") 120 false))))
  /\ (release_failures broken_world
        (fst (runTask example_env broken_world
                (RunAgentTask (lit "What is 2 + 2?") 120 false))) = [] ->
      surfaces
        (snd (runTask example_env broken_world
                (RunAgentTask (lit "What is 2 + 2?") 120 false)))
        (SandboxException (lit "boom")))
  /\ (forall ek,
        In ek (release_failures broken_world
                 (fst (runTask example_env broken_world
                         (RunAgentTask (lit "What is 2 + 2?") 120 false)))) ->
        snd (runTask example_env broken_world
               (RunAgentTask (lit "What is 2 + 2?") 120 false)) = Raise ek).
Proof.
  assert (Hin : In (SandboxException (lit "boom"))
                  (primary_errors broken_world
                     (RunAgentTask (lit "What is 2 + 2?") 120 false)
                     (fst (runTask example_env broken_world
                             (RunAgentTask (lit "What is 2 + 2?") 120 false))))).
  { vm_compute. left. reflexivity. }
  split; [exact Hin|].
  exact (release_failure_replaces_primary_error example_env broken_world
           (RunAgentTask (lit "What is 2 + 2?") 120%Z false)
           (SandboxException (lit "boom")) Hin).
Defined.

(** C6 as stated fails: when the upload raises ["boom"] and the release
    call raises ["kill failed"], [run_agent] raises ["kill failed"]. *)
Lemma release_failure_masks_primary_error :
  ~ (forall env w t e,
       In e (primary_errors w t (fst (runTask env w t))) ->
       surfaces (snd (runTask env w t)) e).
Proof.
  intros H.
  specialize (H example_env broken_world
                (RunAgentTask (lit "What is 2 + 2?") 120%Z false)
                (SandboxException (lit "boom"))).
  vm_compute in H. specialize (H (or_introl eq_refl)). discriminate H.
Qed.

(** The same run, spelled out. *)
Example masked_error_run :
  snd (runTask example_env broken_world
         (RunAgentTask (lit "What is 2 + 2?") 120 false))
  = Raise (SandboxException (lit "kill failed")).
Proof. reflexivity. Qed.

(** C7, as amended. In every run of [run_agent.py], of the server's handler
    and of [examples/run_agent.py], the timeout passed to the execution
    call equals the timeout passed to the provisioning call. *)
Theorem same_timeout_budget env w s tc te :
  s <> BasicSyncScript ->
  In tc (create_timeouts (script_trace env w s)) ->
  In te (run_timeouts (script_trace env w s)) ->
  tc = te.
Proof.
  destruct s as [[prompt timeout verbose | request] | |];
    intros Hs; [| | |contradiction];
    run_cases; unfold create_timeouts, run_timeouts; cbn;
    intros Hc He; tidy; try reflexivity.
Qed.

Lemma same_timeout_budget_witness :
  In 45%Z (create_timeouts
             (script_trace example_env (calm_world (Return four))
                (TaskScript (RunAgentTask (lit "What is 2 + 2?") 45 false))))
  /\ In 45%Z (run_timeouts
                (script_trace example_env (calm_world (Return four))
                   (TaskScript (RunAgentTask (lit "What is 2 + 2?") 45 false))))
  /\ (45 = 45)%Z.
Proof.
  assert (Hc : In 45%Z
                 (create_timeouts
                    (script_trace example_env (calm_world (Return four))
                       (TaskScript (RunAgentTask (lit "What is 2 + 2?") 45 false))))).
  { vm_compute. left. reflexivity. }
  assert (He : In 45%Z
                 (run_timeouts
                    (script_trace example_env (calm_world (Return four))
                       (TaskScript (RunAgentTask (lit "What is 2 + 2?") 45 false))))).
  { vm_compute. left. reflexivity. }
  split; [exact Hc|]. split; [exact He|].
  refine (same_timeout_budget example_env (calm_world (Return four))
            (TaskScript (RunAgentTask (lit "What is 2 + 2?") 45%Z false))
            45%Z 45%Z _ Hc He).
  discriminate.
Defined.

(** [examples/basic_sync.py] provisions with 120 and executes with 60. *)
Lemma basic_sync_timeouts env w tc te :
  In tc (create_timeouts (script_trace env w BasicSyncScript)) ->
  In te (run_timeouts (script_trace env w BasicSyncScript)) ->
  tc = 120%Z /\ te = 60%Z.
Proof.
  run_cases; unfold create_timeouts, run_timeouts; cbn;
    intros Hc He; tidy; auto.
Qed.

(** C7 as stated fails on [examples/basic_sync.py]: its provisioning call
    gets 120 and its execution call gets 60. *)
Lemma basic_sync_uses_two_timeouts :
  ~ (forall env w s tc te,
       In tc (create_timeouts (script_trace env w s)) ->
       In te (run_timeouts (script_trace env w s)) ->
       tc = te).
Proof.
  intros H.
  specialize (H example_env (calm_world (Return four)) BasicSyncScript
                120%Z 60%Z).
  vm_compute in H.
  specialize (H (or_introl eq_refl) (or_introl eq_refl)). discriminate H.
Qed.

(** Every uploaded program is the text generated from the task. *)
Lemma programs_are_generated env w t c :
  In c (programs (fst (runTask env w t))) -> c = generated_program t.
Proof.
  destruct t as [prompt timeout verbose | request];
    run_cases; unfold programs; cbn; intros Hc; tidy; reflexivity.
Qed.

(** The agent token is handed to the provisioning call as the one injected
    variable. *)
Lemma token_is_injected env w t template timeout envs :
  In (template, timeout, envs) (creates (fst (runTask env w t))) ->
  envs = {[ TOKEN_VAR := os_getenv env TOKEN_VAR ]}.
Proof.
  destruct t as [prompt timeout' verbose | request];
    run_cases; unfold creates; cbn; intros Hc; tidy;
    try match goal with H : (_, _, _) = (_, _, _) |- _ => injection H as <- <- <- end;
    reflexivity.
Qed.

(** Two runs that differ only in the agent token, against a service whose
    provisioning does not look at the injected variables, make the same
    calls up to those variables and end the same way. *)
Lemma token_only_in_create_envs env w t token1 token2 :
  (forall template timeout envs1 envs2,
     w_create w template timeout envs1 = w_create w template timeout envs2) ->
  token1 <> [] -> token2 <> [] ->
  map redact (fst (runTask (<[TOKEN_VAR := token1]> env) w t))
  = map redact (fst (runTask (<[TOKEN_VAR := token2]> env) w t))
  /\ snd (runTask (<[TOKEN_VAR := token1]> env) w t)
     = snd (runTask (<[TOKEN_VAR := token2]> env) w t).
Proof.
  intros Hw H1 H2.
  assert (Htpl : forall tok, os_getenv (<[TOKEN_VAR := tok]> env) TEMPLATE_VAR
                             = os_getenv env TEMPLATE_VAR).
  { intros tok. unfold os_getenv. apply lookup_insert_ne. discriminate. }
  assert (Hkey : forall tok, os_getenv (<[TOKEN_VAR := tok]> env) API_KEY_VAR
                             = os_getenv env API_KEY_VAR).
  { intros tok. unfold os_getenv. apply lookup_insert_ne. discriminate. }
  assert (Htok : forall tok, os_getenv (<[TOKEN_VAR := tok]> env) TOKEN_VAR = Some tok).
  { intros tok. unfold os_getenv. apply lookup_insert_eq. }
  destruct token1 as [|x1 token1]; [contradiction|].
  destruct token2 as [|x2 token2]; [contradiction|].
  destruct t as [prompt timeout verbose | request];
    unfold_run; rewrite ?Htpl, ?Hkey, ?Htok;
    change (truthy (Some (x1 :: token1))) with true;
    change (truthy (Some (x2 :: token2))) with true;
    rewrite (Hw _ _ {[TOKEN_VAR := Some (x1 :: token1)]} {[TOKEN_VAR := Some (x2 :: token2)]});
    cbn; repeat step; try (unfold truthy in *; discriminate);
    split; reflexivity.
Qed.

(** C10. Two runs of the same task under any two environments, and so
    under different credential tokens, upload the same program text: it is
    the text generated from the task fields alone. The token reaches the
    sandbox as the one injected variable of the provisioning call, and
    changing the token changes nothing else in the calls a run makes. *)
Theorem credentials_not_in_program env1 env2 w1 w2 t c1 c2 :
  In c1 (programs (fst (runTask env1 w1 t))) ->
  In c2 (programs (fst (runTask env2 w2 t))) ->
  c1 = c2
  /\ c1 = generated_program t
  /\ (forall template timeout envs,
        In (template, timeout, envs) (creates (fst (runTask env1 w1 t))) ->
        envs = {[ TOKEN_VAR := os_getenv env1 TOKEN_VAR ]})
  /\ (forall token1 token2,
        (forall template timeout envs1 envs2,
           w_create w1 template timeout envs1 = w_create w1 template timeout envs2) ->
        token1 <> [] -> token2 <> [] ->
        map redact (fst (runTask (<[TOKEN_VAR := token1]> env1) w1 t))
        = map redact (fst (runTask (<[TOKEN_VAR := token2]> env1) w1 t))).
Proof.
  intros H1 H2.
  apply programs_are_generated in H1, H2. subst.
  split; [reflexivity|]. split; [reflexivity|]. split.
  - intros template timeout envs. apply token_is_injected.
  - intros token1 token2 Hw Ht1 Ht2.
    apply (token_only_in_create_envs env1 w1 t token1 token2 Hw Ht1 Ht2).
Qed.

Lemma credentials_not_in_program_witness :
  In (generated_program (ApiServerTask example_request))
     (programs (fst (runTask example_env (calm_world (Return four))
                       (ApiServerTask example_request))))
  /\ In (generated_program (ApiServerTask example_request))
        (programs (fst (runTask (<[TOKEN_VAR := lit "sk-ant-oat-2"]> example_env)
                          (stormy_world (Return boom))
                          (ApiServerTask example_request))))
  /\ generated_program (ApiServerTask example_request)
     = generated_program (ApiServerTask example_request).
Proof.
  assert (H1 : In (generated_program (ApiServerTask example_request))
                 (programs (fst (runTask example_env (calm_world (Return four))
                                   (ApiServerTask example_request))))).
  { vm_compute. left. reflexivity. }
  assert (H2 : In (generated_program (ApiServerTask example_request))
                 (programs (fst (runTask (<[TOKEN_VAR := lit "sk-ant-oat-2"]> example_env)
                                   (stormy_world (Return boom))
                                   (ApiServerTask example_request))))).
  { vm_compute. left. reflexivity. }
  split; [exact H1|]. split; [exact H2|].
  exact (proj1 (credentials_not_in_program example_env
                  (<[TOKEN_VAR := lit "sk-ant-oat-2"]> example_env)
                  (calm_world (Return four)) (stormy_world (Return boom))
                  (ApiServerTask example_request) _ _ H1 H2)).
Defined.

(** When the execution call raises the client's timeout, the sandbox is
    still released and the timeout propagates as it was raised. How long the
    client waits before it raises is decided inside the client. *)
Example timeout_still_releases :
  runTask example_env
    (calm_world (Raise (TimeoutException (lit "timed out"))))
    (RunAgentTask (lit "What is 2 + 2?") 5 false)
  = ([Create (Some (lit "tpl")) 5 {[ TOKEN_VAR := Some (lit "sk-ant-oat-1") ]};
      FilesWrite (lit "sbx-1") AGENT_PATH (RunAgent.agent_code (lit "What is 2 + 2?"));
      CommandsRun (lit "sbx-1") AGENT_CMD 5;
      Kill (lit "sbx-1")],
     Raise (TimeoutException (lit "timed out"))).
Proof. reflexivity. Qed.

(** ** The key of the sandbox service *)

(** [run_agent] of [run_agent.py] never reads [E2B_API_KEY]: a run is the
    same with and without it. *)
Lemma run_agent_never_reads_api_key env w prompt timeout verbose :
  RunAgent.run_agent (delete API_KEY_VAR env) w prompt timeout verbose
  = RunAgent.run_agent env w prompt timeout verbose.
Proof.
  unfold RunAgent.run_agent, os_getenv.
  rewrite !lookup_delete_ne by discriminate. reflexivity.
Qed.

(** C3. The claim fails on [run_agent.py]. The key of the sandbox service
    is one of the required settings: it is an entry of [required_vars] of
    [validate_setup.py], and the server refuses to work without it (line
    80). [run_agent] checks the template and the token only. With the key
    unset and the other two settings there, it makes the provisioning
    call, uploads and runs the program, releases the sandbox and returns
    the result, where the claim asks for a configuration error before any
    call. The server, given the same environment, raises its configuration
    error with an empty trace. *)
Theorem run_agent_provisions_without_api_key :
  In API_KEY_VAR (map fst ValidateSetup.required_vars)
  /\ os_getenv (delete API_KEY_VAR example_env) API_KEY_VAR = None
  /\ runTask (delete API_KEY_VAR example_env) (calm_world (Return four))
       (RunAgentTask (lit "What is 2 + 2?") 120 false)
     = ([Create (Some (lit "tpl")) 120 {[ TOKEN_VAR := Some (lit "sk-ant-oat-1") ]};
         FilesWrite (lit "sbx-1") AGENT_PATH (RunAgent.agent_code (lit "What is 2 + 2?"));
         CommandsRun (lit "sbx-1") AGENT_CMD 120;
         Kill (lit "sbx-1")],
        Return (Text (lit "4")))
  /\ runTask (delete API_KEY_VAR example_env) (calm_world (Return four))
       (ApiServerTask example_request)
     = ([], Raise (HTTPException 500 (lit "Server not configured. Run onboarding.py"))).
Proof.
  split; [left; reflexivity|].
  split; [reflexivity|].
  split; reflexivity.
Qed.

(** * More about the scripts *)

(** ** The program text of the server *)
Module ApiProgramFacts.
Import Json PyLex JsonFacts PyLexFacts.

(** A quote followed by anything but a quote opens a short literal. *)
Lemma string_literal_short q t :
  q <> 34 -> string_literal (34 :: q :: t) = string_body (q :: t).
Proof.
  intros Hq. unfold string_literal. change (34 =? 34) with true. cbv iota.
  apply N.eqb_neq in Hq. destruct t; rewrite ?Hq; reflexivity.
Qed.

(** Every encoded text that is not empty is one string literal. *)
Lemma string_literal_encoded x rest :
  Forall (fun c => printable c = true) x -> x <> [] ->
  string_literal (dumps x ++ rest) = Some (x, rest).
Proof.
  intros Hp Hne.
  assert (Hbody : string_body (flat_map replace x ++ 34 :: rest) = Some (x, rest))
    by (apply string_body_flat_map; assumption).
  unfold dumps, encode_basestring_ascii, DQUOTE.
  cbn [app]. rewrite <- app_assoc. cbn [app].
  destruct x as [|c x]; [contradiction|].
  apply Forall_cons_1 in Hp as [Hc _].
  revert Hbody. cbn [flat_map]. unfold replace.
  destruct (c =? 92) eqn:E1;
    [cbn [app]; intros <-; apply string_literal_short; discriminate|].
  destruct (c =? 34) eqn:E2;
    [cbn [app]; intros <-; apply string_literal_short; discriminate|].
  unfold printable in Hc. rewrite Hc. cbn [app]. intros <-.
  apply string_literal_short. apply N.eqb_neq. exact E2.
Qed.

Lemma lit_printable_comma : Forall (fun c => printable c = true) (lit ", ").
Proof. repeat constructor. Qed.

Lemma dumps_items_printable l :
  Forall (fun c => printable c = true) (dumps_items l).
Proof.
  induction l as [|x l IH]; [constructor|].
  destruct l as [|y l].
  - apply dumps_printable.
  - change (dumps_items (x :: y :: l))
      with (dumps x ++ lit ", " ++ dumps_items (y :: l)).
    apply Forall_app; split; [apply dumps_printable|].
    apply Forall_app; split; [apply lit_printable_comma | exact IH].
Qed.

Lemma dumps_list_printable l :
  Forall (fun c => printable c = true) (dumps_list l).
Proof.
  unfold dumps_list.
  apply Forall_app; split; [repeat constructor|].
  apply Forall_app; split; [apply dumps_items_printable | repeat constructor].
Qed.

(** The values of an encoded list, read back by the array loop. *)
Lemma items_dumps_items x l rest fuel :
  Forall (fun y => wf_str y /\ no_surrogate_pair y = true) (x :: l) ->
  (length (x :: l) <= fuel)%nat ->
  JsonArray.items fuel (dumps_items (x :: l) ++ 93 :: rest) = Some (x :: l, rest).
Proof.
  revert x fuel. induction l as [|y l IH]; intros x fuel Hall Hfuel.
  - destruct fuel as [|fuel]; [cbn in Hfuel; lia|].
    apply Forall_cons_1 in Hall as [[Hwf Hnp] _].
    cbn [dumps_items]. unfold dumps, encode_basestring_ascii, DQUOTE.
    cbn [app JsonArray.items]. change (34 =? 34) with true. cbv iota.
    rewrite <- app_assoc. cbn [app].
    rewrite scanstring_flat_map by assumption. reflexivity.
  - destruct fuel as [|fuel]; [cbn in Hfuel; lia|].
    apply Forall_cons_1 in Hall as [[Hwf Hnp] Hall].
    change (dumps_items (x :: y :: l))
      with (dumps x ++ lit ", " ++ dumps_items (y :: l)).
    unfold dumps at 1. unfold encode_basestring_ascii, DQUOTE.
    cbn [app JsonArray.items]. change (34 =? 34) with true. cbv iota.
    rewrite <- !app_assoc. cbn [app].
    rewrite scanstring_flat_map by assumption.
    change (lit ", ") with [44; 32]. cbn [app skip_ws].
    change ((44 =? 32) || (44 =? 9) || (44 =? 10) || (44 =? 13)) with false.
    cbv iota. change (44 =? 93) with false. change (44 =? 44) with true.
    cbv iota. cbn [skip_ws].
    change ((32 =? 32) || (32 =? 9) || (32 =? 10) || (32 =? 13)) with true.
    cbv iota.
    assert (Hskip : forall t, skip_ws (dumps_items (y :: l) ++ t)
                              = dumps_items (y :: l) ++ t).
    { intros t. destruct l; reflexivity. }
    rewrite Hskip, IH; [reflexivity | assumption | cbn in *; lia].
Qed.

Lemma dumps_items_length l rest :
  (length l <= length (dumps_items l ++ rest))%nat.
Proof.
  induction l as [|x l IH]; [cbn; lia|].
  destruct l as [|y l].
  - cbn. lia.
  - change (dumps_items (x :: y :: l))
      with (dumps x ++ lit ", " ++ dumps_items (y :: l)).
    rewrite <- !app_assoc. unfold dumps at 1, encode_basestring_ascii.
    cbn [app length]. rewrite !length_app in *. cbn [length] in *. lia.
Qed.

(** [json.loads(json.dumps(tools))] gives the list back. *)
Lemma loads_dumps_list l :
  Forall (fun y => wf_str y /\ no_surrogate_pair y = true) l ->
  JsonArray.loads (dumps_list l) = Some l.
Proof.
  intros Hall. unfold JsonArray.loads, dumps_list.
  change (lit "[") with [91]. cbn [app skip_ws].
  change ((91 =? 32) || (91 =? 9) || (91 =? 10) || (91 =? 13)) with false.
  cbv iota. change (91 =? 91) with true. cbv iota.
  change (lit "]") with [93]. unfold JsonArray.array.
  destruct l as [|x l].
  - reflexivity.
  - assert (Hskip : skip_ws (dumps_items (x :: l) ++ [93])
                    = dumps_items (x :: l) ++ [93]).
    { destruct l; reflexivity. }
    rewrite Hskip.
    assert (Hhead : exists t, dumps_items (x :: l) ++ [93] = 34 :: t).
    { destruct l; eexists; reflexivity. }
    destruct Hhead as [t Ht]. rewrite Ht at 1. change (34 =? 93) with false.
    cbv iota.
    rewrite items_dumps_items; [reflexivity | assumption |].
    apply dumps_items_length.
Qed.


(** The generated program is the four fixed pieces around the three
    interpolated texts. *)
Lemma agent_code_pieces request :
  ApiServer.agent_code request =
  ApiProgram.code_head ++ dumps (dumps (ApiServer.prompt request))
  ++ ApiProgram.code_mid1 ++ dumps (dumps_list (ApiServer.allowed_tools request))
  ++ ApiProgram.code_mid2
  ++ DQUOTE :: ApiServer.model request ++ DQUOTE :: ApiProgram.code_tail.
Proof.
  unfold ApiServer.agent_code, ApiProgram.code_head, ApiProgram.code_mid1,
    ApiProgram.code_mid2, ApiProgram.code_tail, lines.
  cbn [flat_map]. rewrite ?app_nil_r.
  repeat (rewrite <- ?app_assoc; cbn [app]). reflexivity.
Qed.

(** A text of plain characters between quotes is a literal that denotes
    it. *)
Lemma string_body_plain s rest :
  forallb plain s = true -> string_body (s ++ 34 :: rest) = Some (s, rest).
Proof.
  induction s as [|c s IH]; intros Hs.
  - reflexivity.
  - cbn [forallb] in Hs. apply andb_true_iff in Hs as [Hc Hs].
    unfold plain in Hc. apply negb_true_iff in Hc.
    rewrite !orb_false_iff in Hc. destruct Hc as [[[[H34 H92] H10] H13] H0].
    cbn [app string_body]. rewrite H34, H92, H10, H13, H0. cbn [orb].
    rewrite IH by assumption. reflexivity.
Qed.

Lemma plain_head_not_quote c s : forallb plain (c :: s) = true -> c <> 34.
Proof.
  cbn [forallb]. intros H. apply andb_true_iff in H as [Hc _].
  unfold plain in Hc. apply negb_true_iff in Hc.
  rewrite !orb_false_iff in Hc. destruct Hc as [[[[H34 _] _] _] _].
  apply N.eqb_neq. exact H34.
Qed.


End ApiProgramFacts.

(** X1. The program the server generates hands the task through unchanged:
    when no high surrogate is directly followed by a low one in the prompt
    or in a tool name, and the model name has no quote, backslash, line end
    or null character, the program has the shape of its template and
    decodes, inside the sandbox, exactly the prompt, the list of allowed
    tools and the model of the request. *)
Theorem api_program_round_trip request :
  wf_str (ApiServer.prompt request) ->
  no_surrogate_pair (ApiServer.prompt request) = true ->
  Forall (fun tool => wf_str tool /\ no_surrogate_pair tool = true)
         (ApiServer.allowed_tools request) ->
  forallb plain (ApiServer.model request) = true ->
  ApiProgram.embedded (ApiServer.agent_code request)
  = Some (ApiServer.prompt request, ApiServer.allowed_tools request,
          ApiServer.model request).
Proof.
  intros Hwf Hnp Htools Hmodel.
  unfold ApiProgram.embedded. rewrite ApiProgramFacts.agent_code_pieces.
  rewrite PyLexFacts.strip_prefix_app. cbn [mbind option_bind].
  rewrite PyLexFacts.string_literal_dumps. cbn [mbind option_bind].
  rewrite PyLexFacts.strip_prefix_app. cbn [mbind option_bind].
  rewrite ApiProgramFacts.string_literal_encoded;
    [| apply ApiProgramFacts.dumps_list_printable | discriminate].
  cbn [mbind option_bind]. rewrite PyLexFacts.strip_prefix_app.
  cbn [mbind option_bind].
  assert (Hlit : PyLex.string_literal
                   (DQUOTE :: ApiServer.model request ++ DQUOTE :: ApiProgram.code_tail)
                 = Some (ApiServer.model request, ApiProgram.code_tail)).
  { destruct (ApiServer.model request) as [|c s] eqn:Em.
    - reflexivity.
    - unfold DQUOTE. cbn [app].
      rewrite ApiProgramFacts.string_literal_short
        by (eapply ApiProgramFacts.plain_head_not_quote; eassumption).
      apply (ApiProgramFacts.string_body_plain (c :: s)). assumption. }
  rewrite Hlit. cbn [mbind option_bind].
  rewrite bool_decide_eq_true_2 by reflexivity.
  rewrite JsonFacts.loads_dumps by assumption. cbn [mbind option_bind].
  rewrite ApiProgramFacts.loads_dumps_list by assumption. reflexivity.
Qed.

Lemma api_program_round_trip_witness :
  ApiProgram.embedded (ApiServer.agent_code example_request)
  = Some (ApiServer.prompt example_request,
          ApiServer.allowed_tools example_request,
          ApiServer.model example_request).
Proof.
  apply (api_program_round_trip example_request).
  - unfold wf_str. repeat constructor.
  - reflexivity.
  - repeat constructor.
  - reflexivity.
Defined.



(** ** More about the runs of a task *)

(** X3. The sandbox calls of a run come in one fixed order and stop at the
    first failure: nothing at all, or the provisioning call alone, or
    provisioning, upload and release, or provisioning, upload, execution and
    release. The program always goes to [/home/user/agent.py] and is run
    with [python3 /home/user/agent.py]; the upload never happens without a
    sandbox and the execution never without the upload. *)
Theorem calls_in_order env w t :
  let calls := sandbox_calls (fst (runTask env w t)) in
  let provision :=
    Create (os_getenv env TEMPLATE_VAR) (task_timeout t)
           {[ TOKEN_VAR := os_getenv env TOKEN_VAR ]} in
  calls = []
  \/ (calls = [provision] /\ created w (fst (runTask env w t)) = [])
  \/ (exists h, calls = [provision; FilesWrite h AGENT_PATH (generated_program t); Kill h])
  \/ (exists h, calls = [provision; FilesWrite h AGENT_PATH (generated_program t);
                         CommandsRun h AGENT_CMD (task_timeout t); Kill h]).
Proof.
  cbv zeta. destruct t as [prompt timeout verbose | request];
    run_cases; unfold created; cbn; use_answers; cbn; tidy; eauto 6.
Qed.

(** X4. When the provisioning call raises, nothing is uploaded, run or
    released, and the caller is told of that error: [run_agent] raises it,
    and the server answers with a failure that carries its text and no
    sandbox id. *)
Theorem provisioning_failure_surfaces env w t e :
  In e (provisioning_failures w (fst (runTask env w t))) ->
  programs (fst (runTask env w t)) = []
  /\ run_timeouts (fst (runTask env w t)) = []
  /\ kills (fst (runTask env w t)) = []
  /\ (is_Exception e = true -> surfaces (snd (runTask env w t)) e)
  /\ (forall resp, snd (runTask env w t) = Return (Response resp) ->
                   ApiServer.sandbox_id resp = None).
Proof.
  destruct t as [prompt timeout verbose | request];
    run_cases; unfold provisioning_failures, programs, run_timeouts, kills;
    cbn; use_answers; cbn; intros Hin; tidy; try congruence;
    repeat split; auto; try discriminate;
    intros resp Hresp;
    first [discriminate Hresp | injection Hresp as <-; reflexivity].
Qed.

(** X5. The [verbose] flag of [run_agent] changes the console output only:
    the sandbox calls and the result are the same with and without it, and
    without it nothing is printed. *)
Theorem verbose_only_prints env w prompt timeout :
  sandbox_calls (run_trace (RunAgent.run_agent env w prompt timeout true) tt)
  = run_trace (RunAgent.run_agent env w prompt timeout false) tt
  /\ run_result (RunAgent.run_agent env w prompt timeout true) tt
     = run_result (RunAgent.run_agent env w prompt timeout false) tt
  /\ printed (run_trace (RunAgent.run_agent env w prompt timeout false) tt) = [].
Proof.
  run_cases; auto.
Qed.

Lemma lstrip_trimmed_head s c t : lstrip s = c :: t -> isspace c = false.
Proof.
  induction s as [|d s IH]; [discriminate|].
  cbn [lstrip]. destruct (isspace d) eqn:Hd; [exact IH|].
  intros H. injection H as <- _. exact Hd.
Qed.

Lemma lstrip_keeps_last a c :
  isspace c = false -> exists a', lstrip (a ++ [c]) = a' ++ [c].
Proof.
  intros Hc. induction a as [|d a [a' IH]].
  - exists []. cbn [app lstrip]. rewrite Hc. reflexivity.
  - cbn [app lstrip]. destruct (isspace d).
    + exists a'. exact IH.
    + exists (d :: a). reflexivity.
Qed.

(** What [strip] returns has no whitespace at either end. *)
Lemma strip_trimmed s : trimmed (strip s) = true.
Proof.
  unfold strip, rstrip.
  destruct (lstrip s) as [|c t] eqn:Hl; [reflexivity|].
  pose proof (lstrip_trimmed_head s c t Hl) as Hc.
  cbn [rev]. destruct (lstrip_keeps_last (rev t) c Hc) as [u Hu].
  rewrite Hu. rewrite rev_app_distr. cbn [rev app].
  unfold trimmed. rewrite Hc. cbn [negb andb].
  destruct u as [|d u].
  - cbn. rewrite Hc. reflexivity.
  - pose proof (lstrip_trimmed_head _ _ _ Hu) as Hd.
    cbn [rev]. change (c :: (rev u ++ [d])) with ((c :: rev u) ++ [d]).
    rewrite last_last. rewrite Hd. reflexivity.
Qed.

(** X6. The text a task hands back never has whitespace at its start or at
    its end. *)
Theorem result_is_trimmed env w t r s :
  snd (runTask env w t) = Return r ->
  primary_result r = Some s ->
  trimmed s = true.
Proof.
  destruct t as [prompt timeout verbose | request];
    run_cases; intros Hr Hs; tidy; try discriminate;
    cbn in Hs; try discriminate; injection Hs as <-; apply strip_trimmed.
Qed.

Lemma line_count_app a b : line_count (a ++ b) = (line_count a + line_count b)%nat.
Proof. unfold line_count. rewrite List.filter_app, length_app. reflexivity. Qed.

Lemma printable_no_lines s :
  Forall (fun c => printable c = true) s -> line_count s = 0%nat.
Proof.
  induction 1 as [|c s Hc Hs IH]; [reflexivity|].
  unfold line_count in *. cbn [List.filter].
  replace (c =? NEWLINE) with false; [exact IH|].
  symmetry. apply N.eqb_neq. unfold printable in Hc.
  apply andb_true_iff in Hc as [Hlo _]. apply N.leb_le in Hlo.
  unfold NEWLINE. lia.
Qed.

Lemma printable_ascii s :
  Forall (fun c => printable c = true) s -> Forall (fun c => c < 128) s.
Proof.
  intros H. eapply Forall_impl; [exact H|]. intros c Hc. unfold printable in Hc.
  apply andb_true_iff in Hc as [_ Hhi]. apply N.leb_le in Hhi. lia.
Qed.

(** X7. Whatever the prompt, the program [run_agent] generates is ASCII
    text of exactly 15 lines: the prompt cannot add a line to it nor put a
    character outside ASCII into it. *)
Theorem agent_code_is_ascii_of_15_lines prompt :
  Forall (fun c => c < 128) (RunAgent.agent_code prompt)
  /\ line_count (RunAgent.agent_code prompt) = 15%nat.
Proof.
  pose proof (PyLexFacts.dumps_printable (Json.dumps prompt)) as Hp.
  unfold RunAgent.agent_code. split.
  - apply Forall_app; split; [|apply Forall_app; split].
    + apply List.Forall_forall. intros c Hc. apply N.ltb_lt. revert c Hc.
      apply forallb_forall. vm_compute. reflexivity.
    + apply printable_ascii, Hp.
    + apply List.Forall_forall. intros c Hc. apply N.ltb_lt. revert c Hc.
      apply forallb_forall. vm_compute. reflexivity.
  - rewrite !line_count_app, (printable_no_lines _ Hp). reflexivity.
Qed.

(** X8. When the injected program exits with a status other than zero and
    the release call returns, the server does not raise: it answers with a
    failure whose error text is the captured standard error, or
    ["Agent failed"] when that is empty, so the text is never empty. *)
Theorem api_nonzero_exit_reply env w request res :
  In res (exits w (run_trace (ApiServer.run_agent env w request) None)) ->
  exit_code res <> 0%Z ->
  release_failures w (run_trace (ApiServer.run_agent env w request) None) = [] ->
  exists resp,
    run_result (ApiServer.run_agent env w request) None = Return resp
    /\ ApiServer.success resp = false
    /\ ApiServer.result resp = None
    /\ ApiServer.error resp
       = Some (if bool_decide (stderr res = []) then lit "Agent failed" else stderr res)
    /\ ApiServer.error resp <> Some []
    /\ ApiServer.sandbox_id resp
       = head (created w (run_trace (ApiServer.run_agent env w request) None)).
Proof.
  run_cases; unfold exits, release_failures, created; cbn; use_answers; cbn;
    intros Hin Hcode Hrel; tidy; try discriminate;
    try match goal with
        | H : (exit_code _ =? 0)%Z = true |- _ => apply Z.eqb_eq in H; contradiction
        end;
    (eexists; split; [reflexivity|]; cbn;
     destruct (stderr res) eqn:Herr; cbn; repeat split; auto; discriminate).
Qed.

(** X9. Every reply of the server carries exactly one of a result and an
    error: a result and no error when it reports success, an error and no
    result when it reports failure; and its sandbox id is the id of the
    sandbox that was created, if one was. *)
Theorem api_reply_shape env w request resp :
  run_result (ApiServer.run_agent env w request) None = Return resp ->
  (if ApiServer.success resp
   then is_Some (ApiServer.result resp) /\ ApiServer.error resp = None
   else ApiServer.result resp = None /\ is_Some (ApiServer.error resp))
  /\ ApiServer.sandbox_id resp
     = head (created w (run_trace (ApiServer.run_agent env w request) None)).
Proof.
  run_cases; unfold created; cbn; use_answers; cbn;
    intros Hr; tidy; try discriminate; cbn; repeat split; eauto.
Qed.

(** X10. Where the errors of a run come from. Whatever a task raises is the
    configuration error, raised before any call; or an error of the release
    call; or an error of the provisioning, upload or execution call (or, in
    [run_agent.py], the error for a failed exit status), which the server
    lets through only when it is not an [Exception]. *)
Theorem raised_errors_have_an_origin env w t e :
  snd (runTask env w t) = Raise e ->
  (fst (runTask env w t) = [] /\ is_configuration_error e = true)
  \/ In e (release_failures w (fst (runTask env w t)))
  \/ ((In e (provisioning_failures w (fst (runTask env w t)))
       \/ In e (primary_errors w t (fst (runTask env w t))))
      /\ match t with
         | ApiServerTask _ => is_Exception e = false
         | RunAgentTask _ _ _ => True
         end).
Proof.
  destruct t as [prompt timeout verbose | request];
    run_cases;
    unfold release_failures, provisioning_failures, primary_errors,
      step_failures, exits;
    cbn; use_answers; cbn;
    repeat match goal with
           | H : (exit_code ?r =? 0)%Z = _ |- context [(exit_code ?r =? 0)%Z] =>
             rewrite H; cbn
           end;
    intros Hr; tidy; try discriminate; try congruence; cbn; auto 8.
Qed.

(** ** The command line of [run_agent.py] *)

(** X11. Which prompt [main] uses: the positional argument when it is given
    and not empty, otherwise the value of [--prompt]; and when neither is
    given it prints the help and exits with status 1 without any sandbox
    call. *)
Theorem main_prompt_choice env w args :
  (truthy (RunAgentMain.prompt args) = true ->
   RunAgentMain.main env w args
   = RunAgentMain.main env w
       {| RunAgentMain.prompt := RunAgentMain.prompt args;
          RunAgentMain.prompt_flag := None;
          RunAgentMain.timeout := RunAgentMain.timeout args;
          RunAgentMain.verbose := RunAgentMain.verbose args |})
  /\ (truthy (RunAgentMain.prompt args) = false ->
      RunAgentMain.main env w args
      = RunAgentMain.main env w
          {| RunAgentMain.prompt := RunAgentMain.prompt_flag args;
             RunAgentMain.prompt_flag := None;
             RunAgentMain.timeout := RunAgentMain.timeout args;
             RunAgentMain.verbose := RunAgentMain.verbose args |})
  /\ (truthy (RunAgentMain.prompt args) = false ->
      truthy (RunAgentMain.prompt_flag args) = false ->
      RunAgentMain.main env w args = ([RunAgentMain.PrintHelp], RunAgentMain.SystemExit 1)).
Proof.
  destruct args as [p f t v]. unfold RunAgentMain.main, py_or. cbn.
  repeat split; intros Hp; rewrite ?Hp; cbn; try reflexivity.
  - destruct (truthy f) eqn:Hf; rewrite ?Hf; cbn; [reflexivity|].
    destruct f as [[|]|]; reflexivity.
  - intros Hf. rewrite Hf. reflexivity.
Qed.

Lemma calls_map_call tr : RunAgentMain.calls (map RunAgentMain.Call tr) = tr.
Proof. induction tr as [|ev tr IH]; [reflexivity|]. cbn. f_equal. exact IH. Qed.

Lemma stderr_map_call tr : RunAgentMain.stderr_lines (map RunAgentMain.Call tr) = [].
Proof. induction tr as [|ev tr IH]; [reflexivity|]. exact IH. Qed.

(** What a run of [run_agent] that returns has done. *)
Lemma run_agent_returns env w prompt timeout verbose result :
  run_result (RunAgent.run_agent env w prompt timeout verbose) tt = Return result ->
  exists h res,
    created w (run_trace (RunAgent.run_agent env w prompt timeout verbose) tt) = [h]
    /\ exits w (run_trace (RunAgent.run_agent env w prompt timeout verbose) tt) = [res]
    /\ exit_code res = 0%Z
    /\ result = strip (stdout res)
    /\ kills (run_trace (RunAgent.run_agent env w prompt timeout verbose) tt) = [h]
    /\ release_failures w
         (run_trace (RunAgent.run_agent env w prompt timeout verbose) tt) = []
    /\ step_failures w
         (run_trace (RunAgent.run_agent env w prompt timeout verbose) tt) = [].
Proof.
  run_cases; unfold created, exits, kills, release_failures, step_failures;
    cbn; use_answers; cbn; intros Hr; tidy; try discriminate;
    (eexists; eexists; repeat split; try reflexivity;
     match goal with H : (exit_code _ =? 0)%Z = true |- _ => apply Z.eqb_eq, H end).
Qed.

(** X12. [main] returns, and so the process exits with status 0, only
    after a complete run: one sandbox was created and released without
    error, the upload and the execution did not raise, the program exited
    with status 0, the last thing written to standard output is its output
    without the surrounding whitespace, and nothing went to standard
    error. *)
Theorem main_returns_only_on_success env w args :
  snd (RunAgentMain.main env w args) = RunAgentMain.Returned ->
  exists h res,
    created w (RunAgentMain.calls (fst (RunAgentMain.main env w args))) = [h]
    /\ kills (RunAgentMain.calls (fst (RunAgentMain.main env w args))) = [h]
    /\ exits w (RunAgentMain.calls (fst (RunAgentMain.main env w args))) = [res]
    /\ exit_code res = 0%Z
    /\ release_failures w (RunAgentMain.calls (fst (RunAgentMain.main env w args))) = []
    /\ step_failures w (RunAgentMain.calls (fst (RunAgentMain.main env w args))) = []
    /\ List.last (fst (RunAgentMain.main env w args)) RunAgentMain.PrintHelp
       = RunAgentMain.Call (Printed (strip (stdout res)))
    /\ RunAgentMain.stderr_lines (fst (RunAgentMain.main env w args)) = [].
Proof.
  unfold RunAgentMain.main.
  destruct (truthy (py_or (RunAgentMain.prompt args) (RunAgentMain.prompt_flag args)));
    cbn [negb]; [|discriminate].
  set (m := RunAgent.run_agent env w _ _ _).
  destruct (run_result m tt) as [result|e] eqn:Hres.
  - intros _.
    destruct (run_agent_returns _ _ _ _ _ _ Hres)
      as (h & res & Hc & He & Hcode & Hresult & Hk & Hrel & Hstep).
    exists h, res. cbn [fst].
    unfold RunAgentMain.calls, RunAgentMain.stderr_lines.
    rewrite !flat_map_app. fold RunAgentMain.calls. fold RunAgentMain.stderr_lines.
    rewrite calls_map_call, stderr_map_call. cbn [flat_map app].
    unfold created, kills, exits, release_failures, step_failures in *.
    rewrite !flat_map_app. cbn [flat_map app]. rewrite !app_nil_r.
    rewrite last_last, Hresult. repeat split; assumption.
  - destruct (is_Exception e); discriminate.
Qed.

(** X13. When a setting is missing, [main] writes the one line
    ["Error: <NAME> not set. Run: ./setup.sh"] to standard error, naming
    the template identifier first, and exits with status 1 without any
    sandbox call. *)
Theorem main_missing_configuration env w args v :
  truthy (py_or (RunAgentMain.prompt args) (RunAgentMain.prompt_flag args)) = true ->
  In v [TEMPLATE_VAR; TOKEN_VAR] ->
  truthy (os_getenv env v) = false ->
  RunAgentMain.main env w args
  = ([RunAgentMain.Stderr
        (lit "Error: "
         ++ lit (if truthy (os_getenv env TEMPLATE_VAR) then TOKEN_VAR else TEMPLATE_VAR)
         ++ lit " not set. Run: ./setup.sh")],
     RunAgentMain.SystemExit 1).
Proof.
  intros Hp Hv Hmiss. unfold RunAgentMain.main. rewrite Hp. cbn [negb].
  destruct Hv as [<- | [<- | []]];
    unfold_run; cbn; rewrite ?Hmiss; cbn;
    repeat match goal with
           | |- context [truthy ?x] => destruct (truthy x) eqn:?; cbn
           end; try discriminate; reflexivity.
Qed.

(** What [main] does once the arguments are parsed and it does not return:
    it exits with status 1, after the help or after one line on standard
    error, or lets an error through that is not an [Exception]. *)
Lemma parsed_main_failure env w args :
  snd (RunAgentMain.main env w args) <> RunAgentMain.Returned ->
  (snd (RunAgentMain.main env w args) = RunAgentMain.SystemExit 1
   /\ (fst (RunAgentMain.main env w args) = [RunAgentMain.PrintHelp]
       \/ exists e,
            RunAgentMain.stderr_lines (fst (RunAgentMain.main env w args))
            = [lit "Error: " ++ str_exn e]
            /\ List.last (fst (RunAgentMain.main env w args)) RunAgentMain.PrintHelp
               = RunAgentMain.Stderr (lit "Error: " ++ str_exn e)))
  \/ exists e, snd (RunAgentMain.main env w args) = RunAgentMain.Propagated e
               /\ is_Exception e = false.
Proof.
  unfold RunAgentMain.main.
  destruct (truthy (py_or (RunAgentMain.prompt args) (RunAgentMain.prompt_flag args)));
    cbn [negb]; [|auto].
  set (m := RunAgent.run_agent env w _ _ _).
  destruct (run_result m tt) as [result|e] eqn:Hres.
  - intros H. contradiction H. reflexivity.
  - intros _. destruct (is_Exception e) eqn:He.
    + left. split; [reflexivity|]. right. exists e. cbn [fst].
      unfold RunAgentMain.stderr_lines. rewrite flat_map_app.
      fold RunAgentMain.stderr_lines. rewrite stderr_map_call, last_last.
      split; reflexivity.
    + right. exists e. split; [reflexivity | exact He].
Qed.

(** X14. How [main] of [run_agent.py] ends when it does not return. Either
    argparse ended the script while it parsed the command line, with a
    status of its own (2 after a usage error, 0 after [-h]), and nothing
    else was done. Or the arguments were parsed and [main] exits with
    status 1, after the help alone or after exactly one line on standard
    error, which is ["Error: "] followed by the text of the error
    [run_agent] raised and comes last. Or an error that is not an
    [Exception] gets through. So the two exits [main] makes itself both
    have status 1; any other status is argparse's. *)
Theorem main_failure_is_exit env w parse_args :
  snd (RunAgentMain.whole_main env w parse_args) <> RunAgentMain.Returned ->
  (exists code,
     parse_args = RunAgentMain.ParserExit code
     /\ RunAgentMain.whole_main env w parse_args = ([], RunAgentMain.SystemExit code))
  \/ (exists args,
        parse_args = RunAgentMain.Parsed args
        /\ snd (RunAgentMain.whole_main env w parse_args) = RunAgentMain.SystemExit 1
        /\ (fst (RunAgentMain.whole_main env w parse_args) = [RunAgentMain.PrintHelp]
            \/ exists e,
                 RunAgentMain.stderr_lines (fst (RunAgentMain.whole_main env w parse_args))
                 = [lit "Error: " ++ str_exn e]
                 /\ List.last (fst (RunAgentMain.whole_main env w parse_args))
                              RunAgentMain.PrintHelp
                    = RunAgentMain.Stderr (lit "Error: " ++ str_exn e)))
  \/ (exists e,
        snd (RunAgentMain.whole_main env w parse_args) = RunAgentMain.Propagated e
        /\ is_Exception e = false).
Proof.
  destruct parse_args as [args | code]; cbn [RunAgentMain.whole_main].
  - intros Hfail. destruct (parsed_main_failure env w args Hfail) as [[Hexit Hout] | Hprop].
    + right. left. exists args. split; [reflexivity|]. split; assumption.
    + right. right. exact Hprop.
  - intros _. left. exists code. split; reflexivity.
Qed.

(** ** Start-up and health of the server *)

(** Whether the handler of the server gets past its configuration check. *)
Lemma handler_checks env :
  (forallb truthy [os_getenv env TEMPLATE_VAR; os_getenv env TOKEN_VAR;
                   os_getenv env API_KEY_VAR] = true
   -> forall w request, fst (runTask env w (ApiServerTask request)) <> [])
  /\ (forallb truthy [os_getenv env TEMPLATE_VAR; os_getenv env TOKEN_VAR;
                      os_getenv env API_KEY_VAR] = false
      -> forall w request, fst (runTask env w (ApiServerTask request)) = []).
Proof.
  split; intros H w request; unfold_run; cbn in *; rewrite H; cbn;
    [|reflexivity].
  repeat step; discriminate.
Qed.

(** X15. At start-up the server warns exactly when its handler will refuse
    every request: the warning names the settings the handler checks that
    are unset or empty, in the order template, token, key, and the line
    ["All credentials configured"] is printed exactly when the handler gets
    past its check and makes the provisioning call. *)
Theorem lifespan_agrees_with_handler env :
  printed (run_trace (ApiServerApp.lifespan env) tt)
  = match List.filter (fun v => negb (truthy (os_getenv env v)))
                      [TEMPLATE_VAR; TOKEN_VAR; API_KEY_VAR] with
    | [] => [CHECK_MARK :: lit " All credentials configured";
             PACKAGE :: lit " Template ID: " ++ format (os_getenv env TEMPLATE_VAR)]
    | missing => [WARNING_SIGN ++ lit "  Missing env vars: "
                    ++ join (lit ", ") (map lit missing);
                  lit "Run: python onboarding.py"]
    end
  /\ (In (CHECK_MARK :: lit " All credentials configured")
         (printed (run_trace (ApiServerApp.lifespan env) tt))
      <-> forall w request, fst (runTask env w (ApiServerTask request)) <> []).
Proof.
  destruct (handler_checks env) as [Hpass Hfail].
  unfold ApiServerApp.lifespan, ApiServer.TEMPLATE_ID, ApiServer.OAUTH_TOKEN,
    ApiServer.E2B_API_KEY in *.
  cbn [forallb List.filter] in *.
  destruct (truthy (os_getenv env TEMPLATE_VAR)),
           (truthy (os_getenv env TOKEN_VAR)),
           (truthy (os_getenv env API_KEY_VAR));
    cbn in *; (split; [reflexivity|]); split;
    try (intros _; apply Hpass; reflexivity);
    try (intros [H | [H | []]]; discriminate H);
    try (intros _; left; reflexivity);
    intros H; exfalso;
    apply (H (calm_world (Return four)) example_request), Hfail; reflexivity.
Qed.

(** X16. [GET /health] reports the credentials as configured when the token
    and the key of the sandbox service are set, whatever the template
    identifier: the handler gets past its configuration check exactly when
    the health reply reports the credentials as configured and also carries
    a template identifier that is not empty. *)
Theorem health_ignores_template env :
  (ApiServerApp.credentials_configured (ApiServerApp.health env) = true
   <-> truthy (os_getenv env TOKEN_VAR) = true
       /\ truthy (os_getenv env API_KEY_VAR) = true)
  /\ (ApiServerApp.credentials_configured (ApiServerApp.health env) = true
      /\ truthy (ApiServerApp.template_id (ApiServerApp.health env)) = true
      <-> forall w request, fst (runTask env w (ApiServerTask request)) <> []).
Proof.
  destruct (handler_checks env) as [Hpass Hfail].
  unfold ApiServerApp.health, py_and, ApiServer.TEMPLATE_ID,
    ApiServer.OAUTH_TOKEN, ApiServer.E2B_API_KEY in *.
  cbn [forallb ApiServerApp.credentials_configured ApiServerApp.template_id] in *.
  destruct (truthy (os_getenv env TEMPLATE_VAR)) eqn:Ht,
           (truthy (os_getenv env TOKEN_VAR)) eqn:Ho,
           (truthy (os_getenv env API_KEY_VAR)) eqn:Hk;
    cbn in *; rewrite ?Ho, ?Hk; (split; [intuition congruence|]); split;
    try (intros _; apply Hpass; reflexivity);
    try (intros [? ?]; congruence);
    try (intros _; split; reflexivity);
    intros H; exfalso;
    apply (H (calm_world (Return four)) example_request), Hfail; reflexivity.
Qed.

(** X17. The two example scripts check nothing before they provision: in
    every environment and against every service they make exactly one
    provisioning call, passing on whatever [os.getenv] gave, [None]
    included. *)
Theorem examples_do_not_validate env w s :
  s = ExampleScript \/ s = BasicSyncScript ->
  creates (script_trace env w s)
  = [(os_getenv env TEMPLATE_VAR,
      match s with ExampleScript => 60%Z | _ => 120%Z end,
      {[ TOKEN_VAR := os_getenv env TOKEN_VAR ]})].
Proof.
  intros [-> | ->]; run_cases; reflexivity.
Qed.

(** ** The set-up checks *)

Ltac unfold_checks :=
  unfold ValidateSetup.check_environment, ValidateSetup.required_vars,
    Onboarding.check_python, Onboarding.check_oauth_token,
    Onboarding.check_e2b_auth, Onboarding.check_template,
    run_trace, run_result, for_each, bind, print, call, ret, get, put.

(** X18. [check_environment] of [validate_setup.py] accepts exactly the
    environments the server's handler accepts: it returns [True] exactly
    when the handler gets past its configuration check, and then [run_agent]
    of [run_agent.py] gets past its own check as well. *)
Theorem check_environment_agrees env s :
  (run_result (ValidateSetup.check_environment env) s = Return true
   <-> forall w request, fst (runTask env w (ApiServerTask request)) <> [])
  /\ (run_result (ValidateSetup.check_environment env) s = Return true ->
      forall w prompt timeout verbose,
        fst (runTask env w (RunAgentTask prompt timeout verbose)) <> [])
  /\ (run_result (ValidateSetup.check_environment env) s = Return true
      \/ run_result (ValidateSetup.check_environment env) s = Return false).
Proof.
  destruct (handler_checks env) as [Hpass Hfail].
  cbn [forallb] in Hpass, Hfail.
  unfold_checks. cbn.
  destruct (truthy (os_getenv env API_KEY_VAR)) eqn:Hk,
           (truthy (os_getenv env TEMPLATE_VAR)) eqn:Ht,
           (truthy (os_getenv env TOKEN_VAR)) eqn:Ho;
    cbn in *; repeat split; auto;
    try discriminate;
    try (intros _; apply Hpass; reflexivity);
    try (intros H; exfalso;
         apply (H (calm_world (Return four)) example_request), Hfail; reflexivity).
  intros _ w prompt timeout verbose. unfold_run. cbn. rewrite Ht, Ho. cbn.
  repeat step; discriminate.
Qed.

Lemma preview_long p s :
  length p = 10%nat -> s <> [] ->
  ValidateSetup.preview (p ++ s) = p ++ lit "...".
Proof.
  intros Hp Hs. unfold ValidateSetup.preview.
  assert (Hlen : (10 <? length (p ++ s))%nat = true).
  { apply Nat.ltb_lt. rewrite length_app, Hp.
    destruct s; [contradiction | cbn; lia]. }
  rewrite Hlen. rewrite take_app_length' by (first [assumption | symmetry; assumption]).
  reflexivity.
Qed.

Lemma same_first_ten_shown a b :
  same_first_ten a b ->
  truthy a = truthy b
  /\ ValidateSetup.preview (default [] a) = ValidateSetup.preview (default [] b).
Proof.
  intros [-> | (p & s1 & s2 & Hp & H1 & H2 & -> & ->)]; [split; reflexivity|].
  split.
  - destruct p; [discriminate Hp | reflexivity].
  - change (default [] (Some (p ++ s1))) with (p ++ s1).
    change (default [] (Some (p ++ s2))) with (p ++ s2).
    rewrite !preview_long by assumption. reflexivity.
Qed.

(** X19. [check_environment] shows at most the first ten characters of a
    setting: two environments whose settings are either the same or both
    longer than ten characters with the same first ten produce the same
    output and the same verdict. *)
Theorem check_environment_shows_ten env1 env2 s :
  (forall v, In v (map fst ValidateSetup.required_vars) ->
             same_first_ten (os_getenv env1 v) (os_getenv env2 v)) ->
  ValidateSetup.check_environment env1 s = ValidateSetup.check_environment env2 s.
Proof.
  intros H.
  destruct (same_first_ten_shown _ _ (H API_KEY_VAR ltac:(cbn; auto))) as [Hk Hk'].
  destruct (same_first_ten_shown _ _ (H TEMPLATE_VAR ltac:(cbn; auto))) as [Ht Ht'].
  destruct (same_first_ten_shown _ _ (H TOKEN_VAR ltac:(cbn; auto))) as [Ho Ho'].
  unfold ValidateSetup.check_environment, ValidateSetup.required_vars.
  cbn [for_each]. rewrite Hk, Ht, Ho, Hk', Ht', Ho'. reflexivity.
Qed.

(** X20. [check_python] accepts a version exactly when its major number is
    at least 3 and its minor number at least 12, so a version with a minor
    number below 12 is refused whatever its major number: 4.0 is refused. *)
Theorem check_python_verdict version :
  run_result (Onboarding.check_python version) tt
  = Return ((3 <=? Onboarding.major version)%Z && (12 <=? Onboarding.minor version)%Z)
  /\ ((Onboarding.minor version < 12)%Z ->
      run_result (Onboarding.check_python version) tt = Return false).
Proof.
  unfold_checks. cbn.
  destruct (3 <=? Onboarding.major version)%Z eqn:Hmaj,
           (12 <=? Onboarding.minor version)%Z eqn:Hmin;
    cbn; split; try reflexivity; intros Hlt;
    try reflexivity; apply Z.leb_le in Hmin; lia.
Qed.

(** X21. What the onboarding checks promise the runners: when
    [check_template] and [check_oauth_token] pass, [run_agent] gets past its
    configuration check, and when [check_e2b_auth] passes as well, so does
    the handler of the server. *)
Theorem onboarding_checks_suffice env :
  run_result (Onboarding.check_template env) tt = Return true ->
  run_result (Onboarding.check_oauth_token env) tt = Return true ->
  (forall w prompt timeout verbose,
     fst (runTask env w (RunAgentTask prompt timeout verbose)) <> [])
  /\ (run_result (Onboarding.check_e2b_auth env) tt = Return true ->
      forall w request, fst (runTask env w (ApiServerTask request)) <> []).
Proof.
  destruct (handler_checks env) as [Hpass _]. cbn [forallb] in Hpass.
  unfold_checks. cbn.
  destruct (truthy (os_getenv env TEMPLATE_VAR)) eqn:Ht; cbn; [|discriminate].
  destruct (truthy (os_getenv env TOKEN_VAR)) eqn:Ho; cbn; [|discriminate].
  intros _ _. split.
  - intros w prompt timeout verbose. unfold_run. cbn. rewrite Ht, Ho. cbn.
    repeat step; discriminate.
  - destruct (truthy (os_getenv env API_KEY_VAR)) eqn:Hk; cbn; [|discriminate].
    intros _. apply Hpass. reflexivity.
Qed.

(** ** The onboarding script *)
Module OnboardingFacts.
Import Onboarding.

Lemma turn_counts name check_fn results :
  verdict check_fn <> None ->
  exists extra,
    turn (name, check_fn) results
    = (run_trace check_fn tt ++ extra,
       dict_set results name (passes check_fn), Return tt).
Proof.
  unfold verdict, passes, verdict, turn, run_result, run_trace, bind,
    try_except, lift, get, put, print, call.
  destruct (check_fn tt) as [[t u] [passed|e]]; cbn.
  - intros _. exists [Printed []]. rewrite !app_nil_r.
    destruct passed; reflexivity.
  - destruct (is_Exception e); [|intros H; contradiction H; reflexivity].
    intros _.
    exists [Printed (lit "   " ++ CROSS_MARK :: lit " Error: " ++ str_exn e); Printed []].
    rewrite <- !app_assoc. reflexivity.
Qed.

(** The loop runs every check, whatever the earlier ones did. *)
Lemma loop_runs_all checks results :
  Forall (fun c => verdict (snd c) <> None) checks ->
  exists tr,
    for_each checks turn results = (tr, tally results checks, Return tt)
    /\ (forall c ev, In c checks -> In ev (run_trace (snd c) tt) -> In ev tr).
Proof.
  revert results. induction checks as [|[name check_fn] checks IH];
    intros results Hall.
  - exists []. split; [reflexivity | intros c ev []].
  - apply Forall_cons_1 in Hall as [Hc Hall].
    destruct (turn_counts name check_fn results Hc) as [extra Hturn].
    destruct (IH (dict_set results name (passes check_fn)) Hall) as (tr & Hloop & Hin).
    eexists. split.
    + cbn [for_each]. unfold bind at 1. rewrite Hturn, Hloop. reflexivity.
    + intros c ev [<- | Hc'] Hev.
      * cbn [snd] in Hev. apply in_or_app. left. apply in_or_app. left. exact Hev.
      * apply in_or_app. right. eapply Hin; eassumption.
Qed.

Lemma dict_set_fresh results name passed :
  ~ In name (map fst results) ->
  dict_set results name passed = results ++ [(name, passed)].
Proof.
  induction results as [|[k v] results IH]; intros Hfresh; [reflexivity|].
  cbn [dict_set]. cbn [map fst In] in Hfresh.
  rewrite bool_decide_eq_false_2 by tauto.
  rewrite IH by tauto. reflexivity.
Qed.

(** With names that are all different, the dictionary lists the checks in
    their order, each with its verdict. *)
Lemma tally_distinct results checks :
  List.NoDup (map fst results ++ map fst checks) ->
  tally results checks
  = results ++ map (fun c => (fst c, passes (snd c))) checks.
Proof.
  revert results. induction checks as [|c checks IH]; intros results Hnd.
  - cbn. rewrite app_nil_r. reflexivity.
  - cbn [tally fold_left map]. fold (tally (dict_set results (fst c) (passes (snd c))) checks).
    rewrite dict_set_fresh.
    + rewrite IH.
      * rewrite <- app_assoc. reflexivity.
      * rewrite map_app. cbn [map fst]. rewrite <- app_assoc. exact Hnd.
    + cbn [map] in Hnd. apply List.NoDup_remove_2 in Hnd.
      intros Hin. apply Hnd. apply in_or_app. left. exact Hin.
Qed.

Lemma forallb_tally checks :
  List.NoDup (map fst checks) ->
  forallb snd (tally [] checks) = forallb (fun c => passes (snd c)) checks.
Proof.
  intros Hnd. rewrite tally_distinct by exact Hnd. cbn [app].
  induction checks as [|c checks IH]; [reflexivity|].
  cbn [map forallb snd]. rewrite IH; [reflexivity|].
  inversion Hnd; assumption.
Qed.


(** The summary loop prints and changes nothing. *)
Lemma summary_prints (results : list (pystr * bool)) (s : list (pystr * bool)) :
  exists tr,
    for_each results (fun '((name, passed) : pystr * bool) =>
      print (lit "   " ++ (if passed then CHECK_MARK else CROSS_MARK) :: lit " " ++ name)) s
    = (tr, s, Return tt).
Proof.
  induction results as [|[name passed] results [tr IH]].
  - exists []. reflexivity.
  - eexists. cbn [for_each]. unfold bind at 1, print at 1, call at 1.
    rewrite IH. reflexivity.
Qed.

(** What [main_with] does, written out: the banner, the trace of the loop
    that runs every check, the summary, and then either the SDK test or
    the advice to fix the failed checks. *)
Lemma main_with_unfolded checks s :
  List.NoDup (map fst checks) ->
  Forall (fun c => verdict (snd c) <> None) checks ->
  exists tr trs,
    (forall c ev, In c checks -> In ev (run_trace (snd c) tt) -> In ev tr)
    /\ forall sdk,
    Onboarding.main_with checks sdk s
    = let head := [Printed (repeat_char 61 50);
                   Printed (Onboarding.ROCKET :: lit " Claude Agent SDK + E2B Onboarding");
                   Printed (repeat_char 61 50 ++ [NEWLINE])] ++ tr
                  ++ [Printed (repeat_char 61 50);
                      Printed (Onboarding.CLIPBOARD :: lit " Summary");
                      Printed (repeat_char 61 50)] ++ trs ++ [Printed []] in
      if forallb (fun c => passes (snd c)) checks then
        match sdk tt with
        | (t, _, Return ok) =>
          (head ++ [Printed (PARTY :: lit " All checks passed!");
                    Printed (NEWLINE :: lit "Run SDK test? (tests authentication)")]
                ++ t
                ++ (if ok then
                      [Printed (NEWLINE :: CHECK_MARK :: lit " Ready to go!");
                       Printed (NEWLINE :: lit "Run an agent with:");
                       Printed (lit "   $ source .venv/bin/activate");
                       Printed (lit "   $ python run_agent.py " ++ quoted "Your prompt here");
                       Printed (NEWLINE :: lit "Or run the test:");
                       Printed (lit "   $ python scripts/test_sandbox.py")]
                    else []),
           tally [] checks, Return 0%Z)
        | (t, _, Raise e) =>
          (head ++ [Printed (PARTY :: lit " All checks passed!");
                    Printed (NEWLINE :: lit "Run SDK test? (tests authentication)")]
                ++ t,
           tally [] checks, Raise e)
        end
      else
        (head ++ [Printed (WARNING_SIGN
                           ++ lit "  Some checks failed. Fix the issues above and run again.");
                  Printed (NEWLINE :: lit "   $ python onboarding.py")],
         tally [] checks, Return 1%Z).
Proof.
  intros Hnd Hall.
  destruct (loop_runs_all checks [] Hall) as (tr & Hloop & Hin).
  destruct (summary_prints (tally [] checks) (tally [] checks)) as [trs Hsum].
  pose proof (forallb_tally checks Hnd) as Htally.
  exists tr, trs. split; [exact Hin|].
  intros sdk. unfold Onboarding.main_with.
    change (for_each checks _) with (for_each checks turn).
    unfold bind, print, call, put, get, ret, when, lift in Hsum |- *. cbn [app].
    rewrite Hloop. cbv iota beta. rewrite Hsum. cbv iota beta.
    rewrite Htally. cbv zeta.
    destruct (forallb (fun c => passes (snd c)) checks).
    - destruct (sdk tt) as [[t u] [ok|e]]; [destruct ok|];
        unfold ret; cbv iota beta; rewrite ?app_nil_r;
        repeat (progress (rewrite <- ?app_assoc; cbn [app]));
        reflexivity.
    - unfold ret. cbv iota beta. rewrite ?app_nil_r.
      repeat (progress (rewrite <- ?app_assoc; cbn [app])).
      reflexivity.
Qed.

End OnboardingFacts.

(** X22. The verdict of the onboarding script. With checks of different
    names, none of which raises an error that is not an [Exception]: every
    check is run, whatever the earlier ones did; a check that raises counts
    as failed; [main] returns 0 exactly when every check passed, and then it
    runs the SDK test, whose verdict does not change the status; otherwise
    it returns 1 and the SDK test is not consulted. *)
Theorem onboarding_verdict checks test_sdk s :
  List.NoDup (map fst checks) ->
  Forall (fun c => verdict (snd c) <> None) checks ->
  (forallb (fun c => passes (snd c)) checks = true ->
   run_result (Onboarding.main_with checks test_sdk) s
   = match run_result test_sdk tt with
     | Return _ => Return 0%Z
     | Raise e => Raise e
     end)
  /\ (forallb (fun c => passes (snd c)) checks = false ->
      run_result (Onboarding.main_with checks test_sdk) s = Return 1%Z
      /\ forall other,
           Onboarding.main_with checks other s
           = Onboarding.main_with checks test_sdk s)
  /\ (forall c ev,
        In c checks -> In ev (run_trace (snd c) tt) ->
        In ev (run_trace (Onboarding.main_with checks test_sdk) s)).
Proof.
  intros Hnd Hall.
  destruct (OnboardingFacts.main_with_unfolded checks s Hnd Hall)
    as (tr & trs & Hin & Hmain).
  split; [|split].
  - intros Hpass. unfold run_result. rewrite Hmain. cbv zeta. rewrite Hpass.
    destruct (test_sdk tt) as [[t u] [ok|e]]; reflexivity.
  - intros Hfail. split.
    + unfold run_result. rewrite Hmain. cbv zeta. rewrite Hfail. reflexivity.
    + intros other. rewrite !Hmain. cbv zeta. rewrite Hfail. reflexivity.
  - intros c ev Hc Hev. unfold run_trace. rewrite Hmain. cbv zeta.
    assert (Htr : In ev tr) by (eapply Hin; eassumption).
    destruct (forallb (fun c => passes (snd c)) checks);
      [destruct (test_sdk tt) as [[t u] [ok|e]]|]; cbn [fst];
      rewrite <- ?app_assoc;
      (apply in_or_app; right; apply in_or_app; left; exact Htr)
      || (do 3 right; apply in_or_app; left; exact Htr).
Qed.

Lemma passes_true check_fn :
  passes check_fn = true -> run_result check_fn tt = Return true.
Proof.
  unfold passes, verdict. intros H. apply bool_decide_eq_true_1 in H.
  destruct (run_result check_fn tt) as [b|e].
  - injection H as ->. reflexivity.
  - destruct (is_Exception e); discriminate.
Qed.

Lemma own_checks_return version env :
  verdict (Onboarding.check_python version) <> None
  /\ verdict (Onboarding.check_oauth_token env) <> None
  /\ verdict (Onboarding.check_e2b_auth env) <> None
  /\ verdict (Onboarding.check_template env) <> None.
Proof.
  unfold verdict. unfold_checks. cbn.
  repeat split;
    repeat match goal with
           | |- context [if ?b then _ else _] => destruct b; cbn
           end; discriminate.
Qed.

(** X23. What status 0 of the onboarding script means: if [main] returns 0
    then the Python version is 3.12 or later within major version 3 and up,
    the token starts with ["sk-ant-oat"], the key starts with ["e2b_"], the
    template identifier is set, and with that environment both [run_agent]
    and the handler of the server get past their configuration checks. *)
Theorem onboarding_success_means_configured
    version env check_venv check_dependencies check_env_file test_sdk s :
  verdict check_venv <> None ->
  verdict check_dependencies <> None ->
  verdict check_env_file <> None ->
  run_result (Onboarding.main version env check_venv check_dependencies
                check_env_file test_sdk) s = Return 0%Z ->
  (3 <= Onboarding.major version)%Z /\ (12 <= Onboarding.minor version)%Z
  /\ (exists token, os_getenv env TOKEN_VAR = Some token
                    /\ startswith token (lit "sk-ant-oat") = true)
  /\ (exists key, os_getenv env API_KEY_VAR = Some key
                  /\ startswith key (lit "e2b_") = true)
  /\ (forall w prompt timeout verbose,
        fst (runTask env w (RunAgentTask prompt timeout verbose)) <> [])
  /\ (forall w request, fst (runTask env w (ApiServerTask request)) <> []).
Proof.
  intros Hv Hd He Hres.
  destruct (own_checks_return version env) as (Hp & Ho & Hk & Ht).
  unfold Onboarding.main in Hres.
  match type of Hres with
  | run_result (Onboarding.main_with ?checks _) _ = _ =>
    assert (Hnd : List.NoDup (map fst checks));
    [| assert (Hall : Forall (fun c => verdict (snd c) <> None) checks);
       [| destruct (OnboardingFacts.main_with_unfolded checks s Hnd Hall)
            as (tr & trs & _ & Hmain);
          unfold run_result in Hres; rewrite Hmain in Hres; cbv zeta in Hres;
          destruct (forallb (fun c => passes (snd c)) checks) eqn:Hpass;
          [| discriminate Hres]]]
  end.
  - cbn [map fst].
    repeat (constructor; [cbn; intuition discriminate|]). constructor.
  - repeat (apply Forall_cons_2; [cbn [snd]; assumption|]). apply Forall_nil_2.
  - cbn [forallb snd] in Hpass.
    apply andb_true_iff in Hpass as [Hpython Hpass].
    apply andb_true_iff in Hpass as [_ Hpass].
    apply andb_true_iff in Hpass as [_ Hpass].
    apply andb_true_iff in Hpass as [_ Hpass].
    apply andb_true_iff in Hpass as [Hoauth Hpass].
    apply andb_true_iff in Hpass as [He2b Hpass].
    apply andb_true_iff in Hpass as [Htpl _].
    apply passes_true in Hpython, Hoauth, He2b, Htpl.
    assert (Htemplate : truthy (os_getenv env TEMPLATE_VAR) = true).
    { revert Htpl. unfold_checks. cbn.
      destruct (truthy (os_getenv env TEMPLATE_VAR)); [reflexivity | discriminate]. }
    assert (Htoken : truthy (os_getenv env TOKEN_VAR)
                     && startswith (default [] (os_getenv env TOKEN_VAR)) (lit "sk-ant-oat")
                     = true).
    { revert Hoauth. unfold_checks. cbn.
      destruct (truthy (os_getenv env TOKEN_VAR) && _); [reflexivity | discriminate]. }
    assert (Hkey : truthy (os_getenv env API_KEY_VAR)
                   && startswith (default [] (os_getenv env API_KEY_VAR)) (lit "e2b_")
                   = true).
    { revert He2b. unfold_checks. cbn.
      destruct (truthy (os_getenv env API_KEY_VAR) && _); [reflexivity | discriminate]. }
    assert (Hversion : (3 <=? Onboarding.major version)%Z
                       && (12 <=? Onboarding.minor version)%Z = true).
    { revert Hpython. unfold_checks. cbn.
      destruct ((3 <=? _)%Z && _); [reflexivity | discriminate]. }
    apply andb_true_iff in Hversion as [Hmaj Hmin].
    apply andb_true_iff in Htoken as [Htok Htokp].
    apply andb_true_iff in Hkey as [Hkeyt Hkeyp].
    apply Z.leb_le in Hmaj, Hmin.
    split; [exact Hmaj|]. split; [exact Hmin|].
    split; [destruct (os_getenv env TOKEN_VAR) as [token|];
            [exists token; split; [reflexivity | exact Htokp] | discriminate]|].
    split; [destruct (os_getenv env API_KEY_VAR) as [key|];
            [exists key; split; [reflexivity | exact Hkeyp] | discriminate]|].
    destruct (handler_checks env) as [Hhandler _]. cbn [forallb] in Hhandler.
    split.
    + intros w prompt timeout verbose. unfold_run. cbn. rewrite Htemplate, Htok. cbn.
      repeat step; discriminate.
    + apply Hhandler. rewrite Htemplate, Htok, Hkeyt. reflexivity.
Qed.

(** ** The statements at example inputs *)


Lemma provisioning_failure_surfaces_witness :
  programs (fst (runTask example_env no_quota (ApiServerTask example_request))) = []
  /\ run_timeouts (fst (runTask example_env no_quota (ApiServerTask example_request))) = []
  /\ kills (fst (runTask example_env no_quota (ApiServerTask example_request))) = []
  /\ (is_Exception (SandboxException (lit "no quota")) = true ->
      surfaces (snd (runTask example_env no_quota (ApiServerTask example_request)))
               (SandboxException (lit "no quota")))
  /\ (forall resp,
        snd (runTask example_env no_quota (ApiServerTask example_request))
        = Return (Response resp) ->
        ApiServer.sandbox_id resp = None).
Proof.
  apply (provisioning_failure_surfaces example_env no_quota
           (ApiServerTask example_request) (SandboxException (lit "no quota"))).
  vm_compute. left. reflexivity.
Defined.

Lemma result_is_trimmed_witness : trimmed (lit "4") = true.
Proof.
  apply (result_is_trimmed example_env (calm_world (Return four))
           (RunAgentTask (lit "What is 2 + 2?") 120 false) (Text (lit "4")) (lit "4")).
  - reflexivity.
  - reflexivity.
Defined.

Lemma api_nonzero_exit_reply_witness :
  exists resp,
    run_result (ApiServer.run_agent example_env (calm_world (Return boom))
                  example_request) None = Return resp
    /\ ApiServer.success resp = false
    /\ ApiServer.result resp = None
    /\ ApiServer.error resp
       = Some (if bool_decide (stderr boom = []) then lit "Agent failed" else stderr boom)
    /\ ApiServer.error resp <> Some []
    /\ ApiServer.sandbox_id resp
       = head (created (calm_world (Return boom))
                 (run_trace (ApiServer.run_agent example_env (calm_world (Return boom))
                               example_request) None)).
Proof.
  apply (api_nonzero_exit_reply example_env (calm_world (Return boom))
           example_request boom).
  - vm_compute. left. reflexivity.
  - discriminate.
  - reflexivity.
Defined.

Lemma api_reply_shape_witness :
  (if ApiServer.success
        {| ApiServer.success := true; ApiServer.result := Some (lit "4");
           ApiServer.error := None; ApiServer.sandbox_id := Some (lit "sbx-1") |}
   then is_Some (Some (lit "4")) /\ (None : option pystr) = None
   else Some (lit "4") = None /\ is_Some (None : option pystr))
  /\ Some (lit "sbx-1")
     = head (created (calm_world (Return four))
               (run_trace (ApiServer.run_agent example_env (calm_world (Return four))
                             example_request) None)).
Proof.
  apply (api_reply_shape example_env (calm_world (Return four)) example_request
           {| ApiServer.success := true; ApiServer.result := Some (lit "4");
              ApiServer.error := None; ApiServer.sandbox_id := Some (lit "sbx-1") |}).
  reflexivity.
Defined.

Lemma raised_errors_have_an_origin_witness :
  (fst (runTask example_env (stormy_world (Return four))
          (ApiServerTask example_request)) = []
   /\ is_configuration_error (SandboxException (lit "kill failed")) = true)
  \/ In (SandboxException (lit "kill failed"))
        (release_failures (stormy_world (Return four))
           (fst (runTask example_env (stormy_world (Return four))
                   (ApiServerTask example_request))))
  \/ ((In (SandboxException (lit "kill failed"))
          (provisioning_failures (stormy_world (Return four))
             (fst (runTask example_env (stormy_world (Return four))
                     (ApiServerTask example_request))))
       \/ In (SandboxException (lit "kill failed"))
             (primary_errors (stormy_world (Return four)) (ApiServerTask example_request)
                (fst (runTask example_env (stormy_world (Return four))
                        (ApiServerTask example_request)))))
      /\ is_Exception (SandboxException (lit "kill failed")) = false).
Proof.
  apply (raised_errors_have_an_origin example_env (stormy_world (Return four))
           (ApiServerTask example_request) (SandboxException (lit "kill failed"))).
  reflexivity.
Defined.

Lemma main_returns_only_on_success_witness :
  exists h res,
    created (calm_world (Return four))
      (RunAgentMain.calls
         (fst (RunAgentMain.main example_env (calm_world (Return four)) example_args)))
    = [h]
    /\ kills (RunAgentMain.calls
                (fst (RunAgentMain.main example_env (calm_world (Return four))
                        example_args))) = [h]
    /\ exits (calm_world (Return four))
         (RunAgentMain.calls
            (fst (RunAgentMain.main example_env (calm_world (Return four))
                    example_args))) = [res]
    /\ exit_code res = 0%Z
    /\ release_failures (calm_world (Return four))
         (RunAgentMain.calls
            (fst (RunAgentMain.main example_env (calm_world (Return four))
                    example_args))) = []
    /\ step_failures (calm_world (Return four))
         (RunAgentMain.calls
            (fst (RunAgentMain.main example_env (calm_world (Return four))
                    example_args))) = []
    /\ List.last (fst (RunAgentMain.main example_env (calm_world (Return four))
                         example_args)) RunAgentMain.PrintHelp
       = RunAgentMain.Call (Printed (strip (stdout res)))
    /\ RunAgentMain.stderr_lines
         (fst (RunAgentMain.main example_env (calm_world (Return four))
                 example_args)) = [].
Proof.
  apply (main_returns_only_on_success example_env (calm_world (Return four))
           example_args).
  reflexivity.
Defined.

Lemma main_missing_configuration_witness :
  RunAgentMain.main (delete TEMPLATE_VAR example_env) (calm_world (Return four))
    example_args
  = ([RunAgentMain.Stderr (lit "Error: E2B_TEMPLATE_ID not set. Run: ./setup.sh")],
     RunAgentMain.SystemExit 1).
Proof.
  rewrite (main_missing_configuration (delete TEMPLATE_VAR example_env)
             (calm_world (Return four)) example_args TEMPLATE_VAR).
  - reflexivity.
  - reflexivity.
  - left. reflexivity.
  - reflexivity.
Defined.

Lemma main_failure_is_exit_witness :
  (exists code,
     RunAgentMain.ParserExit 2 = RunAgentMain.ParserExit code
     /\ RunAgentMain.whole_main example_env (stormy_world (Return boom))
          (RunAgentMain.ParserExit 2) = ([], RunAgentMain.SystemExit code))
  \/ (exists args,
        RunAgentMain.ParserExit 2 = RunAgentMain.Parsed args
        /\ snd (RunAgentMain.whole_main example_env (stormy_world (Return boom))
                  (RunAgentMain.ParserExit 2)) = RunAgentMain.SystemExit 1
        /\ (fst (RunAgentMain.whole_main example_env (stormy_world (Return boom))
                   (RunAgentMain.ParserExit 2)) = [RunAgentMain.PrintHelp]
            \/ exists e,
                 RunAgentMain.stderr_lines
                   (fst (RunAgentMain.whole_main example_env (stormy_world (Return boom))
                           (RunAgentMain.ParserExit 2)))
                 = [lit "Error: " ++ str_exn e]
                 /\ List.last
                      (fst (RunAgentMain.whole_main example_env (stormy_world (Return boom))
                              (RunAgentMain.ParserExit 2)))
                      RunAgentMain.PrintHelp
                    = RunAgentMain.Stderr (lit "Error: " ++ str_exn e)))
  \/ (exists e,
        snd (RunAgentMain.whole_main example_env (stormy_world (Return boom))
               (RunAgentMain.ParserExit 2)) = RunAgentMain.Propagated e
        /\ is_Exception e = false).
Proof.
  apply (main_failure_is_exit example_env (stormy_world (Return boom))
           (RunAgentMain.ParserExit 2)).
  discriminate.
Defined.

Lemma examples_do_not_validate_witness :
  creates (script_trace ∅ (calm_world (Return four)) BasicSyncScript)
  = [(os_getenv ∅ TEMPLATE_VAR, 120%Z, {[ TOKEN_VAR := os_getenv ∅ TOKEN_VAR ]})].
Proof.
  apply (examples_do_not_validate ∅ (calm_world (Return four)) BasicSyncScript).
  right. reflexivity.
Defined.

Lemma check_environment_shows_ten_witness :
  ValidateSetup.check_environment example_env []
  = ValidateSetup.check_environment other_env [].
Proof.
  apply (check_environment_shows_ten example_env other_env []).
  intros v [<- | [<- | [<- | []]]].
  - left. reflexivity.
  - left. reflexivity.
  - right. exists (lit "sk-ant-oat"), (lit "-1"), (lit "-2-other").
    repeat split; try reflexivity; discriminate.
Defined.

Lemma onboarding_checks_suffice_witness :
  (forall w prompt timeout verbose,
     fst (runTask example_env w (RunAgentTask prompt timeout verbose)) <> [])
  /\ (run_result (Onboarding.check_e2b_auth example_env) tt = Return true ->
      forall w request, fst (runTask example_env w (ApiServerTask request)) <> []).
Proof.
  apply (onboarding_checks_suffice example_env); reflexivity.
Defined.

Lemma onboarding_verdict_witness :
  run_result (Onboarding.main_with two_checks (ret true)) [] = Return 1%Z
  /\ In (Printed (lit "second runs"))
        (run_trace (Onboarding.main_with two_checks (ret true)) []).
Proof.
  assert (Hnd : List.NoDup (map fst two_checks)).
  { repeat (constructor; [cbn; intuition discriminate|]). constructor. }
  assert (Hall : Forall (fun c => verdict (snd c) <> None) two_checks).
  { repeat (apply Forall_cons_2; [discriminate|]). apply Forall_nil_2. }
  destruct (onboarding_verdict two_checks (ret true) [] Hnd Hall)
    as (_ & Hfail & Hruns).
  split.
  - apply Hfail. reflexivity.
  - apply (Hruns (lit "second", print (lit "second runs") ;; ret true)).
    + right. left. reflexivity.
    + left. reflexivity.
Defined.

Lemma onboarding_success_means_configured_witness :
  (3 <= Onboarding.major python_3_12)%Z /\ (12 <= Onboarding.minor python_3_12)%Z
  /\ (exists token, os_getenv example_env TOKEN_VAR = Some token
                    /\ startswith token (lit "sk-ant-oat") = true)
  /\ (exists key, os_getenv example_env API_KEY_VAR = Some key
                  /\ startswith key (lit "e2b_") = true)
  /\ (forall w prompt timeout verbose,
        fst (runTask example_env w (RunAgentTask prompt timeout verbose)) <> [])
  /\ (forall w request, fst (runTask example_env w (ApiServerTask request)) <> []).
Proof.
  apply (onboarding_success_means_configured python_3_12 example_env
           (ret true) (ret true) (ret true) (ret false) []);
    first [discriminate | reflexivity].
Defined.

(** ** The validation of the sandbox template *)

Arguments ValidateSetup.ripgrep_version : simpl never.

(** A printed line is not the line of the template check: they differ in
    one of their first characters. *)
Ltac other_line :=
  cbv -[os_getenv format strip ValidateSetup.ripgrep_version ValidateSetup.preview
        str_exn stdout stderr];
  intuition discriminate.

Ltac unfold_validate :=
  unfold ValidateSetup.validate_sandbox, run_trace, run_result,
    bind, try_finally, try_except, create, commands_run, kill, print, call,
    ret, raise.

(** X24. The sandbox calls of [validate_sandbox] come in one fixed order:
    nothing at all when the template is not set; else one provisioning
    call, with timeout 60 and no variables; and when that returned a
    sandbox, the first one to four of the commands [claude --version],
    [rg --version], the SDK version and [echo], in this order, and then
    exactly one release call on that sandbox. Nothing is ever uploaded. *)
Theorem validate_sandbox_calls_in_order {S} run_timeout env w (s : S) :
  let calls :=
    sandbox_calls (run_trace (ValidateSetup.validate_sandbox run_timeout env w) s) in
  let provision := Create (os_getenv env TEMPLATE_VAR) 60 ∅ in
  (calls = [] /\ truthy (os_getenv env TEMPLATE_VAR) = false)
  \/ (calls = [provision] /\ exists e, w_create w (os_getenv env TEMPLATE_VAR) 60 ∅ = Raise e)
  \/ exists h n,
       (1 <= n <= 4)%nat
       /\ calls = provision
                  :: map (fun cmd => CommandsRun h cmd run_timeout)
                         (take n [ValidateSetup.CLAUDE_VERSION; ValidateSetup.RG_VERSION;
                                  ValidateSetup.SDK_VERSION; ValidateSetup.ECHO])
                  ++ [Kill h].
Proof.
  cbv zeta. unfold_validate. cbn. repeat step;
    first [ left; split; reflexivity
          | right; left; split; [reflexivity | eexists; reflexivity]
          | right; right; eexists; exists 1%nat; split; [lia | reflexivity]
          | right; right; eexists; exists 2%nat; split; [lia | reflexivity]
          | right; right; eexists; exists 3%nat; split; [lia | reflexivity]
          | right; right; eexists; exists 4%nat; split; [lia | reflexivity] ].
Qed.

(** When [validate_sandbox] returns [True]: the template is set, the
    provisioning call returned a sandbox, the four commands ran to their
    end, the three required ones with exit status 0, and the release call
    returned. *)
Lemma validate_sandbox_true {S} run_timeout env w (s : S) :
  run_result (ValidateSetup.validate_sandbox run_timeout env w) s = Return true ->
  truthy (os_getenv env TEMPLATE_VAR) = true
  /\ exists h r1 r2 r3 r4,
       w_create w (os_getenv env TEMPLATE_VAR) 60 ∅ = Return h
       /\ w_run w h ValidateSetup.CLAUDE_VERSION run_timeout = Return r1
       /\ w_run w h ValidateSetup.RG_VERSION run_timeout = Return r2
       /\ w_run w h ValidateSetup.SDK_VERSION run_timeout = Return r3
       /\ w_run w h ValidateSetup.ECHO run_timeout = Return r4
       /\ exit_code r1 = 0%Z /\ exit_code r3 = 0%Z /\ exit_code r4 = 0%Z
       /\ w_kill w h = Return tt.
Proof.
  unfold_validate. cbn. repeat step; intros Hres; try discriminate Hres.
  all: split; [reflexivity|].
  all: repeat match goal with
              | H : (_ =? 0)%Z = true |- _ => apply Z.eqb_eq in H
              | u : unit |- _ => destruct u
              end.
  all: do 5 eexists; repeat split; eauto.
Qed.

(** The converse of [validate_sandbox_true]. *)
Lemma validate_sandbox_verdict_holds {S} run_timeout env w (s : S) :
  truthy (os_getenv env TEMPLATE_VAR) = true ->
  (exists h r1 r2 r3 r4,
     w_create w (os_getenv env TEMPLATE_VAR) 60 ∅ = Return h
     /\ w_run w h ValidateSetup.CLAUDE_VERSION run_timeout = Return r1
     /\ w_run w h ValidateSetup.RG_VERSION run_timeout = Return r2
     /\ w_run w h ValidateSetup.SDK_VERSION run_timeout = Return r3
     /\ w_run w h ValidateSetup.ECHO run_timeout = Return r4
     /\ exit_code r1 = 0%Z /\ exit_code r3 = 0%Z /\ exit_code r4 = 0%Z
     /\ w_kill w h = Return tt) ->
  run_result (ValidateSetup.validate_sandbox run_timeout env w) s = Return true.
Proof.
  intros Ht (h & r1 & r2 & r3 & r4 & Hc & H1 & H2 & H3 & H4 & E1 & E3 & E4 & Hk).
  unfold_validate. rewrite Ht. cbn. rewrite Hc. cbn.
  rewrite H1. cbn. rewrite E1. cbn. rewrite H2. cbn.
  destruct (exit_code r2 =? 0)%Z; cbn;
    rewrite H3; cbn; rewrite E3; cbn; rewrite H4; cbn; rewrite E4; cbn;
    rewrite Hk; reflexivity.
Qed.

(** X25. The verdict of [validate_sandbox]. It returns [True] exactly when
    the template is set, the provisioning call returns a sandbox, all four
    commands run to their end, [claude --version], the SDK version and
    [echo] exit with status 0, and the release call returns. The exit
    status of [rg --version] plays no part: ripgrep is optional. *)
Theorem validate_sandbox_verdict {S} run_timeout env w (s : S) :
  run_result (ValidateSetup.validate_sandbox run_timeout env w) s = Return true
  <-> (truthy (os_getenv env TEMPLATE_VAR) = true
       /\ exists h r1 r2 r3 r4,
            w_create w (os_getenv env TEMPLATE_VAR) 60 ∅ = Return h
            /\ w_run w h ValidateSetup.CLAUDE_VERSION run_timeout = Return r1
            /\ w_run w h ValidateSetup.RG_VERSION run_timeout = Return r2
            /\ w_run w h ValidateSetup.SDK_VERSION run_timeout = Return r3
            /\ w_run w h ValidateSetup.ECHO run_timeout = Return r4
            /\ exit_code r1 = 0%Z /\ exit_code r3 = 0%Z /\ exit_code r4 = 0%Z
            /\ w_kill w h = Return tt).
Proof.
  split; [apply validate_sandbox_true|].
  intros [Ht Hex]. apply validate_sandbox_verdict_holds; assumption.
Qed.

(** X26. When the provisioning call of [validate_sandbox] fails with an
    [Exception], the function does not raise: it prints the error and
    returns [False], and makes no further call. An error that is not an
    [Exception] is raised as it is. In both cases nothing is run and
    nothing is released. *)
Theorem validate_sandbox_create_failure {S} run_timeout env w (s : S) e :
  In e (provisioning_failures w
          (run_trace (ValidateSetup.validate_sandbox run_timeout env w) s)) ->
  run_result (ValidateSetup.validate_sandbox run_timeout env w) s
  = (if is_Exception e then Return false else Raise e)
  /\ (is_Exception e = true ->
      In (CROSS_MARK :: lit " Failed to create sandbox: " ++ str_exn e)
         (printed (run_trace (ValidateSetup.validate_sandbox run_timeout env w) s)))
  /\ sandbox_calls (run_trace (ValidateSetup.validate_sandbox run_timeout env w) s)
     = [Create (os_getenv env TEMPLATE_VAR) 60 ∅].
Proof.
  unfold_validate. cbn. repeat step;
    unfold provisioning_failures; cbn; use_answers; cbn; intros Hin; tidy;
    try congruence;
    (split; [reflexivity | split; [|reflexivity]]);
    intros Hex; first [discriminate Hex | right; left; reflexivity].
Qed.

(** X27. A command of [validate_sandbox] that raises makes the validation
    raise: the sandbox is still released, exactly once, and when the
    release returns, the error of the command is what the caller gets;
    [False] or [True] is never returned. This holds for [rg --version] as
    for the others: ripgrep is optional by its exit status only. *)
Theorem validate_sandbox_failed_command {S} run_timeout env w (s : S) e :
  In e (step_failures w
          (run_trace (ValidateSetup.validate_sandbox run_timeout env w) s)) ->
  (exists h,
     created w (run_trace (ValidateSetup.validate_sandbox run_timeout env w) s) = [h]
     /\ kills (run_trace (ValidateSetup.validate_sandbox run_timeout env w) s) = [h]
     /\ (w_kill w h = Return tt ->
         run_result (ValidateSetup.validate_sandbox run_timeout env w) s = Raise e))
  /\ exists e',
       run_result (ValidateSetup.validate_sandbox run_timeout env w) s = Raise e'.
Proof.
  unfold_validate. cbn. repeat step;
    unfold step_failures, created, kills; cbn; use_answers; cbn;
    intros Hin; tidy; try congruence;
    (split; [eexists; split; [reflexivity | split; [reflexivity|]]
            | eexists; reflexivity]);
    intros Hk; first [reflexivity | congruence].
Qed.

(** ** [main] of [validate_setup.py] *)

(** What [check_environment] contributes to [main]: its verdict, no call
    to the sandbox client, and none of the lines of [validate_sandbox]. *)
Lemma check_environment_run env s :
  exists t s',
    ValidateSetup.check_environment env s
    = (t, s', Return (forallb truthy [os_getenv env API_KEY_VAR;
                                      os_getenv env TEMPLATE_VAR;
                                      os_getenv env TOKEN_VAR]))
    /\ sandbox_calls t = []
    /\ ~ In (CROSS_MARK :: lit " E2B_TEMPLATE_ID not found in environment") (printed t).
Proof.
  unfold_checks. cbn.
  destruct (truthy (os_getenv env API_KEY_VAR)),
           (truthy (os_getenv env TEMPLATE_VAR)),
           (truthy (os_getenv env TOKEN_VAR)); cbn;
    do 2 eexists; (split; [reflexivity | split; [reflexivity|]]);
    cbn; other_line.
Qed.

(** X28. [main] of [validate_setup.py] makes no call to the sandbox client
    unless all three settings are there: when the key, the template or the
    token is unset or empty, it exits with status 1 and nothing has been
    provisioned. *)
Theorem validate_main_needs_environment run_timeout env w v :
  In v [API_KEY_VAR; TEMPLATE_VAR; TOKEN_VAR] ->
  truthy (os_getenv env v) = false ->
  snd (ValidateSetup.main run_timeout env w) = RunAgentMain.SystemExit 1
  /\ sandbox_calls (fst (ValidateSetup.main run_timeout env w)) = [].
Proof.
  intros Hv Hmiss. unfold ValidateSetup.main.
  destruct (check_environment_run env []) as (t & s' & -> & Hcalls & _).
  assert (Hall : forallb truthy [os_getenv env API_KEY_VAR;
                                 os_getenv env TEMPLATE_VAR;
                                 os_getenv env TOKEN_VAR] = false).
  { cbn [forallb]. destruct Hv as [<- | [<- | [<- | []]]]; rewrite Hmiss;
      rewrite ?andb_false_r; reflexivity. }
  rewrite Hall. cbn [fst snd]. split; [reflexivity|].
  unfold sandbox_calls in *. rewrite flat_map_app, Hcalls. reflexivity.
Qed.

(** X29. [main] of [validate_setup.py] returns, with exit status 0, exactly
    when the three settings are there and the sandbox passes: provisioning
    returns a sandbox, the four commands run to their end, the three
    required ones with exit status 0, and the release returns. With the
    environment of such a run, [run_agent] and the handler of the server
    get past their configuration checks. *)
Theorem validate_main_returns_means_valid run_timeout env w :
  (snd (ValidateSetup.main run_timeout env w) = RunAgentMain.Returned
   <-> (forallb truthy [os_getenv env API_KEY_VAR; os_getenv env TEMPLATE_VAR;
                        os_getenv env TOKEN_VAR] = true
        /\ exists h r1 r2 r3 r4,
             w_create w (os_getenv env TEMPLATE_VAR) 60 ∅ = Return h
             /\ w_run w h ValidateSetup.CLAUDE_VERSION run_timeout = Return r1
             /\ w_run w h ValidateSetup.RG_VERSION run_timeout = Return r2
             /\ w_run w h ValidateSetup.SDK_VERSION run_timeout = Return r3
             /\ w_run w h ValidateSetup.ECHO run_timeout = Return r4
             /\ exit_code r1 = 0%Z /\ exit_code r3 = 0%Z /\ exit_code r4 = 0%Z
             /\ w_kill w h = Return tt))
  /\ (snd (ValidateSetup.main run_timeout env w) = RunAgentMain.Returned ->
      (forall w' prompt timeout verbose,
         fst (runTask env w' (RunAgentTask prompt timeout verbose)) <> [])
      /\ (forall w' request, fst (runTask env w' (ApiServerTask request)) <> [])).
Proof.
  assert (Hiff :
    snd (ValidateSetup.main run_timeout env w) = RunAgentMain.Returned
    <-> (forallb truthy [os_getenv env API_KEY_VAR; os_getenv env TEMPLATE_VAR;
                         os_getenv env TOKEN_VAR] = true
         /\ run_result (ValidateSetup.validate_sandbox run_timeout env w) tt
            = Return true)).
  { unfold ValidateSetup.main, run_result.
    destruct (check_environment_run env []) as (t & s' & -> & _ & _).
    destruct (forallb truthy _); cbn [snd].
    - destruct (ValidateSetup.validate_sandbox run_timeout env w tt)
        as [[t2 u] [[|]|e]]; cbn [snd]; split;
        first [ intros _; split; reflexivity
              | intros H; discriminate H
              | intros [_ H]; discriminate H
              | intros _; reflexivity ].
    - split; [intros H; discriminate H | intros [H _]; discriminate H]. }
  split.
  - rewrite Hiff. split.
    + intros [Henv Hres]. split; [exact Henv|].
      apply validate_sandbox_true in Hres. apply Hres.
    + intros [Henv Hex]. split; [exact Henv|].
      apply validate_sandbox_verdict_holds; [|exact Hex].
      cbn [forallb] in Henv. apply andb_true_iff in Henv as [_ Henv].
      apply andb_true_iff in Henv as [Ht _]. exact Ht.
  - intros Hret. apply Hiff in Hret as [Henv _].
    cbn [forallb] in Henv. rewrite andb_true_r in Henv.
    apply andb_true_iff in Henv as [Hk Henv].
    apply andb_true_iff in Henv as [Ht Ho].
    destruct (handler_checks env) as [Hhandler _]. cbn [forallb] in Hhandler.
    split.
    + intros w' prompt timeout verbose. unfold_run. cbn. rewrite Ht, Ho. cbn.
      repeat step; discriminate.
    + apply Hhandler. rewrite Ht, Ho, Hk. reflexivity.
Qed.

(** X30. The line ["E2B_TEMPLATE_ID not found in environment"] of
    [validate_sandbox] is printed when the function is called without a
    template, and never in a run of [main]: [check_environment] has
    stopped the script before. *)
Theorem validate_main_template_check_is_dead run_timeout env w :
  (truthy (os_getenv env TEMPLATE_VAR) = false ->
   printed (run_trace (ValidateSetup.validate_sandbox run_timeout env w) tt)
   = [CROSS_MARK :: lit " E2B_TEMPLATE_ID not found in environment"])
  /\ ~ In (CROSS_MARK :: lit " E2B_TEMPLATE_ID not found in environment")
          (printed (fst (ValidateSetup.main run_timeout env w))).
Proof.
  split.
  - intros Ht. unfold_validate. rewrite Ht. reflexivity.
  - unfold ValidateSetup.main.
    destruct (check_environment_run env []) as (t & s' & -> & _ & Hnot).
    assert (Hsandbox :
      truthy (os_getenv env TEMPLATE_VAR) = true ->
      ~ In (CROSS_MARK :: lit " E2B_TEMPLATE_ID not found in environment")
           (printed (run_trace (ValidateSetup.validate_sandbox run_timeout env w) tt))).
    { intros Ht. unfold_validate. rewrite Ht. cbn. repeat step;
        unfold printed; cbn; other_line. }
    destruct (forallb truthy _) eqn:Henv; cbn [fst].
    + cbn [forallb] in Henv. apply andb_true_iff in Henv as [_ Henv].
      apply andb_true_iff in Henv as [Ht _]. specialize (Hsandbox Ht).
      unfold run_trace in Hsandbox.
      destruct (ValidateSetup.validate_sandbox run_timeout env w tt)
        as [[t2 u] [[|]|e]]; cbn [fst] in *;
        unfold printed in *; rewrite !flat_map_app; rewrite !in_app_iff;
        intros [H | [H | H]]; try (apply Hnot; exact H);
        try (apply Hsandbox; exact H);
        revert H; try rewrite in_app_iff; other_line.
    + unfold printed in *. rewrite flat_map_app, in_app_iff.
      intros [H | H]; [|apply Hnot; exact H].
      revert H. other_line.
Qed.

Lemma validate_sandbox_create_failure_witness :
  run_result (ValidateSetup.validate_sandbox 60 example_env no_quota) tt = Return false.
Proof.
  apply (validate_sandbox_create_failure 60 example_env no_quota tt
           (SandboxException (lit "no quota"))).
  vm_compute. left. reflexivity.
Defined.

Lemma validate_sandbox_failed_command_witness :
  exists e',
    run_result (ValidateSetup.validate_sandbox 60 example_env
                  (calm_world (Raise (TimeoutException (lit "timed out"))))) tt
    = Raise e'.
Proof.
  apply (validate_sandbox_failed_command 60 example_env
           (calm_world (Raise (TimeoutException (lit "timed out")))) tt
           (TimeoutException (lit "timed out"))).
  vm_compute. left. reflexivity.
Defined.

Lemma validate_main_needs_environment_witness :
  snd (ValidateSetup.main 60 (delete TEMPLATE_VAR example_env) (calm_world (Return four)))
  = RunAgentMain.SystemExit 1
  /\ sandbox_calls
       (fst (ValidateSetup.main 60 (delete TEMPLATE_VAR example_env)
               (calm_world (Return four)))) = [].
Proof.
  apply (validate_main_needs_environment 60 (delete TEMPLATE_VAR example_env)
           (calm_world (Return four)) TEMPLATE_VAR).
  - right. left. reflexivity.
  - reflexivity.
Defined.

Lemma validate_sandbox_verdict_witness :
  run_result (ValidateSetup.validate_sandbox 60 example_env no_ripgrep) tt = Return true.
Proof.
  apply (proj2 (validate_sandbox_verdict 60 example_env no_ripgrep tt)).
  split; [reflexivity|].
  exists (lit "sbx-1"), four, boom, four, four.
  repeat split; reflexivity.
Defined.

Lemma validate_main_returns_means_valid_witness :
  snd (ValidateSetup.main 60 example_env no_ripgrep) = RunAgentMain.Returned.
Proof.
  apply (proj2 (proj1 (validate_main_returns_means_valid 60 example_env no_ripgrep))).
  split; [reflexivity|].
  exists (lit "sbx-1"), four, boom, four, four.
  repeat split; reflexivity.
Defined.
